(** * Flowchart layout tool: extraction, layout request, generation

    A shallow embedding of [python_tools/flowchart_layout_tool.py].

    - Python [str] is [string]; [str.lower] is the ASCII lower-casing,
      which agrees with Python on every keyword the tool tests for.
    - A Python [dict] is an association list kept in insertion order
      ([PyDict]): assigning to an existing key replaces the value in place,
      assigning to a new key appends, as in CPython.
    - An [xml.etree] element is a tag, its attributes and its children;
      an element is truthy exactly when it has children.
    - Python floats are reached through the interface [PyFloat].
    - A raised exception is the [Raise] branch of [result].
    - [generate] gives the element tree of the output document; writing
      the tree as text and reading the text back is the interface
      [XmlFile], which keeps a tree whose attribute values are printable
      ASCII and promises nothing about the others.
    - The solver's answer is a record of the shape ELK documents; an
      answer of another shape, on which the source raises [KeyError] or
      [TypeError], is not a value of [ElkResult].
    - An id that [cell.get("id")] does not find is the empty string; the
      parser only meets elements of the index, which all carry an id. *)

From Stdlib Require Import String Ascii List ZArith Bool Arith Lia DecimalString.
Import ListNotations.
Local Open Scope string_scope.
Local Open Scope list_scope.

Set Implicit Arguments.

(* ------------------------------------------------------------------ *)
(** ** Python strings *)

Module PyStr.

Definition lower_ascii (c : ascii) : ascii :=
  let n := nat_of_ascii c in
  if (Nat.leb 65 n && Nat.leb n 90)%bool then ascii_of_nat (n + 32) else c.

(** [s.lower()] *)
Fixpoint lower (s : string) : string :=
  match s with
  | EmptyString => EmptyString
  | String c s' => String (lower_ascii c) (lower s')
  end.

(** [needle in hay] *)
Fixpoint contains (needle hay : string) : bool :=
  if String.prefix needle hay then true
  else match hay with
       | EmptyString => false
       | String _ hay' => contains needle hay'
       end.

(** [s.split(sep)[0]] for a one-character separator *)
Fixpoint split_head (sep : ascii) (s : string) : string :=
  match s with
  | EmptyString => EmptyString
  | String c s' => if Ascii.eqb c sep then EmptyString else String c (split_head sep s')
  end.

(** [s.split(sep)[-1]] for a one-character separator: [acc] is the piece
    read since the last separator. *)
Fixpoint split_last_from (sep : ascii) (acc s : string) : string :=
  match s with
  | EmptyString => acc
  | String c s' =>
      if Ascii.eqb c sep then split_last_from sep EmptyString s'
      else split_last_from sep (acc ++ String c EmptyString) s'
  end.

Definition split_last (sep : ascii) (s : string) : string :=
  split_last_from sep EmptyString s.

(** truth value of a string *)
Definition truthy (s : string) : bool :=
  match s with EmptyString => false | _ => true end.

(** truth value of [d.get(k)]: present and not empty *)
Definition truthy_opt (o : option string) : bool :=
  match o with Some s => truthy s | None => false end.

(** [o == s] where [o] is the result of [d.get(k)] *)
Definition opt_eqb (o : option string) (s : string) : bool :=
  match o with Some v => String.eqb v s | None => false end.

(** [s in l] for a list of strings *)
Definition in_list (s : string) (l : list string) : bool :=
  existsb (String.eqb s) l.

(** [str(i)] for a non-negative [int] *)
Definition str_of_nat (n : nat) : string :=
  NilZero.string_of_uint (Nat.to_uint n).

End PyStr.

(* ------------------------------------------------------------------ *)
(** ** Python dictionaries with string keys, in insertion order *)

Module PyDict.
Section Dict.
Variable V : Type.

Definition t := list (string * V).

(** [d.get(k)] *)
Fixpoint get (k : string) (d : t) : option V :=
  match d with
  | [] => None
  | (k', v) :: d' => if String.eqb k k' then Some v else get k d'
  end.

(** [d[k] = v] *)
Fixpoint set (k : string) (v : V) (d : t) : t :=
  match d with
  | [] => [(k, v)]
  | (k', v') :: d' =>
      if String.eqb k k' then (k', v) :: d' else (k', v') :: set k v d'
  end.

(** [k in d] *)
Definition mem (k : string) (d : t) : bool :=
  match get k d with Some _ => true | None => false end.

Definition keys (d : t) : list string := map fst d.
Definition values (d : t) : list V := map snd d.

(** [d[k]] where the key is known to be present; [dflt] stands for the
    [KeyError] that cannot happen there. *)
Definition get_or (dflt : V) (k : string) (d : t) : V :=
  match get k d with Some v => v | None => dflt end.
End Dict.
End PyDict.

(* ------------------------------------------------------------------ *)
(** ** Exceptions *)

Inductive exn : Type :=
| ParseError                    (* ET.parse failed *)
| ValueError (msg : string)
| AttributeError
| IndexError
| RuntimeError (msg : string)
| OSError.

Inductive result (A : Type) : Type :=
| Ok (a : A)
| Raise (e : exn).
Arguments Ok {A} a.
Arguments Raise {A} e.

Definition bind {A B : Type} (r : result A) (k : A -> result B) : result B :=
  match r with
  | Ok a => k a
  | Raise e => Raise e
  end.

Notation "x <- c ;; k" := (bind c (fun x => k))
  (at level 61, c at next level, right associativity).

(** A loop whose body may raise: the first exception ends it. *)
Fixpoint for_each {S A : Type} (body : S -> A -> result S) (l : list A) (s : S)
  : result S :=
  match l with
  | [] => Ok s
  | a :: l' => s' <- body s a ;; for_each body l' s'
  end.

(* ------------------------------------------------------------------ *)
(** ** Elements of the document tree *)

#[warnings="-register-all"]
Inductive Element : Type :=
| Elem (tag : string) (attrib : list (string * string)) (children : list Element).

Module ET.

Definition tag (e : Element) : string :=
  match e with Elem t _ _ => t end.
Definition attrib (e : Element) : PyDict.t string :=
  match e with Elem _ a _ => a end.
Definition children (e : Element) : list Element :=
  match e with Elem _ _ c => c end.

(** [e.get(k)] *)
Definition get (e : Element) (k : string) : option string :=
  PyDict.get k (attrib e).

(** [e.get(k, dflt)] *)
Definition get_d (e : Element) (k dflt : string) : string :=
  match get e k with Some v => v | None => dflt end.

(** [e.iter()]: the element and all its descendants, in document order *)
Fixpoint iter (e : Element) : list Element :=
  match e with
  | Elem _ _ cs => e :: flat_map iter cs
  end.

(** [e.iter(t)] *)
Definition iter_tag (e : Element) (t : string) : list Element :=
  filter (fun x => String.eqb (tag x) t) (iter e).

(** [e.find(t)]: the first child with that tag; the tag, with its
    namespace in braces, is compared as a whole *)
Definition find (e : Element) (t : string) : option Element :=
  List.find (fun x => String.eqb (tag x) t) (children e).

(** [bool(e)]: an element without children is false *)
Definition truthy (e : Element) : bool :=
  match children e with [] => false | _ => true end.

(** truth value of an optional element ([None] is false) *)
Definition truthy_opt (o : option Element) : bool :=
  match o with Some e => truthy e | None => false end.

(** [a or b] on optional elements *)
Definition or_else (a b : option Element) : option Element :=
  if truthy_opt a then a else b.

(** [ET.SubElement(parent, ...)] appends a child *)
Definition SubElement (parent child : Element) : Element :=
  match parent with Elem t a cs => Elem t a (cs ++ [child]) end.

End ET.

(* ------------------------------------------------------------------ *)
(** ** Python floats *)

(** The tool only converts to floats ([float(120)], [float(s)]), prints them
    ([str(w)]) and stores them.  [float_of_str s = None] is the [ValueError]
    of [float(s)].  The law is Python's: the text of a float reads back. *)
Class PyFloat : Type := {
  float : Type;
  float_of_int : Z -> float;
  float_of_str : string -> option float;
  str_of_float : float -> string;
  float_of_str_of_float : forall f : float, float_of_str (str_of_float f) <> None
}.

(* ------------------------------------------------------------------ *)
(** ** Data definitions *)

Inductive NodeType : Type := START | END | PROCESS | DECISION.

Definition NodeType_eqb (a b : NodeType) : bool :=
  match a, b with
  | START, START | END, END | PROCESS, PROCESS | DECISION, DECISION => true
  | _, _ => false
  end.

Section Tool.
Context {PF : PyFloat}.

Record Point : Type := { px : float; py : float }.

Record FlowNode : Type := {
  node_id : string;
  node_type : NodeType;
  node_label : string;
  width : float;
  height : float;
  x : float;
  y : float
}.

Record FlowEdge : Type := {
  edge_id : string;
  source_id : string;
  target_id : string;
  label : string;
  source_side : string;
  target_side : string;
  routing_points : list Point
}.

Record FlowGraph : Type := {
  nodes : PyDict.t FlowNode;
  edges : list FlowEdge
}.

(** [FlowNode(id=.., node_type=.., label=.., width=.., height=..)] *)
Definition new_FlowNode (i : string) (t : NodeType) (l : string) (w h : float)
  : FlowNode :=
  {| node_id := i; node_type := t; node_label := l; width := w; height := h;
     x := float_of_int 0; y := float_of_int 0 |}.

(** [FlowEdge(id=.., source_id=.., target_id=..)] *)
Definition new_FlowEdge (i s t : string) : FlowEdge :=
  {| edge_id := i; source_id := s; target_id := t; label := "";
     source_side := "SOUTH"; target_side := "NORTH"; routing_points := [] |}.

(** field assignments *)
Definition set_node_type (t : NodeType) (n : FlowNode) : FlowNode :=
  {| node_id := node_id n; node_type := t; node_label := node_label n;
     width := width n; height := height n; x := x n; y := y n |}.

Definition set_xy (vx vy : float) (n : FlowNode) : FlowNode :=
  {| node_id := node_id n; node_type := node_type n; node_label := node_label n;
     width := width n; height := height n; x := vx; y := vy |}.

Definition set_label (l : string) (e : FlowEdge) : FlowEdge :=
  {| edge_id := edge_id e; source_id := source_id e; target_id := target_id e;
     label := l; source_side := source_side e; target_side := target_side e;
     routing_points := routing_points e |}.

Definition set_routing (pts : list Point) (ss ts : string) (e : FlowEdge) : FlowEdge :=
  {| edge_id := edge_id e; source_id := source_id e; target_id := target_id e;
     label := label e; source_side := ss; target_side := ts;
     routing_points := pts |}.

(* ---------------------------------------------------------------- *)
(** ** Parser *)

Record DrawioParser : Type := {
  graph : FlowGraph;
  cell_map : PyDict.t Element;
  namespace : string
}.

Definition with_graph (g : FlowGraph) (p : DrawioParser) : DrawioParser :=
  {| graph := g; cell_map := cell_map p; namespace := namespace p |}.

(** [cell.get("edge") == "1" or (cell.get("source") and cell.get("target"))] *)
Definition _is_edge (cell : Element) : bool :=
  PyStr.opt_eqb (ET.get cell "edge") "1"
  || (PyStr.truthy_opt (ET.get cell "source") && PyStr.truthy_opt (ET.get cell "target")).

(** [cell.find(self.namespace + "mxGeometry") or cell.find("mxGeometry")] *)
Definition find_geo (ns : string) (cell : Element) : option Element :=
  ET.or_else (ET.find cell (ns ++ "mxGeometry")) (ET.find cell "mxGeometry").

Definition is_None {A : Type} (o : option A) : bool :=
  match o with None => true | Some _ => false end.

Definition _is_node (p : DrawioParser) (cell : Element) : bool :=
  let geo := find_geo (namespace p) cell in
  let cid := ET.get cell "id" in
  if match cid with Some c => PyStr.in_list c ["0"; "1"] | None => false end
     || is_None geo || _is_edge cell
  then false
  else
    let style := PyStr.lower (ET.get_d cell "style" "") in
    if PyStr.contains "edgelabel" style || PyStr.opt_eqb (ET.get cell "connectable") "0"
    then false
    else
      match ET.get cell "parent" with
      | Some parent =>
          if PyStr.truthy parent && negb (PyStr.in_list parent ["0"; "1"])
          then
            let q := PyDict.get parent (cell_map p) in
            if ET.truthy_opt q && match q with Some e => _is_edge e | None => false end
            then false
            else true
          else true
      | None => true
      end.

(** [float(geo.get(k, dflt))] *)
Definition float_attr (geo : Element) (k : string) (dflt : Z) : result float :=
  match ET.get geo k with
  | None => Ok (float_of_int dflt)
  | Some s =>
      match float_of_str s with
      | Some f => Ok f
      | None => Raise (ValueError s)
      end
  end.

(** the style-based classification of [_parse_node] *)
Definition style_type (style : string) : NodeType :=
  let s_low := PyStr.lower style in
  if PyStr.contains "rhombus" s_low || PyStr.contains "diamond" s_low then DECISION
  else if PyStr.contains "ellipse" s_low then START
  else PROCESS.

(** [_parse_node] is only called on cells that [_is_node] accepts, which
    have an id and a geometry. *)
Definition _parse_node (p : DrawioParser) (cell : Element) : result DrawioParser :=
  let cid := ET.get_d cell "id" "" in
  let style := ET.get_d cell "style" "" in
  match find_geo (namespace p) cell with
  | None => Raise AttributeError
  | Some geo =>
      w <- float_attr geo "width" 120 ;;
      h <- float_attr geo "height" 60 ;;
      let ntype := style_type style in
      let n := new_FlowNode cid ntype (ET.get_d cell "value" "") w h in
      Ok (with_graph {| nodes := PyDict.set cid n (nodes (graph p));
                        edges := edges (graph p) |} p)
  end.

Definition same_pair (src tgt : string) (e : FlowEdge) : bool :=
  String.eqb (source_id e) src && String.eqb (target_id e) tgt.

Definition _parse_edge (p : DrawioParser) (cell : Element) : DrawioParser :=
  match ET.get cell "source", ET.get cell "target" with
  | Some src, Some tgt =>
      if PyStr.truthy src && PyStr.truthy tgt then
        if negb (existsb (same_pair src tgt) (edges (graph p))) then
          with_graph {| nodes := nodes (graph p);
                        edges := edges (graph p)
                                 ++ [new_FlowEdge (ET.get_d cell "id" "") src tgt] |} p
        else p
      else p
  | _, _ => p
  end.

(** ["yes"] for y/yes, ["no"] for n/no, otherwise the label is left as it is *)
Definition yes_no (val : string) (old : string) : string :=
  if PyStr.in_list val ["y"; "yes"] then "yes"
  else if PyStr.in_list val ["n"; "no"] then "no"
  else old.

Definition is_label_of (eid : string) (child : Element) : bool :=
  PyStr.opt_eqb (ET.get child "parent") eid
  && PyStr.contains "edgeLabel" (ET.get_d child "style" "").

(** one turn of the outer loop of [_extract_edge_labels] *)
Definition extract_edge_label (cm : PyDict.t Element) (edge : FlowEdge) : FlowEdge :=
  let cell := PyDict.get (edge_id edge) cm in
  if ET.truthy_opt cell
     && match cell with Some c => PyStr.truthy_opt (ET.get c "value") | None => false end
  then
    match cell with
    | Some c =>
        let val := PyStr.lower (ET.get_d c "value" "") in
        set_label (yes_no val (label edge)) edge
    | None => edge
    end
  else
    match List.find (is_label_of (edge_id edge)) (PyDict.values cm) with
    | Some child =>
        let val := PyStr.lower (ET.get_d child "value" "") in
        set_label (yes_no val (label edge)) edge
    | None => edge
    end.

Definition _extract_edge_labels (p : DrawioParser) : DrawioParser :=
  with_graph {| nodes := nodes (graph p);
                edges := map (extract_edge_label (cell_map p)) (edges (graph p)) |} p.

(** [if k in d: d[k] += 1] *)
Definition incr_if_present (k : string) (d : PyDict.t nat) : PyDict.t nat :=
  match PyDict.get k d with
  | Some c => PyDict.set k (c + 1) d
  | None => d
  end.

(** the counting loop of [_infer_node_types]; the state is [(ins, outs)] *)
Definition count_edge (io : PyDict.t nat * PyDict.t nat) (e : FlowEdge)
  : PyDict.t nat * PyDict.t nat :=
  let outs := incr_if_present (source_id e) (snd io) in
  let ins := incr_if_present (target_id e) (fst io) in
  (ins, outs).

Definition degrees (g : FlowGraph) : PyDict.t nat * PyDict.t nat :=
  let zero := map (fun kv : string * FlowNode => (fst kv, 0)) (nodes g) in
  fold_left count_edge (edges g) (zero, zero).

Definition refine_type (i o : nat) (node : FlowNode) : FlowNode :=
  let node := if (i =? 0)%nat && (0 <? o)%nat then set_node_type START node else node in
  if (o =? 0)%nat && (0 <? i)%nat then set_node_type END node else node.

Definition _infer_node_types (p : DrawioParser) : DrawioParser :=
  let g := graph p in
  let '(ins, outs) := degrees g in
  with_graph
    {| nodes := map (fun kv : string * FlowNode =>
                       (fst kv, refine_type (PyDict.get_or 0 (fst kv) ins)
                                            (PyDict.get_or 0 (fst kv) outs) (snd kv)))
                    (nodes g);
       edges := edges g |} p.

(** the namespace prefix of the root tag *)
Definition namespace_of (root : Element) : string :=
  if PyStr.contains "}" (ET.tag root)
  then (PyStr.split_head "}" (ET.tag root) ++ "}")%string
  else "".

Definition find_model (ns : string) (root : Element) : option Element :=
  match ET.iter_tag root (ns ++ "mxGraphModel") with
  | elem :: _ => Some elem
  | [] =>
      match ET.iter_tag root "mxGraphModel" with
      | elem :: _ => Some elem
      | [] => None
      end
  end.

(** [cid = cell.get("id"); if cid: self.cell_map[cid] = cell] *)
Definition index_cell (cm : PyDict.t Element) (cell : Element) : PyDict.t Element :=
  match ET.get cell "id" with
  | Some cid => if PyStr.truthy cid then PyDict.set cid cell cm else cm
  | None => cm
  end.

Definition build_cell_map (model : Element) : PyDict.t Element :=
  fold_left index_cell (ET.iter model) [].

Definition parse_cell (p : DrawioParser) (cell : Element) : result DrawioParser :=
  if _is_edge cell then Ok (_parse_edge p cell)
  else if _is_node p cell then _parse_node p cell
  else Ok p.

(** [DrawioParser(xml_path).parse()]; [src] is what [ET.parse(xml_path)]
    gives: the root of the tree, or the exception it raised. *)
Definition parse (src : result Element) : result FlowGraph :=
  root <- src ;;
  let ns := namespace_of root in
  match find_model ns root with
  | None => Raise (ValueError "Invalid draw.io file")
  | Some mxgraph_model =>
      let p0 := {| graph := {| nodes := []; edges := [] |};
                   cell_map := build_cell_map mxgraph_model;
                   namespace := ns |} in
      p1 <- for_each parse_cell (PyDict.values (cell_map p0)) p0 ;;
      Ok (graph (_infer_node_types (_extract_edge_labels p1)))
  end.

(* ---------------------------------------------------------------- *)
(** ** Layout engine *)

Record ElkPort : Type := { port_id : string; port_side : string }.

Record ElkNode : Type := {
  elk_id : string;
  elk_width : float;
  elk_height : float;
  ports : list ElkPort;
  portConstraints : string
}.

Record ElkEdge : Type := {
  elk_edge_id : string;
  sources : list string;
  targets : list string;
  priority : Z      (* "org.eclipse.elk.layered.priority.direction" *)
}.

Record ElkGraph : Type := {
  layoutOptions : PyDict.t string;
  elk_children : list ElkNode;
  elk_edges : list ElkEdge
}.

Record ELKLayoutEngine : Type := {
  NODE_SPACING : float;
  LAYER_SPACING : float
}.

(** [ELKLayoutEngine()] *)
Definition default_engine : ELKLayoutEngine :=
  {| NODE_SPACING := float_of_int 50; LAYER_SPACING := float_of_int 36 |}.

Definition elk_node (kv : string * FlowNode) : ElkNode :=
  let nid := fst kv in
  let node := snd kv in
  {| elk_id := nid; elk_width := width node; elk_height := height node;
     ports := [ {| port_id := (nid ++ "_N")%string; port_side := "NORTH" |};
                {| port_id := (nid ++ "_S")%string; port_side := "SOUTH" |};
                {| port_id := (nid ++ "_E")%string; port_side := "EAST" |};
                {| port_id := (nid ++ "_W")%string; port_side := "WEST" |} ];
     portConstraints := "FIXED_SIDE" |}.

(** the body of the loop over [enumerate(graph.edges)]; [None] is
    [continue] *)
Definition elk_edge (g : FlowGraph) (i : nat) (edge : FlowEdge) : option ElkEdge :=
  match PyDict.get (source_id edge) (nodes g) with
  | None => None
  | Some src_node =>
      let src_port := (source_id edge ++ "_S")%string in
      let tgt_port := (target_id edge ++ "_N")%string in
      let edge_priority := 10%Z in
      let '(src_port, edge_priority) :=
        match node_type src_node with
        | START => ((source_id edge ++ "_S")%string, edge_priority)
        | DECISION =>
            if String.eqb (label edge) "no"
            then ((source_id edge ++ "_E")%string, 1%Z)
            else ((source_id edge ++ "_S")%string, 10%Z)
        | _ => (src_port, edge_priority)
        end in
      Some {| elk_edge_id := if PyStr.truthy (edge_id edge) then edge_id edge
                             else ("e" ++ PyStr.str_of_nat i)%string;
              sources := [src_port];
              targets := [tgt_port];
              priority := edge_priority |}
  end.

(** the loop over [enumerate(graph.edges)], from index [i] on *)
Fixpoint elk_edges_from (g : FlowGraph) (i : nat) (es : list FlowEdge)
  : list ElkEdge :=
  match es with
  | [] => []
  | edge :: es' =>
      match elk_edge g i edge with
      | Some d => d :: elk_edges_from g (S i) es'
      | None => elk_edges_from g (S i) es'
      end
  end.

Definition _build_elk_graph (self : ELKLayoutEngine) (g : FlowGraph) : ElkGraph :=
  {| layoutOptions :=
       [ ("elk.algorithm", "layered");
         ("elk.direction", "DOWN");
         ("elk.edgeRouting", "ORTHOGONAL");
         ("elk.layered.nodePlacement.strategy", "BRANDES_KOEPF");
         ("elk.layered.crossingMinimization.strategy", "LAYER_SWEEP");
         ("elk.layered.spacing.nodeNodeBetweenLayers", str_of_float (LAYER_SPACING self));
         ("elk.spacing.nodeNode", str_of_float (NODE_SPACING self));
         ("elk.spacing.edgeNode", "35.0");
         ("elk.spacing.edgeEdge", "25.0");
         ("elk.portConstraints", "FIXED_SIDE");
         ("elk.portAlignment.default", "CENTER") ];
     elk_children := map elk_node (nodes g);
     elk_edges := elk_edges_from g 0 (edges g) |}.

(** What the solver sends back, for an answer of the shape ELK documents:
    every child carries "id", "x" and "y", every section "startPoint" and
    "endPoint", and every point two numbers.  An optional field is a key
    that may be missing from the JSON object.  The source subscripts the
    parsed JSON as it comes: on an answer of another shape it raises
    [KeyError] or [TypeError], and it keeps a point as the dictionary it
    was parsed to, so that a whole number written without a fraction stays
    an [int].  Such answers are outside these records, and what is stated
    of an [ElkResult] is stated of the answers of this shape only. *)
Record ElkSection : Type := {
  startPoint : Point;
  bendPoints : option (list Point);
  endPoint : Point
}.

Record ElkEdgeResult : Type := {
  res_edge_id : string;
  res_sections : option (list ElkSection);
  res_sources : option (list string);
  res_targets : option (list string)
}.

Record ElkChildResult : Type := { res_id : string; res_x : float; res_y : float }.

Record ElkResult : Type := {
  res_children : option (list ElkChildResult);
  res_edges : option (list ElkEdgeResult)
}.

Definition get_list {A : Type} (o : option (list A)) (dflt : list A) : list A :=
  match o with Some l => l | None => dflt end.

(** [scale] is [1.0], so [child["x"] * scale] is [child["x"]]. *)
Definition apply_child (ns : PyDict.t FlowNode) (child : ElkChildResult)
  : PyDict.t FlowNode :=
  match PyDict.get (res_id child) ns with
  | Some n => PyDict.set (res_id child) (set_xy (res_x child) (res_y child) n) ns
  | None => ns
  end.

Definition section_points (sec : ElkSection) : list Point :=
  [startPoint sec] ++ get_list (bendPoints sec) [] ++ [endPoint sec].

(** assignment to the fields of the first edge of the list that [f] accepts *)
Fixpoint update_first (f : FlowEdge -> bool) (upd : FlowEdge -> FlowEdge)
  (l : list FlowEdge) : list FlowEdge :=
  match l with
  | [] => []
  | e :: l' => if f e then upd e :: l' else e :: update_first f upd l'
  end.

Definition apply_edge (es : list FlowEdge) (edge_res : ElkEdgeResult)
  : result (list FlowEdge) :=
  let eid := res_edge_id edge_res in
  let is_it := fun e => String.eqb (edge_id e) eid in
  if existsb is_it es then
    let points := flat_map section_points (get_list (res_sections edge_res) []) in
    match get_list (res_sources edge_res) ["_S"], get_list (res_targets edge_res) ["_N"] with
    | src_p :: _, tgt_p :: _ =>
        Ok (update_first is_it
              (set_routing points (PyStr.split_last "_" src_p) (PyStr.split_last "_" tgt_p))
              es)
    | _, _ => Raise IndexError
    end
  else Ok es.

Definition _apply_layout (g : FlowGraph) (elk_result : ElkResult) : result FlowGraph :=
  let ns := fold_left apply_child (get_list (res_children elk_result) []) (nodes g) in
  es <- for_each apply_edge (get_list (res_edges elk_result) []) (edges g) ;;
  Ok {| nodes := ns; edges := es |}.

(** [layout]; [call_elk] is [_call_elk_robust]: the outside solver, which
    answers or raises. *)
Definition layout (self : ELKLayoutEngine) (call_elk : ElkGraph -> result ElkResult)
  (g : FlowGraph) : result FlowGraph :=
  let elk_graph := _build_elk_graph self g in
  res <- call_elk elk_graph ;;
  _apply_layout g res.

(* ---------------------------------------------------------------- *)
(** ** Generator *)

Definition base_style : string := "html=1;whiteSpace=wrap;".

(** [styles.get(node.node_type, styles[NodeType.PROCESS])] *)
Definition node_style (t : NodeType) : string :=
  match t with
  | START => base_style ++ "ellipse;fillColor=#d5e8d4;strokeColor=#82b366;"
  | END => base_style ++ "ellipse;fillColor=#f8cecc;strokeColor=#b85450;"
  | PROCESS => base_style ++ "rounded=0;fillColor=#dae8fc;strokeColor=#6c8ebf;"
  | DECISION => base_style ++ "rhombus;fillColor=#fff2cc;strokeColor=#d6b656;"
  end%string.

Definition node_cell (node : FlowNode) : Element :=
  Elem "mxCell"
    [ ("id", node_id node); ("value", node_label node);
      ("style", node_style (node_type node)); ("vertex", "1"); ("parent", "1") ]
    [ Elem "mxGeometry"
        [ ("x", str_of_float (x node)); ("y", str_of_float (y node));
          ("width", str_of_float (width node)); ("height", str_of_float (height node));
          ("as", "geometry") ]
        [] ].

Definition _write_node (root : Element) (node : FlowNode) : Element :=
  ET.SubElement root (node_cell node).

Definition pmap : PyDict.t (string * string) :=
  [ ("N", ("0.5", "0")); ("S", ("0.5", "1")); ("E", ("1", "0.5")); ("W", ("0", "0.5")) ].

Definition point_cell (pt : Point) : Element :=
  Elem "mxPoint" [ ("x", str_of_float (px pt)); ("y", str_of_float (py pt)) ] [].

Definition edge_cell (edge : FlowEdge) : Element :=
  let '(ex, ey) := PyDict.get_or ("0.5", "1") (source_side edge) pmap in
  let '(ix, iy) := PyDict.get_or ("0.5", "0") (target_side edge) pmap in
  let style :=
    ("edgeStyle=orthogonalEdgeStyle;rounded=0;orthogonalLoop=1;jettySize=auto;html=1;"
     ++ "exitX=" ++ ex ++ ";exitY=" ++ ey ++ ";entryX=" ++ ix ++ ";entryY=" ++ iy
     ++ ";entryPerimeter=0;")%string in
  let lbl := if String.eqb (label edge) "yes" then "Y"
             else if String.eqb (label edge) "no" then "N"
             else "" in
  Elem "mxCell"
    [ ("id", edge_id edge); ("value", lbl); ("style", style);
      ("edge", "1"); ("parent", "1");
      ("source", source_id edge); ("target", target_id edge) ]
    [ Elem "mxGeometry" [ ("relative", "1"); ("as", "geometry") ]
        match routing_points edge with
        | [] => []
        | pts => [ Elem "Array" [ ("as", "points") ] (map point_cell pts) ]
        end ].

Definition _write_edge (root : Element) (edge : FlowEdge) : Element :=
  ET.SubElement root (edge_cell edge).

(** [generate], up to the write: the tree [mxfile] that lines 348-359
    build.  Lines 361-365 turn it into text and write the text: that is
    [write_output] of the [World] below, and, together with [ET.parse] of
    the written file, [written_and_read] of the interface [XmlFile]. *)
Definition generate (g : FlowGraph) : Element :=
  let root := Elem "root" []
                [ Elem "mxCell" [ ("id", "0") ] [];
                  Elem "mxCell" [ ("id", "1"); ("parent", "0") ] [] ] in
  let root := fold_left _write_node (PyDict.values (nodes g)) root in
  let root := fold_left _write_edge (edges g) root in
  Elem "mxfile" [ ("host", "elk-v4"); ("version", "4.0") ]
    [ Elem "diagram" [ ("name", "Flowchart") ]
        [ Elem "mxGraphModel"
            [ ("dx", "1200"); ("dy", "1200"); ("grid", "1"); ("gridSize", "10") ]
            [ root ] ] ].

(* ---------------------------------------------------------------- *)
(** ** Command *)

(** What [main] meets outside the program: whether [node -v] runs, what
    [ET.parse] gives for the input path, the solver, and the write of the
    output file. *)
Record World : Type := {
  node_installed : bool;
  read_input : result Element;
  call_elk : ElkGraph -> result ElkResult;
  write_output : Element -> result unit
}.

(** the body of the [try] block of [main] *)
Definition pipeline (w : World) : result unit :=
  g <- parse (read_input w) ;;
  g' <- layout default_engine (call_elk w) g ;;
  write_output w (generate g').

(** [main]: the exit status of the process.  [sys.exit(1)] gives 1; a
    return from [main] gives 0. *)
Definition main (w : World) : Z :=
  if negb (node_installed w) then 1%Z
  else
    match pipeline w with
    | Ok _ => 0%Z          (* logger.info("Done: ...") *)
    | Raise _ => 0%Z       (* logger.error("Failed: ..."); traceback.print_exc() *)
    end.

End Tool.

(* ------------------------------------------------------------------ *)
(** ** A float model to run the tool on

    The floats that are whole numbers, written the way Python writes them
    (["120.0"]).  [float_of_str] reads an optional sign, digits and an
    optional fraction of zeros, and refuses every other text, as
    [float] raises [ValueError] on text that is not a number. *)

Module WholeFloat.

Definition is_digit (c : ascii) : bool :=
  let n := nat_of_ascii c in (Nat.leb 48 n && Nat.leb n 57)%bool.

Fixpoint all_digits (s : string) : bool :=
  match s with
  | EmptyString => true
  | String c s' => is_digit c && all_digits s'
  end.

Fixpoint all_zeros (s : string) : bool :=
  match s with
  | EmptyString => true
  | String c s' => Ascii.eqb c "0" && all_zeros s'
  end.

(** digits, then nothing or a point followed by zeros *)
Fixpoint whole_shape (seen_digit : bool) (s : string) : bool :=
  match s with
  | EmptyString => seen_digit
  | String c s' =>
      if is_digit c then whole_shape true s'
      else if Ascii.eqb c "." then seen_digit && all_zeros s'
      else false
  end.

Fixpoint digits_value (acc : Z) (s : string) : Z :=
  match s with
  | EmptyString => acc
  | String c s' =>
      if is_digit c
      then digits_value (10 * acc + Z.of_nat (nat_of_ascii c - 48)) s'
      else acc
  end.

Definition unsigned_of_str (s : string) : option Z :=
  if whole_shape false s then Some (digits_value 0 s) else None.

Definition of_str (s : string) : option Z :=
  match s with
  | String "-" s' => option_map Z.opp (unsigned_of_str s')
  | String "+" s' => unsigned_of_str s'
  | _ => unsigned_of_str s
  end.

Definition to_str (z : Z) : string :=
  ((if (z <? 0)%Z then "-" else "")
   ++ NilZero.string_of_uint (N.to_uint (Z.abs_N z)) ++ ".0")%string.

End WholeFloat.


(* ------------------------------------------------------------------ *)
(** ** Notions used to state the properties *)

(** the element carries this id *)
Definition has_id (cid : string) (e : Element) : bool :=
  PyStr.opt_eqb (ET.get e "id") cid.

(** the element carries this source and this target *)
Definition has_pair (src tgt : string) (e : Element) : bool :=
  PyStr.opt_eqb (ET.get e "source") src && PyStr.opt_eqb (ET.get e "target") tgt.

(** Every entry of the index is filed under the id it carries, no id is
    empty, and no id is filed twice. *)
Definition index_ok (cm : PyDict.t Element) : Prop :=
  NoDup (PyDict.keys cm) /\
  forall k c, In (k, c) cm -> ET.get c "id" = Some k /\ PyStr.truthy k = true.

Section Notions.
Context {PF : PyFloat}.

(** the index that [parse] builds for a document, when it has a graph model *)
Definition index_of (root : Element) : option (PyDict.t Element) :=
  option_map build_cell_map (find_model (namespace_of root) root).

Definition pair_of (e : FlowEdge) : string * string := (source_id e, target_id e).

(** the parser before the loop over the index *)
Definition fresh_parser (root model : Element) : DrawioParser :=
  {| graph := {| nodes := []; edges := [] |};
     cell_map := build_cell_map model;
     namespace := namespace_of root |}.

(** the label of an edge as the specification words it: the element's own
    value when it is an affirmation, otherwise the value of the first
    label decoration of the edge *)
Definition worded_label (cm : PyDict.t Element) (eid : string) : string :=
  match PyDict.get eid cm with
  | None => ""
  | Some cell =>
      let own := PyStr.lower (ET.get_d cell "value" "") in
      if PyStr.in_list own ["y"; "yes"] then "yes"
      else if PyStr.in_list own ["n"; "no"] then "no"
      else match find (is_label_of eid) (PyDict.values cm) with
           | Some child => yes_no (PyStr.lower (ET.get_d child "value" "")) ""
           | None => ""
           end
  end.

(** number of edges of the graph that enter, and that leave, a node *)
Definition in_degree (g : FlowGraph) (nid : string) : nat :=
  length (filter (fun e => String.eqb (target_id e) nid) (edges g)).

Definition out_degree (g : FlowGraph) (nid : string) : nat :=
  length (filter (fun e => String.eqb (source_id e) nid) (edges g)).

(** the source port and the priority that the layout conventions give to
    an edge leaving a node of role [t] with label [l] *)
Definition convention (t : NodeType) (l : string) : string * Z :=
  match t with
  | DECISION => if String.eqb l "no" then ("_E", 1%Z) else ("_S", 10%Z)
  | _ => ("_S", 10%Z)
  end.

(** The graphs that survive generation and re-extraction: node ids are
    the keys, not empty and not the reserved "0" and "1"; edge ids are not
    empty, all different, and no node id; edges have a source and a
    target; a node that no edge enters and some edge leaves is START, a
    node that no edge leaves and some edge enters is END, and no other
    node is END. *)
Fixpoint nodupb (l : list string) : bool :=
  match l with
  | [] => true
  | a :: l' => negb (PyStr.in_list a l') && nodupb l'
  end.

Definition role_agrees (g : FlowGraph) (k : string) (n : FlowNode) : bool :=
  let i := in_degree g k in
  let o := out_degree g k in
  if (i =? 0)%nat && (0 <? o)%nat then NodeType_eqb (node_type n) START
  else if (o =? 0)%nat && (0 <? i)%nat then NodeType_eqb (node_type n) END
  else negb (NodeType_eqb (node_type n) END).

Definition node_ready (g : FlowGraph) (kv : string * FlowNode) : bool :=
  String.eqb (node_id (snd kv)) (fst kv)
  && PyStr.truthy (fst kv)
  && negb (PyStr.in_list (fst kv) ["0"; "1"])
  && role_agrees g (fst kv) (snd kv).

Definition edge_ready (g : FlowGraph) (e : FlowEdge) : bool :=
  PyStr.truthy (edge_id e)
  && negb (PyDict.mem (edge_id e) (nodes g))
  && PyStr.truthy (source_id e)
  && PyStr.truthy (target_id e).

Definition roundtrip_ready (g : FlowGraph) : bool :=
  nodupb (PyDict.keys (nodes g))
  && forallb (node_ready g) (nodes g)
  && nodupb (map edge_id (edges g))
  && forallb (edge_ready g) (edges g).

(** the role that the style written for a role is read as: both terminal
    roles are drawn as an ellipse, which reads as START *)
Definition style_reads_as (t : NodeType) : NodeType :=
  match t with
  | END => START
  | START => START
  | PROCESS => PROCESS
  | DECISION => DECISION
  end.

(** the list of cells under the root element of a generated document *)
Definition generated_cells (g : FlowGraph) : list Element :=
  Elem "mxCell" [ ("id", "0") ] []
  :: Elem "mxCell" [ ("id", "1"); ("parent", "0") ] []
  :: map node_cell (PyDict.values (nodes g)) ++ map edge_cell (edges g).

(** the graph model element of a generated document *)
Definition generated_model (g : FlowGraph) : Element :=
  Elem "mxGraphModel"
    [ ("dx", "1200"); ("dy", "1200"); ("grid", "1"); ("gridSize", "10") ]
    [ Elem "root" [] (generated_cells g) ].
(** What the loop has established about the edges once the elements
    [pre] are visited: no pair twice; every edge is the fresh edge made
    from the first visited element with its pair; every visited element
    with a source and a target has its pair among the edges. *)
Definition edges_inv (pre : list Element) (es : list FlowEdge) : Prop :=
  NoDup (map pair_of es)
  /\ (forall e, In e es ->
        PyStr.truthy (source_id e) = true /\ PyStr.truthy (target_id e) = true /\
        exists c, find (has_pair (source_id e) (target_id e)) pre = Some c /\
                  e = new_FlowEdge (ET.get_d c "id" "") (source_id e) (target_id e))
  /\ (forall c s t, In c pre ->
        ET.get c "source" = Some s -> ET.get c "target" = Some t ->
        PyStr.truthy s = true -> PyStr.truthy t = true ->
        In (s, t) (map pair_of es)).

(** What the loop has established about the nodes once the elements
    [pre] are visited: every node was made by [_parse_node] from a visited
    node element and is filed under that element's id; every visited node
    element has a node. *)
Definition nodes_inv (p0 : DrawioParser) (pre : list Element) (p : DrawioParser) : Prop :=
  cell_map p = cell_map p0 /\ namespace p = namespace p0
  /\ NoDup (PyDict.keys (nodes (graph p)))
  /\ (forall k n, PyDict.get k (nodes (graph p)) = Some n ->
        exists c geo,
          In c pre /\ ET.get_d c "id" "" = k /\
          _is_edge c = false /\ _is_node p0 c = true /\
          find_geo (namespace p0) c = Some geo /\
          float_attr geo "width" 120 = Ok (width n) /\
          float_attr geo "height" 60 = Ok (height n) /\
          node_type n = style_type (ET.get_d c "style" "") /\
          node_id n = k)
  /\ (forall c, In c pre -> _is_edge c = false -> _is_node p0 c = true ->
        PyDict.mem (ET.get_d c "id" "") (nodes (graph p)) = true).
End Notions.

(* ------------------------------------------------------------------ *)
(** ** Sample documents *)

(** a graph model in which two elements carry the id "a" *)
Definition twice_a : Element :=
  Elem "mxGraphModel" []
    [ Elem "root" []
        [ Elem "mxCell" [("id", "a"); ("value", "first")] [];
          Elem "mxCell" [("id", "a"); ("value", "second")] [] ] ].

(** the flowchart of the scenario: A starts, B decides, C and D end; the
    "no" branch carries its label on a decoration, and a second B-D edge
    repeats a pair *)
Definition flowchart_doc : Element :=
  Elem "mxfile" []
    [ Elem "diagram" []
        [ Elem "mxGraphModel" []
            [ Elem "root" []
                [ Elem "mxCell" [("id", "0")] [];
                  Elem "mxCell" [("id", "1"); ("parent", "0")] [];
                  Elem "mxCell" [("id", "A"); ("style", "ellipse;"); ("vertex", "1"); ("parent", "1")]
                    [Elem "mxGeometry" [("width", "100")] []];
                  Elem "mxCell" [("id", "B"); ("style", "rhombus;"); ("vertex", "1"); ("parent", "1");
                                 ("value", "Proceed?")]
                    [Elem "mxGeometry" [("width", "100"); ("height", "50.0")] []];
                  Elem "mxCell" [("id", "C"); ("style", "rounded=0;"); ("vertex", "1"); ("parent", "1")]
                    [Elem "mxGeometry" [] []];
                  Elem "mxCell" [("id", "D"); ("style", "ellipse;"); ("vertex", "1"); ("parent", "1")]
                    [Elem "mxGeometry" [] []];
                  Elem "mxCell" [("id", "e1"); ("edge", "1"); ("source", "A"); ("target", "B")]
                    [Elem "mxGeometry" [] []];
                  Elem "mxCell" [("id", "e2"); ("edge", "1"); ("source", "B"); ("target", "C");
                                 ("value", "Yes")]
                    [Elem "mxGeometry" [] []];
                  Elem "mxCell" [("id", "e3"); ("edge", "1"); ("source", "B"); ("target", "D")]
                    [Elem "mxGeometry" [] []];
                  Elem "mxCell" [("id", "l3"); ("style", "edgeLabel;"); ("parent", "e3"); ("value", "N")]
                    [Elem "mxGeometry" [] []];
                  Elem "mxCell" [("id", "e4"); ("edge", "1"); ("source", "B"); ("target", "D");
                                 ("value", "y")]
                    [Elem "mxGeometry" [] []] ] ] ] ].

(** the graph model of [flowchart_doc] *)
Definition flowchart_model : Element :=
  match flowchart_doc with
  | Elem _ _ [Elem _ _ [m]] => m
  | _ => flowchart_doc
  end.

(** an edge between two ids that no node element carries *)
Definition dangling_doc : Element :=
  Elem "mxGraphModel" []
    [ Elem "root" []
        [ Elem "mxCell" [("id", "e1"); ("edge", "1"); ("source", "X"); ("target", "Y")]
            [Elem "mxGeometry" [] []] ] ].

(** an edge with a value that is no affirmation, and a label decoration
    that says "no" *)
Definition maybe_doc : Element :=
  Elem "mxGraphModel" []
    [ Elem "root" []
        [ Elem "mxCell" [("id", "e1"); ("edge", "1"); ("source", "A"); ("target", "B");
                         ("value", "maybe")]
            [Elem "mxGeometry" [] []];
          Elem "mxCell" [("id", "l1"); ("style", "edgeLabel;"); ("parent", "e1"); ("value", "no")]
            [Elem "mxGeometry" [] []] ] ].

(** an edge element without a child, whose own value says "yes" *)
Definition childless_doc : Element :=
  Elem "mxGraphModel" []
    [ Elem "root" []
        [ Elem "mxCell" [("id", "e1"); ("edge", "1"); ("source", "A"); ("target", "B");
                         ("value", "yes")] [] ] ].

(** a node whose width is not a number *)
Definition wide_doc : Element :=
  Elem "mxGraphModel" []
    [ Elem "root" []
        [ Elem "mxCell" [("id", "A"); ("vertex", "1"); ("parent", "1")]
            [Elem "mxGeometry" [("width", "wide"); ("height", "60")] []] ] ].

(** three edge elements, of which the first and the last carry the id "x":
    the index files the last one under "x", at the place of the first *)
Definition repeated_id_doc : Element :=
  Elem "mxGraphModel" []
    [ Elem "root" []
        [ Elem "mxCell" [("id", "x"); ("edge", "1"); ("source", "C"); ("target", "D")]
            [Elem "mxGeometry" [] []];
          Elem "mxCell" [("id", "e"); ("edge", "1"); ("source", "A"); ("target", "B")]
            [Elem "mxGeometry" [] []];
          Elem "mxCell" [("id", "x"); ("edge", "1"); ("source", "A"); ("target", "B")]
            [Elem "mxGeometry" [] []] ] ].

(** a document without a graph model *)
Definition no_model_doc : Element :=
  Elem "mxfile" [] [ Elem "diagram" [] [] ].

(* ------------------------------------------------------------------ *)
(** ** Notions used to state the properties of layout and request *)

(** the ids that the elements of a list carry, in the order of the list *)
Definition ids_of (l : list Element) : list string :=
  flat_map (fun x => match ET.get x "id" with Some i => [i] | None => [] end) l.

(** the strings of a list that are not in [seen], each at its first place *)
Fixpoint first_occurrences (seen l : list string) : list string :=
  match l with
  | [] => []
  | a :: l' =>
      if PyStr.in_list a seen then first_occurrences seen l'
      else a :: first_occurrences (a :: seen) l'
  end.

Section LayoutNotions.
Context {PF : PyFloat}.

(** the fields of a node and of an edge that extraction sets and layout
    leaves alone *)
Definition node_core (n : FlowNode) : string * NodeType * string * float * float :=
  (node_id n, node_type n, node_label n, width n, height n).

Definition edge_core (e : FlowEdge) : string * string * string * string :=
  (edge_id e, source_id e, target_id e, label e).

(** a node as the solver's answer places it: at the coordinates of the
    last entry for its id, or where it was *)
Definition placed (children : list ElkChildResult) (k : string) (n : FlowNode)
  : FlowNode :=
  match find (fun c => String.eqb (res_id c) k) (rev children) with
  | Some c => set_xy (res_x c) (res_y c) n
  | None => n
  end.

(** the section points and the port suffixes of one entry, written to an edge *)
Definition routed_by (r : ElkEdgeResult) (e : FlowEdge) : FlowEdge :=
  set_routing (flat_map section_points (get_list (res_sections r) []))
    (PyStr.split_last "_" (hd "" (get_list (res_sources r) ["_S"])))
    (PyStr.split_last "_" (hd "" (get_list (res_targets r) ["_N"])))
    e.

(** an edge as the solver's answer routes it: by the last entry for its id,
    or as it was *)
Definition routed (rs : list ElkEdgeResult) (e : FlowEdge) : FlowEdge :=
  match find (fun r => String.eqb (res_edge_id r) (edge_id e)) (rev rs) with
  | Some r => routed_by r e
  | None => e
  end.

(** an entry that names an edge of the list and has an empty list of source
    ports or of target ports *)
Definition portless (es : list FlowEdge) (r : ElkEdgeResult) : bool :=
  existsb (fun e => String.eqb (edge_id e) (res_edge_id r)) es
  && (match get_list (res_sources r) ["_S"] with [] => true | _ => false end
      || match get_list (res_targets r) ["_N"] with [] => true | _ => false end).

(** the label that extraction reads from the letter that generation
    writes for a label *)
Definition label_read_back (l : string) : string :=
  if String.eqb l "yes" then "yes"
  else if String.eqb l "no" then "no"
  else "".

(** the port ids of a node descriptor *)
Definition port_ids (c : ElkNode) : list string := map port_id (ports c).

(** the port id is a port of one of the node descriptors *)
Definition resolves (eg : ElkGraph) (p : string) : Prop :=
  exists c, In c (elk_children eg) /\ In p (port_ids c).

End LayoutNotions.

(* ------------------------------------------------------------------ *)
(** ** The text form of a document

    [generate] writes the tree through [ET.tostring],
    [minidom.parseString], [toprettyxml] and a filter of blank lines, and
    [parse] reads a file through [ET.parse].  The text is not modelled;
    what is, is the tree that comes back from the text.  Tab, carriage
    return and line feed in an attribute value come back as blanks, a
    control character makes the write raise, and a value of printable
    ASCII characters comes back as it was. *)

Definition printable (c : ascii) : bool :=
  let n := nat_of_ascii c in (Nat.leb 32 n && Nat.leb n 126)%bool.

Fixpoint plain (s : string) : bool :=
  match s with
  | EmptyString => true
  | String c s' => printable c && plain s'
  end.

(** the tags and the attribute names that [generate] writes *)
Definition written_tags : list string :=
  [ "mxfile"; "diagram"; "mxGraphModel"; "root"; "mxCell"; "mxGeometry";
    "Array"; "mxPoint" ].

Definition written_names : list string :=
  [ "host"; "version"; "name"; "dx"; "dy"; "grid"; "gridSize"; "id"; "value";
    "style"; "vertex"; "edge"; "parent"; "source"; "target"; "x"; "y";
    "width"; "height"; "relative"; "as" ].

Definition writable_attribute (kv : string * string) : bool :=
  PyStr.in_list (fst kv) written_names && plain (snd kv).

(** a tree of the tags and attribute names of [generate], no attribute
    twice on an element, every attribute value of printable ASCII *)
Fixpoint writable (e : Element) : bool :=
  match e with
  | Elem t a cs =>
      PyStr.in_list t written_tags
      && forallb writable_attribute a
      && nodupb (map fst a)
      && forallb writable cs
  end.

(** [written_and_read t] is what [ET.parse] gives for the file that the
    last lines of [generate] write for the tree [t], or the exception of
    the write. *)
Class XmlFile : Type := {
  written_and_read : Element -> result Element;
  written_and_read_writable :
    forall t, writable t = true -> written_and_read t = Ok t
}.

(** *** A text model to run the tool on

    Outside the writable trees it follows CPython 3.11 on the characters
    below 32: a control character raises, and tab, carriage return and
    line feed come back as blanks (the lines of a value that the filter
    drops as blank are kept here). *)

Module TextFile.

Definition is_control (c : ascii) : bool :=
  let n := nat_of_ascii c in
  (Nat.ltb n 32 && negb (PyStr.in_list (String c EmptyString)
                           [ String (ascii_of_nat 9) EmptyString;
                             String (ascii_of_nat 10) EmptyString;
                             String (ascii_of_nat 13) EmptyString ]))%bool.

Fixpoint has_control (s : string) : bool :=
  match s with
  | EmptyString => false
  | String c s' => is_control c || has_control s'
  end.

Fixpoint blanked (s : string) : string :=
  match s with
  | EmptyString => EmptyString
  | String c s' =>
      String (if Nat.ltb (nat_of_ascii c) 32 then " "%char else c) (blanked s')
  end.

Fixpoint raises (e : Element) : bool :=
  match e with
  | Elem _ a cs => existsb (fun kv => has_control (snd kv)) a || existsb raises cs
  end.

Fixpoint read_back (e : Element) : Element :=
  match e with
  | Elem t a cs => Elem t (map (fun kv => (fst kv, blanked (snd kv))) a) (map read_back cs)
  end.

Definition written_and_read (t : Element) : result Element :=
  if writable t then Ok t
  else if raises t then Raise ParseError
  else Ok (read_back t).

End TextFile.

(* ------------------------------------------------------------------ *)
(** ** Notions that follow the words of the specification *)

(** the spellings of "y" and "yes", and of "n" and "no", in any case *)
Definition yes_spellings : list string :=
  [ "y"; "Y"; "yes"; "yeS"; "yEs"; "yES"; "Yes"; "YeS"; "YEs"; "YES" ].

Definition no_spellings : list string :=
  [ "n"; "N"; "no"; "nO"; "No"; "NO" ].

(** [l] is the label that the value [v] stands for: "yes" for a spelling
    of "y" or "yes", "no" for a spelling of "n" or "no", empty otherwise *)
Definition stands_for (v l : string) : Prop :=
  (In v yes_spellings -> l = "yes")
  /\ (In v no_spellings -> l = "no")
  /\ (~ In v yes_spellings -> ~ In v no_spellings -> l = "").

(** the element is a label decoration of the edge [eid]: its parent is the
    edge, and its style mentions "edgeLabel" *)
Definition decorates (eid : string) (c : Element) : Prop :=
  ET.get c "parent" = Some eid
  /\ exists pre post, ET.get_d c "style" "" = (pre ++ "edgeLabel" ++ post)%string.

(** the last element of the graph model, in document order, that carries
    the id [k] *)
Definition last_with_id (model : Element) (k : string) : option Element :=
  find (has_id k) (rev (ET.iter model)).

(** The elements that extraction looks at, in the order in which it looks
    at them: one element for each id of the graph model that is not empty,
    in the order in which the ids first occur in the document, and for each
    id the last element that carries it. *)
Definition indexed_elements (model : Element) : list Element :=
  flat_map (fun k => match last_with_id model k with Some c => [c] | None => [] end)
    (first_occurrences [] (filter PyStr.truthy (ids_of (ET.iter model)))).

(** the elements of the graph model that carry an id that is not empty, in
    document order *)
Definition elements_with_id (model : Element) : list Element :=
  filter (fun c => PyStr.truthy_opt (ET.get c "id")) (ET.iter model).

Fixpoint underscore_free (s : string) : bool :=
  match s with
  | EmptyString => true
  | String c s' => negb (Ascii.eqb c "_") && underscore_free s'
  end.

(** [side] is what follows the last underscore of [port], or all of
    [port] when it has none *)
Definition after_last_underscore (port side : string) : Prop :=
  underscore_free side = true
  /\ (port = side \/ exists pre, port = (pre ++ "_" ++ side)%string).

(* ================================================================== *)
(** * Properties *)

(* ------------------------------------------------------------------ *)
(** ** The whole-number floats are a float model *)

Module WholeFloatFacts.
Import WholeFloat.

Lemma all_digits_string_of_uint (d : Decimal.uint) :
  all_digits (NilEmpty.string_of_uint d) = true.
Proof. induction d; simpl; auto. Qed.

Lemma whole_shape_digits (ds : string) :
  all_digits ds = true -> whole_shape true (ds ++ ".0") = true.
Proof.
  induction ds as [|c ds IH]; simpl; intros H.
  - reflexivity.
  - apply andb_prop in H. destruct H as [Hc Hds].
    rewrite Hc. auto.
Qed.

Lemma whole_shape_uint (d : Decimal.uint) :
  whole_shape false (NilZero.string_of_uint d ++ ".0") = true.
Proof.
  destruct d; simpl; try reflexivity;
    apply whole_shape_digits, all_digits_string_of_uint.
Qed.

Lemma of_str_digit (c : ascii) (s : string) :
  is_digit c = true -> of_str (String c s) = unsigned_of_str (String c s).
Proof.
  destruct c as [[] [] [] [] [] [] [] []]; try reflexivity; discriminate.
Qed.

Lemma string_of_uint_head (d : Decimal.uint) :
  exists c s, NilZero.string_of_uint d = String c s /\ is_digit c = true.
Proof.
  destruct d; simpl; eexists; eexists; split; reflexivity.
Qed.

Lemma of_str_to_str (z : Z) : of_str (to_str z) <> None.
Proof.
  unfold to_str.
  destruct (z <? 0)%Z.
  - change (of_str ("-" ++ ?s)) with (option_map Z.opp (unsigned_of_str s)).
    unfold unsigned_of_str. rewrite whole_shape_uint. discriminate.
  - simpl append at 1.
    destruct (string_of_uint_head (N.to_uint (Z.abs_N z))) as (c & s & E & Hc).
    assert (W := whole_shape_uint (N.to_uint (Z.abs_N z))).
    rewrite E in *. simpl append in *.
    rewrite of_str_digit by exact Hc. unfold unsigned_of_str. rewrite W. discriminate.
Qed.

End WholeFloatFacts.

#[export] Instance whole_float : PyFloat := {|
  float := Z;
  float_of_int := fun z => z;
  float_of_str := WholeFloat.of_str;
  str_of_float := WholeFloat.to_str;
  float_of_str_of_float := WholeFloatFacts.of_str_to_str
|}.

(** ** The text model is a model of the written file *)

Lemma text_file_writable (t : Element) :
  writable t = true -> TextFile.written_and_read t = Ok t.
Proof. intros H. unfold TextFile.written_and_read. now rewrite H. Qed.

#[export] Instance text_file : XmlFile := {|
  written_and_read := TextFile.written_and_read;
  written_and_read_writable := text_file_writable
|}.

(* ------------------------------------------------------------------ *)
(** ** Sample graphs and runs, on the whole-number floats *)

(** the graph that extraction gives for [flowchart_doc] *)
Definition flowchart_graph : FlowGraph :=
  Eval vm_compute in
    match parse (Ok flowchart_doc) with
    | Ok g => g
    | Raise _ => {| nodes := []; edges := [] |}
    end.


(** the graph that extraction gives for [dangling_doc] *)
Definition dangling_graph : FlowGraph :=
  {| nodes := []; edges := [ new_FlowEdge "e1" "X" "Y" ] |}.

(** a node X with an edge to Y, which is no node of the graph *)
Definition half_dangling_graph : FlowGraph :=
  {| nodes := [ ("X", new_FlowNode "X" PROCESS "" (float_of_int 120) (float_of_int 60)) ];
     edges := [ new_FlowEdge "e1" "X" "Y" ] |}.

(** the graph that extraction gives for [maybe_doc] *)
Definition maybe_graph : FlowGraph :=
  {| nodes := []; edges := [ new_FlowEdge "e1" "A" "B" ] |}.


(** the answer of a solver that places nothing *)
Definition empty_result : ElkResult :=
  {| res_children := None; res_edges := None |}.

(** four runs of the command, each with Node.js installed, that fail at
    one stage: the input is unreadable; the input has no graph model; the
    solver fails; the output cannot be written *)
Definition unreadable_world : World :=
  {| node_installed := true;
     read_input := Raise ParseError;
     call_elk := fun _ => Ok empty_result;
     write_output := fun _ => Ok tt |}.

Definition no_model_world : World :=
  {| node_installed := true;
     read_input := Ok no_model_doc;
     call_elk := fun _ => Ok empty_result;
     write_output := fun _ => Ok tt |}.

Definition solver_failure_world : World :=
  {| node_installed := true;
     read_input := Ok flowchart_doc;
     call_elk := fun _ => Raise (RuntimeError "elk");
     write_output := fun _ => Ok tt |}.

Definition write_failure_world : World :=
  {| node_installed := true;
     read_input := Ok flowchart_doc;
     call_elk := fun _ => Ok empty_result;
     write_output := fun _ => Raise OSError |}.

(** an answer of the solver for [flowchart_graph]: A is placed twice, a
    node Z that the graph does not have is placed, the edge e3 is routed
    through one section with a bend, and an edge e9 that the graph does not
    have is routed *)
Definition flowchart_result : ElkResult :=
  {| res_children :=
       Some [ {| res_id := "A"; res_x := 10%Z; res_y := 20%Z |};
              {| res_id := "Z"; res_x := 1%Z; res_y := 2%Z |};
              {| res_id := "A"; res_x := 30%Z; res_y := 40%Z |} ];
     res_edges :=
       Some [ {| res_edge_id := "e3";
                 res_sections :=
                   Some [ {| startPoint := {| px := 5%Z; py := 6%Z |};
                             bendPoints := Some [ {| px := 7%Z; py := 6%Z |} ];
                             endPoint := {| px := 7%Z; py := 9%Z |} |} ];
                 res_sources := Some ["B_E"];
                 res_targets := Some ["D_N"] |};
              {| res_edge_id := "e9";
                 res_sections := None;
                 res_sources := Some [];
                 res_targets := None |} ] |}.

(** [flowchart_graph] with that answer applied *)
Definition flowchart_laid_out : FlowGraph :=
  Eval vm_compute in
    match _apply_layout flowchart_graph flowchart_result with
    | Ok g => g
    | Raise _ => {| nodes := []; edges := [] |}
    end.

(* ------------------------------------------------------------------ *)
(** ** Facts about dictionaries *)

Module PyDictFacts.
Import PyDict.
Section Facts.
Variable V : Type.
Implicit Types (d : PyDict.t V) (k : string) (v : V).

Lemma get_set_eq k v d : get k (set k v d) = Some v.
Proof.
  induction d as [|[k' v'] d IH]; simpl.
  - now rewrite String.eqb_refl.
  - destruct (String.eqb k k') eqn:E; simpl; rewrite E; auto.
Qed.

Lemma get_set_neq k k' v d : k <> k' -> get k' (set k v d) = get k' d.
Proof.
  intros N. induction d as [|[k0 v0] d IH]; simpl.
  - destruct (String.eqb k' k) eqn:E; auto.
    apply String.eqb_eq in E. congruence.
  - destruct (String.eqb k k0) eqn:E; simpl.
    + apply String.eqb_eq in E. subst k0.
      destruct (String.eqb k' k) eqn:E'; auto.
      apply String.eqb_eq in E'. congruence.
    + now rewrite IH.
Qed.

Lemma get_set k k' v d :
  get k' (set k v d) = if String.eqb k k' then Some v else get k' d.
Proof.
  destruct (String.eqb k k') eqn:E.
  - apply String.eqb_eq in E. subst. apply get_set_eq.
  - apply String.eqb_neq in E. now apply get_set_neq.
Qed.

Lemma get_None k d : get k d = None <-> ~ In k (keys d).
Proof.
  induction d as [|[k' v'] d IH]; simpl.
  - tauto.
  - destruct (String.eqb k k') eqn:E.
    + apply String.eqb_eq in E. subst. split; [discriminate | tauto].
    + apply String.eqb_neq in E. rewrite IH. intuition congruence.
Qed.

Lemma get_Some_In k v d : get k d = Some v -> In (k, v) d.
Proof.
  induction d as [|[k' v'] d IH]; simpl; [discriminate|].
  destruct (String.eqb k k') eqn:E.
  - apply String.eqb_eq in E. intros [= ->]. subst. now left.
  - auto.
Qed.

Lemma In_get k v d : NoDup (keys d) -> In (k, v) d -> get k d = Some v.
Proof.
  induction d as [|[k' v'] d IH]; simpl; [tauto|].
  intros ND [H|H].
  - injection H as -> ->. now rewrite String.eqb_refl.
  - inversion ND as [|? ? Hn ND']; subst.
    destruct (String.eqb k k') eqn:E.
    + apply String.eqb_eq in E. subst k'.
      exfalso. apply Hn. unfold keys. apply in_map_iff. now exists (k, v).
    + auto.
Qed.

Lemma get_Some_key k v d : get k d = Some v -> In k (keys d).
Proof.
  intros H. apply get_Some_In in H. apply in_map_iff. now exists (k, v).
Qed.

Lemma In_keys_get k d : In k (keys d) -> exists v, get k d = Some v.
Proof.
  intros H. destruct (get k d) eqn:E; [eauto|].
  apply get_None in E. tauto.
Qed.

Lemma keys_set k v d :
  keys (set k v d) = if mem k d then keys d else keys d ++ [k].
Proof.
  unfold mem. induction d as [|[k' v'] d IH]; simpl; auto.
  destruct (String.eqb k k') eqn:E; simpl; auto.
  rewrite IH. now destruct (get k d).
Qed.

Lemma NoDup_keys_set k v d : NoDup (keys d) -> NoDup (keys (set k v d)).
Proof.
  intros ND. rewrite keys_set. unfold mem.
  destruct (get k d) eqn:E; auto.
  apply get_None in E.
  apply NoDup_rev in ND. rewrite <- (rev_involutive (keys d ++ [k])).
  apply NoDup_rev. rewrite rev_app_distr. simpl.
  constructor; auto. now rewrite <- in_rev.
Qed.

Lemma In_values d v : In v (values d) <-> exists k, In (k, v) d.
Proof.
  unfold values. rewrite in_map_iff. split.
  - intros [[k v'] [E H]]. simpl in E. subst. eauto.
  - intros [k H]. now exists (k, v).
Qed.
End Facts.
End PyDictFacts.

(* ------------------------------------------------------------------ *)
(** ** The index of the elements *)

Section CellMap.

Lemma find_app_last {A : Type} (f : A -> bool) (l : list A) (a : A) :
  find f (l ++ [a]) =
  match find f l with Some b => Some b | None => if f a then Some a else None end.
Proof.
  induction l as [|b l IH]; simpl; auto.
  destruct (f b); auto.
Qed.

Lemma get_index_cell (cid : string) (cm : PyDict.t Element) (cell : Element) :
  PyStr.truthy cid = true ->
  PyDict.get cid (index_cell cm cell) =
  if has_id cid cell then Some cell else PyDict.get cid cm.
Proof.
  intros T. unfold index_cell, has_id, PyStr.opt_eqb.
  destruct (ET.get cell "id") as [c|]; auto.
  destruct (PyStr.truthy c) eqn:Tc.
  - rewrite PyDictFacts.get_set. now rewrite String.eqb_sym.
  - destruct (String.eqb c cid) eqn:E; auto.
    apply String.eqb_eq in E. congruence.
Qed.

Lemma get_fold_index (cid : string) (l : list Element) (cm : PyDict.t Element) :
  PyStr.truthy cid = true ->
  PyDict.get cid (fold_left index_cell l cm) =
  match find (has_id cid) (rev l) with
  | Some e => Some e
  | None => PyDict.get cid cm
  end.
Proof.
  intros T. revert cm. induction l as [|a l IH]; intros cm; simpl; auto.
  rewrite IH, find_app_last, get_index_cell by assumption.
  destruct (find (has_id cid) (rev l)); auto.
  destruct (has_id cid a); auto.
Qed.

Lemma In_set_inv {V : Type} (k k' : string) (v v' : V) (d : PyDict.t V) :
  In (k', v') (PyDict.set k v d) -> (k' = k /\ v' = v) \/ In (k', v') d.
Proof.
  induction d as [|[k0 v0] d IH]; simpl.
  - intros [H|[]]. injection H as <- <-. auto.
  - destruct (String.eqb k k0) eqn:E; simpl.
    + apply String.eqb_eq in E. subst k0.
      intros [H|H]; [injection H as <- <-|]; auto.
    + intros [H|H]; auto. apply IH in H. tauto.
Qed.

Lemma index_ok_index_cell (cm : PyDict.t Element) (cell : Element) :
  index_ok cm -> index_ok (index_cell cm cell).
Proof.
  intros [ND H]. unfold index_cell.
  destruct (ET.get cell "id") as [cid|] eqn:E; [|now split].
  destruct (PyStr.truthy cid) eqn:T; [|now split].
  split.
  - now apply PyDictFacts.NoDup_keys_set.
  - intros k c Hin. apply In_set_inv in Hin.
    destruct Hin as [[-> ->]|Hin]; auto.
Qed.

Lemma index_ok_fold (l : list Element) (cm : PyDict.t Element) :
  index_ok cm -> index_ok (fold_left index_cell l cm).
Proof.
  revert cm. induction l; simpl; auto using index_ok_index_cell.
Qed.

Lemma index_ok_build (model : Element) : index_ok (build_cell_map model).
Proof.
  apply index_ok_fold. split; [constructor | intros ? ? []].
Qed.

Lemma index_value_get (cm : PyDict.t Element) (c : Element) :
  index_ok cm -> In c (PyDict.values cm) ->
  exists k, ET.get c "id" = Some k /\ PyStr.truthy k = true /\ PyDict.get k cm = Some c.
Proof.
  intros [ND H] Hin. apply PyDictFacts.In_values in Hin. destruct Hin as [k Hin].
  exists k. destruct (H _ _ Hin). auto using PyDictFacts.In_get.
Qed.

End CellMap.

(** C7, as the code has it: an id that occurs on several elements is filed
    under its last occurrence in document order.  For every non-empty id,
    the index of a graph model holds the last element of the model, in
    document order, that carries the id (and nothing when no element does). *)
Theorem index_last_occurrence_wins (model : Element) (cid : string) :
  PyStr.truthy cid = true ->
  PyDict.get cid (build_cell_map model) = find (has_id cid) (rev (ET.iter model)).
Proof.
  intros T. unfold build_cell_map. rewrite get_fold_index by assumption.
  now destruct (find (has_id cid) (rev (ET.iter model))).
Qed.

Lemma index_last_occurrence_wins_witness :
  PyStr.truthy "a" = true /\
  PyDict.get "a" (build_cell_map twice_a) = find (has_id "a") (rev (ET.iter twice_a)).
Proof.
  split; [reflexivity | apply index_last_occurrence_wins; reflexivity].
Defined.

(** C7 as stated fails: with two elements of id "a", the first one in
    document order is not the one the index holds. *)
Lemma index_first_occurrence_loses :
  find (has_id "a") (ET.iter twice_a)
    = Some (Elem "mxCell" [("id", "a"); ("value", "first")] [])
  /\ PyDict.get "a" (build_cell_map twice_a)
    <> Some (Elem "mxCell" [("id", "a"); ("value", "first")] []).
Proof.
  split; [reflexivity | vm_compute; discriminate].
Qed.

(* ------------------------------------------------------------------ *)
(** ** The layout request *)

Section Request.
Context {PF : PyFloat}.

Lemma In_elk_edges_from (g : FlowGraph) (es : list FlowEdge) (i : nat) (d : ElkEdge) :
  In d (elk_edges_from g i es) <->
  exists j edge, nth_error es j = Some edge /\ elk_edge g (i + j) edge = Some d.
Proof.
  revert i. induction es as [|e es IH]; intros i; simpl.
  - split; [tauto|]. intros (j & edge & H & _). now destruct j.
  - assert (IH' := IH (S i)).
    split.
    + intros H.
      destruct (elk_edge g i e) as [d0|] eqn:E.
      * destruct H as [->|H].
        -- exists 0, e. now rewrite Nat.add_0_r.
        -- apply IH' in H. destruct H as (j & edge & Hn & Hd).
           exists (S j), edge. now rewrite Nat.add_succ_r.
      * apply IH' in H. destruct H as (j & edge & Hn & Hd).
        exists (S j), edge. now rewrite Nat.add_succ_r.
    + intros (j & edge & Hn & Hd).
      destruct j as [|j]; simpl in Hn.
      * injection Hn as ->. rewrite Nat.add_0_r in Hd. rewrite Hd. now left.
      * rewrite Nat.add_succ_r in Hd.
        assert (In d (elk_edges_from g (S i) es)) by (apply IH'; eauto).
        destruct (elk_edge g i e); simpl; auto.
  Qed.

Lemma length_elk_edges_from (g : FlowGraph) (es : list FlowEdge) (i : nat) :
  length (elk_edges_from g i es)
  = length (filter (fun e => PyDict.mem (source_id e) (nodes g)) es).
Proof.
  revert i. induction es as [|e es IH]; intros i; simpl; auto.
  unfold elk_edge at 1, PyDict.mem at 1.
  destruct (PyDict.get (source_id e) (nodes g)); simpl; auto.
  destruct (node_type f); try destruct (String.eqb (label e) "no"); simpl; auto.
Qed.

(** what [elk_edge] answers when the source node is there *)
Lemma elk_edge_Some (g : FlowGraph) (i : nat) (edge : FlowEdge) (n : FlowNode) :
  PyDict.get (source_id edge) (nodes g) = Some n ->
  elk_edge g i edge =
  Some {| elk_edge_id := if PyStr.truthy (edge_id edge) then edge_id edge
                         else ("e" ++ PyStr.str_of_nat i)%string;
          sources := [(source_id edge ++ fst (convention (node_type n) (label edge)))%string];
          targets := [(target_id edge ++ "_N")%string];
          priority := snd (convention (node_type n) (label edge)) |}.
Proof.
  intros H. unfold elk_edge. rewrite H.
  destruct (node_type n); simpl; auto.
  destruct (String.eqb (label edge) "no"); auto.
Qed.

End Request.

(** C1: every edge descriptor of the layout request comes from an edge of
    the graph whose source node is in the graph; its target port is the
    NORTH port of the target id; its source port is EAST with priority 1
    when the source node is a DECISION and the label is "no", SOUTH with
    priority 10 when the source is a DECISION and the label is anything
    else, SOUTH with priority 10 when the source is a START node, and SOUTH
    with priority 10 for every other edge. *)
Theorem request_edge_ports_and_priority `{PF : PyFloat}
  (self : ELKLayoutEngine) (g : FlowGraph) (d : ElkEdge) :
  In d (elk_edges (_build_elk_graph self g)) ->
  exists (i : nat) (edge : FlowEdge) (src_node : FlowNode),
    nth_error (edges g) i = Some edge /\
    PyDict.get (source_id edge) (nodes g) = Some src_node /\
    targets d = [(target_id edge ++ "_N")%string] /\
    (node_type src_node = DECISION -> label edge = "no" ->
       sources d = [(source_id edge ++ "_E")%string] /\ priority d = 1%Z) /\
    (node_type src_node = DECISION -> label edge <> "no" ->
       sources d = [(source_id edge ++ "_S")%string] /\ priority d = 10%Z) /\
    (node_type src_node = START ->
       sources d = [(source_id edge ++ "_S")%string] /\ priority d = 10%Z) /\
    (node_type src_node <> DECISION ->
       sources d = [(source_id edge ++ "_S")%string] /\ priority d = 10%Z).
Proof.
  intros H. simpl in H. apply In_elk_edges_from in H.
  destruct H as (j & edge & Hn & Hd). simpl in Hd.
  destruct (PyDict.get (source_id edge) (nodes g)) as [n|] eqn:Hs.
  - rewrite (elk_edge_Some _ _ _ Hs) in Hd. injection Hd as <-.
    exists j, edge, n. simpl.
    split; [exact Hn|]. split; [exact Hs|]. split; [reflexivity|].
    unfold convention.
    split; [|split; [|split]].
    + intros -> ->. auto.
    + intros -> Hl. destruct (String.eqb (label edge) "no") eqn:E; auto.
      apply String.eqb_eq in E. contradiction.
    + intros ->. auto.
    + intros Hd. destruct (node_type n); auto. contradiction.
  - unfold elk_edge in Hd. rewrite Hs in Hd. discriminate.
Qed.

(** C10: an edge whose source id is a node key gets an edge descriptor
    whether or not its target id is a node key, and the descriptor names the
    NORTH port of the target id; an edge whose source id is not a node key
    gets none; so the request has as many edge descriptors as the graph has
    edges with a known source. *)
Theorem request_keeps_dangling_targets `{PF : PyFloat}
  (self : ELKLayoutEngine) (g : FlowGraph) :
  (forall (i : nat) (edge : FlowEdge),
      nth_error (edges g) i = Some edge ->
      PyDict.mem (source_id edge) (nodes g) = true ->
      exists d, In d (elk_edges (_build_elk_graph self g)) /\
                elk_edge g i edge = Some d /\
                targets d = [(target_id edge ++ "_N")%string]) /\
  (forall (i : nat) (edge : FlowEdge),
      PyDict.mem (source_id edge) (nodes g) = false -> elk_edge g i edge = None) /\
  length (elk_edges (_build_elk_graph self g))
  = length (filter (fun e => PyDict.mem (source_id e) (nodes g)) (edges g)).
Proof.
  split; [|split].
  - intros i edge Hn Hm. unfold PyDict.mem in Hm.
    destruct (PyDict.get (source_id edge) (nodes g)) as [n|] eqn:Hs; [|discriminate].
    eexists. split; [|split].
    + simpl. apply In_elk_edges_from. exists i, edge. split; [exact Hn|].
      simpl. apply (elk_edge_Some _ _ _ Hs).
    + apply (elk_edge_Some _ _ _ Hs).
    + reflexivity.
  - intros i edge Hm. unfold PyDict.mem in Hm. unfold elk_edge.
    destruct (PyDict.get (source_id edge) (nodes g)); [discriminate | reflexivity].
  - simpl. apply length_elk_edges_from.
Qed.

(* ------------------------------------------------------------------ *)
(** ** Extraction: the loop over the index *)

Section ForEach.
Variables (S A : Type) (body : S -> A -> result S).

(** A loop invariant that may mention the elements already visited. *)
Lemma for_each_inv (P : list A -> S -> Prop) (l : list A) :
  (forall pre a s s', P pre s -> In a l -> body s a = Ok s' -> P (pre ++ [a]) s') ->
  forall pre s s', P pre s -> for_each body l s = Ok s' -> P (pre ++ l) s'.
Proof.
  induction l as [|a l IH]; intros Hstep pre s s' HP Hrun; simpl in Hrun.
  - injection Hrun as <-. now rewrite app_nil_r.
  - destruct (body s a) as [s1|e] eqn:Hb; simpl in Hrun; [|discriminate].
    replace (pre ++ a :: l) with ((pre ++ [a]) ++ l) by now rewrite <- app_assoc.
    apply IH with (s := s1); auto.
    + intros pre' a' t t' HP' Hin Hb'. apply Hstep with (s := t); simpl; auto.
    + apply Hstep with (s := s); simpl; auto.
Qed.

Lemma for_each_inv_nil (P : list A -> S -> Prop) (l : list A) (s s' : S) :
  P [] s ->
  (forall pre a s s', P pre s -> In a l -> body s a = Ok s' -> P (pre ++ [a]) s') ->
  for_each body l s = Ok s' -> P l s'.
Proof.
  intros H0 Hstep Hrun. change l with ([] ++ l). eapply for_each_inv; eauto.
Qed.

(** A loop whose body never raises on the states it meets ends well. *)
Lemma for_each_total (Q : S -> Prop) (l : list A) :
  (forall a s, Q s -> In a l -> exists s', body s a = Ok s' /\ Q s') ->
  forall s, Q s -> exists s', for_each body l s = Ok s' /\ Q s'.
Proof.
  induction l as [|a l IH]; intros Hstep s HQ; simpl.
  - eauto.
  - destruct (Hstep a s HQ) as (s1 & Hb & HQ1); simpl; auto.
    rewrite Hb. simpl. apply IH; auto.
    intros a' t HQt Hin. apply Hstep; simpl; auto.
Qed.
End ForEach.

Section Extraction.
Context {PF : PyFloat}.

Lemma parse_cell_cases (p p' : DrawioParser) (c : Element) :
  parse_cell p c = Ok p' ->
  (_is_edge c = true /\ p' = _parse_edge p c)
  \/ (_is_edge c = false /\ _is_node p c = true /\ _parse_node p c = Ok p')
  \/ (_is_edge c = false /\ _is_node p c = false /\ p' = p).
Proof.
  unfold parse_cell. destruct (_is_edge c).
  - intros [= <-]. auto.
  - destruct (_is_node p c).
    + auto.
    + intros [= <-]. auto.
Qed.

(** [_parse_edge] either appends one fresh edge or changes nothing *)
Lemma parse_edge_cases (p : DrawioParser) (c : Element) :
  (exists src tgt,
      ET.get c "source" = Some src /\ ET.get c "target" = Some tgt /\
      PyStr.truthy src = true /\ PyStr.truthy tgt = true /\
      existsb (same_pair src tgt) (edges (graph p)) = false /\
      _parse_edge p c =
      with_graph {| nodes := nodes (graph p);
                    edges := edges (graph p)
                             ++ [new_FlowEdge (ET.get_d c "id" "") src tgt] |} p)
  \/ (_parse_edge p c = p /\
      forall src tgt,
        ET.get c "source" = Some src -> ET.get c "target" = Some tgt ->
        PyStr.truthy src = true -> PyStr.truthy tgt = true ->
        existsb (same_pair src tgt) (edges (graph p)) = true).
Proof.
  unfold _parse_edge.
  destruct (ET.get c "source") as [src|]; [|right; split; [auto|discriminate]].
  destruct (ET.get c "target") as [tgt|]; [|right; split; [auto|discriminate]].
  destruct (PyStr.truthy src) eqn:Ts; simpl.
  2:{ right. split; auto. intros ? ? [= <-] [= <-] ? ?. congruence. }
  destruct (PyStr.truthy tgt) eqn:Tt; simpl.
  2:{ right. split; auto. intros ? ? [= <-] [= <-] ? ?. congruence. }
  destruct (existsb (same_pair src tgt) (edges (graph p))) eqn:Ex; simpl.
  - right. split; auto. intros ? ? [= <-] [= <-] ? ?. assumption.
  - left. exists src, tgt. auto 10.
Qed.

Lemma parse_node_cases (p p' : DrawioParser) (c : Element) :
  _parse_node p c = Ok p' ->
  exists geo w h,
    find_geo (namespace p) c = Some geo /\
    float_attr geo "width" 120 = Ok w /\
    float_attr geo "height" 60 = Ok h /\
    p' = with_graph
           {| nodes := PyDict.set (ET.get_d c "id" "")
                         (new_FlowNode (ET.get_d c "id" "")
                            (style_type (ET.get_d c "style" ""))
                            (ET.get_d c "value" "") w h)
                         (nodes (graph p));
              edges := edges (graph p) |} p.
Proof.
  unfold _parse_node.
  destruct (find_geo (namespace p) c) as [geo|]; [|discriminate].
  destruct (float_attr geo "width" 120) as [w|] eqn:Ew; simpl; [|discriminate].
  destruct (float_attr geo "height" 60) as [h|] eqn:Eh; simpl; [|discriminate].
  intros [= <-]. exists geo, w, h. auto.
Qed.

Lemma parse_cell_frame (p p' : DrawioParser) (c : Element) :
  parse_cell p c = Ok p' ->
  cell_map p' = cell_map p /\ namespace p' = namespace p.
Proof.
  intros H. apply parse_cell_cases in H.
  destruct H as [[_ ->]|[(_ & _ & H)|(_ & _ & ->)]]; auto.
  - destruct (parse_edge_cases p c) as [(s & t & _ & _ & _ & _ & _ & ->)|[-> _]]; auto.
  - apply parse_node_cases in H. destruct H as (? & ? & ? & _ & _ & _ & ->). auto.
Qed.

Lemma is_node_frame (p p' : DrawioParser) (c : Element) :
  cell_map p' = cell_map p -> namespace p' = namespace p ->
  _is_node p' c = _is_node p c.
Proof.
  intros Hc Hn. unfold _is_node. now rewrite Hc, Hn.
Qed.

(* -------------------------------------------------------------- *)
(** *** Edges *)

Lemma existsb_same_pair (src tgt : string) (es : list FlowEdge) :
  existsb (same_pair src tgt) es = true <-> In (src, tgt) (map pair_of es).
Proof.
  rewrite existsb_exists, in_map_iff. unfold same_pair, pair_of.
  split; intros (e & H1 & H2); exists e.
  - apply andb_prop in H2. destruct H2 as [Ha Hb].
    apply String.eqb_eq in Ha, Hb. subst. auto.
  - injection H1 as <- <-. now rewrite !String.eqb_refl.
Qed.

Lemma has_pair_spec (src tgt : string) (c : Element) :
  has_pair src tgt c = true <->
  ET.get c "source" = Some src /\ ET.get c "target" = Some tgt.
Proof.
  unfold has_pair, PyStr.opt_eqb.
  destruct (ET.get c "source") as [s|], (ET.get c "target") as [t|]; simpl;
    try (split; [discriminate | intros [? ?]; discriminate]).
  - rewrite andb_true_iff, !String.eqb_eq. split; intros [? ?]; split; congruence.
  - rewrite andb_false_r. split; [discriminate | intros [? ?]; discriminate].
Qed.

Lemma NoDup_snoc {A : Type} (l : list A) (a : A) :
  NoDup l -> ~ In a l -> NoDup (l ++ [a]).
Proof.
  intros ND Hn. apply NoDup_rev in ND.
  rewrite <- (rev_involutive (l ++ [a])). apply NoDup_rev.
  rewrite rev_app_distr. simpl. constructor; auto. now rewrite <- in_rev.
Qed.

Lemma is_edge_of_pair (c : Element) (s t : string) :
  ET.get c "source" = Some s -> ET.get c "target" = Some t ->
  PyStr.truthy s = true -> PyStr.truthy t = true -> _is_edge c = true.
Proof.
  intros Hs Ht Ts Tt. unfold _is_edge. rewrite Hs, Ht. simpl.
  rewrite Ts, Tt. apply orb_true_r.
Qed.

Lemma edges_inv_same (pre : list Element) (es : list FlowEdge) (c : Element) :
  edges_inv pre es ->
  (forall s t, ET.get c "source" = Some s -> ET.get c "target" = Some t ->
               PyStr.truthy s = true -> PyStr.truthy t = true ->
               In (s, t) (map pair_of es)) ->
  edges_inv (pre ++ [c]) es.
Proof.
  intros (ND & Hfirst & Hall) Hc. split; [|split]; auto.
  - intros e He. destruct (Hfirst e He) as (Ts & Tt & c0 & Hf & Hce).
    repeat split; auto. exists c0. rewrite find_app_last, Hf. auto.
  - intros c' s t Hin. apply in_app_or in Hin. destruct Hin as [Hin|[<-|[]]]; eauto.
Qed.

Lemma edges_inv_step (pre : list Element) (p p' : DrawioParser) (c : Element) :
  edges_inv pre (edges (graph p)) -> parse_cell p c = Ok p' ->
  edges_inv (pre ++ [c]) (edges (graph p')).
Proof.
  intros Inv H. apply parse_cell_cases in H.
  destruct H as [[Hedge ->]|[(Hedge & _ & H)|(Hedge & _ & ->)]].
  - destruct (parse_edge_cases p c)
      as [(src & tgt & Hs & Ht & Ts & Tt & Ex & ->)|[-> Hdup]].
    + simpl. destruct Inv as (ND & Hfirst & Hall).
      assert (Hnew : ~ In (src, tgt) (map pair_of (edges (graph p)))).
      { rewrite <- existsb_same_pair. congruence. }
      split; [|split].
      * rewrite map_app. simpl. now apply NoDup_snoc.
      * intros e He. apply in_app_or in He. destruct He as [He|[<-|[]]].
        -- destruct (Hfirst e He) as (Tse & Tte & c0 & Hf & Hce).
           repeat split; auto. exists c0. rewrite find_app_last, Hf. auto.
        -- simpl. repeat split; auto. exists c.
           rewrite find_app_last.
           destruct (find (has_pair src tgt) pre) as [c0|] eqn:Hf.
           ++ exfalso. apply Hnew.
              destruct (find_some _ _ Hf) as [Hin Hp].
              apply has_pair_spec in Hp. destruct Hp. eauto.
           ++ assert (Hp : has_pair src tgt c = true) by now apply has_pair_spec.
              rewrite Hp. auto.
      * intros c' s t Hin Hs' Ht' Ts' Tt'. rewrite map_app. apply in_or_app.
        apply in_app_or in Hin. destruct Hin as [Hin|[<-|[]]].
        -- left. eauto.
        -- right. left. unfold pair_of. simpl. congruence.
    + apply edges_inv_same; auto.
      intros s t Hs Ht Ts Tt. apply existsb_same_pair. auto.
  - apply parse_node_cases in H. destruct H as (? & ? & ? & _ & _ & _ & ->). simpl.
    apply edges_inv_same; auto.
    intros s t Hs Ht Ts Tt. rewrite (is_edge_of_pair c Hs Ht Ts Tt) in Hedge.
    discriminate.
  - apply edges_inv_same; auto.
    intros s t Hs Ht Ts Tt. rewrite (is_edge_of_pair c Hs Ht Ts Tt) in Hedge.
    discriminate.
Qed.

Lemma edges_inv_loop (l : list Element) (p0 p1 : DrawioParser) :
  edges (graph p0) = [] ->
  for_each parse_cell l p0 = Ok p1 ->
  edges_inv l (edges (graph p1)).
Proof.
  intros H0 Hrun.
  apply (for_each_inv_nil parse_cell (fun pre p => edges_inv pre (edges (graph p))) l p0);
    auto.
  - rewrite H0. split; [constructor|split]; simpl; tauto.
  - intros pre a s s' Hinv _ Hb. eapply edges_inv_step; eauto.
Qed.

End Extraction.

Section ParseShape.
Context {PF : PyFloat}.

Lemma parse_Ok_inv (root : Element) (g : FlowGraph) :
  parse (Ok root) = Ok g ->
  exists model p1,
    find_model (namespace_of root) root = Some model /\
    for_each parse_cell (PyDict.values (build_cell_map model)) (fresh_parser root model)
    = Ok p1 /\
    g = graph (_infer_node_types (_extract_edge_labels p1)).
Proof.
  unfold parse. simpl.
  destruct (find_model (namespace_of root) root) as [model|]; [|discriminate].
  simpl. fold (fresh_parser root model).
  destruct (for_each parse_cell _ (fresh_parser root model)) as [p1|] eqn:E;
    simpl; [|discriminate].
  intros [= <-]. exists model, p1. auto.
Qed.

Lemma loop_frame (l : list Element) (p0 p1 : DrawioParser) :
  for_each parse_cell l p0 = Ok p1 ->
  cell_map p1 = cell_map p0 /\ namespace p1 = namespace p0.
Proof.
  intros H.
  apply (for_each_inv_nil parse_cell
           (fun _ p => cell_map p = cell_map p0 /\ namespace p = namespace p0) l p0);
    auto.
  intros pre a s s' [Hc Hn] _ Hb. apply parse_cell_frame in Hb.
  destruct Hb as [-> ->]. auto.
Qed.

Lemma edges_infer (p : DrawioParser) :
  edges (graph (_infer_node_types p)) = edges (graph p).
Proof.
  unfold _infer_node_types. destruct (degrees (graph p)). reflexivity.
Qed.

Lemma edges_labels (p : DrawioParser) :
  edges (graph (_extract_edge_labels p))
  = map (extract_edge_label (cell_map p)) (edges (graph p)).
Proof. reflexivity. Qed.

Lemma nodes_labels (p : DrawioParser) :
  nodes (graph (_extract_edge_labels p)) = nodes (graph p).
Proof. reflexivity. Qed.

(** label extraction only writes the label *)
Lemma extract_edge_label_frame (cm : PyDict.t Element) (e : FlowEdge) :
  edge_id (extract_edge_label cm e) = edge_id e /\
  source_id (extract_edge_label cm e) = source_id e /\
  target_id (extract_edge_label cm e) = target_id e.
Proof.
  unfold extract_edge_label.
  destruct (PyDict.get (edge_id e) cm) as [c|]; simpl;
    repeat match goal with
      | |- context [if ?b then _ else _] => destruct b
      | |- context [match ?o with Some _ => _ | None => _ end] => destruct o
      end; simpl; auto.
Qed.

Lemma pair_of_labels (cm : PyDict.t Element) (es : list FlowEdge) :
  map pair_of (map (extract_edge_label cm) es) = map pair_of es.
Proof.
  rewrite map_map. apply map_ext. intros e. unfold pair_of.
  destruct (extract_edge_label_frame cm e) as (_ & -> & ->). reflexivity.
Qed.

(** The edges of an extracted graph, seen from the index. *)
Lemma parse_edges (root : Element) (g : FlowGraph) :
  parse (Ok root) = Ok g ->
  exists cm es,
    index_of root = Some cm /\
    edges_inv (PyDict.values cm) es /\
    edges g = map (extract_edge_label cm) es.
Proof.
  intros H. apply parse_Ok_inv in H. destruct H as (model & p1 & Hm & Hrun & ->).
  exists (build_cell_map model), (edges (graph p1)).
  destruct (loop_frame _ _ Hrun) as [Hc _]. simpl in Hc.
  split; [|split].
  - unfold index_of. now rewrite Hm.
  - apply edges_inv_loop with (p0 := fresh_parser root model); auto.
  - rewrite edges_infer, edges_labels, Hc. reflexivity.
Qed.

Lemma index_of_ok (root : Element) (cm : PyDict.t Element) :
  index_of root = Some cm -> index_ok cm.
Proof.
  unfold index_of. destruct (find_model _ root); simpl; [|discriminate].
  intros [= <-]. apply index_ok_build.
Qed.

End ParseShape.

(** In an extracted graph no two edges have the same (source, target)
    pair; each edge carries the id of the first element of the index, in
    index order, that has its source and target; and every element of the
    index with a non-empty source and a non-empty target has its pair among
    the edges. *)
Lemma first_of_each_pair_by_index `{PF : PyFloat}
  (root : Element) (g : FlowGraph) :
  parse (Ok root) = Ok g ->
  exists cm,
    index_of root = Some cm /\
    NoDup (map pair_of (edges g)) /\
    (forall e, In e (edges g) ->
       exists c, find (has_pair (source_id e) (target_id e)) (PyDict.values cm) = Some c /\
                 ET.get c "id" = Some (edge_id e)) /\
    (forall c s t, In c (PyDict.values cm) ->
       ET.get c "source" = Some s -> ET.get c "target" = Some t ->
       PyStr.truthy s = true -> PyStr.truthy t = true ->
       In (s, t) (map pair_of (edges g))).
Proof.
  intros H. destruct (parse_edges _ H) as (cm & es & Hcm & (ND & Hfirst & Hall) & ->).
  exists cm. rewrite pair_of_labels. split; [|split; [|split]]; auto.
  intros e' He'. apply in_map_iff in He'. destruct He' as (e & <- & He).
  destruct (extract_edge_label_frame cm e) as (-> & -> & ->).
  destruct (Hfirst e He) as (_ & _ & c & Hf & Hce). exists c. split; auto.
  destruct (find_some _ _ Hf) as [Hin _].
  destruct (@index_value_get cm c (index_of_ok root Hcm) Hin) as (k & Hk & _ & _).
  rewrite Hce. simpl. unfold ET.get_d. now rewrite Hk.
Qed.

(** C2, as the code has it: every edge of an extracted graph has a
    non-empty source id and a non-empty target id, read from an edge element
    of the index that carries the edge's id; and every element with a
    non-empty source and a non-empty target is represented among the edges.
    The ids are not looked up in the node mapping. *)
Theorem extraction_keeps_edges_with_both_ends `{PF : PyFloat}
  (root : Element) (g : FlowGraph) :
  parse (Ok root) = Ok g ->
  exists cm,
    index_of root = Some cm /\
    (forall e, In e (edges g) ->
       PyStr.truthy (source_id e) = true /\ PyStr.truthy (target_id e) = true /\
       exists c, In c (PyDict.values cm) /\ _is_edge c = true /\
                 ET.get c "id" = Some (edge_id e) /\
                 ET.get c "source" = Some (source_id e) /\
                 ET.get c "target" = Some (target_id e)) /\
    (forall c s t, In c (PyDict.values cm) ->
       ET.get c "source" = Some s -> ET.get c "target" = Some t ->
       PyStr.truthy s = true -> PyStr.truthy t = true ->
       exists e, In e (edges g) /\ source_id e = s /\ target_id e = t).
Proof.
  intros H. destruct (parse_edges _ H) as (cm & es & Hcm & (ND & Hfirst & Hall) & ->).
  exists cm. split; [|split]; auto.
  - intros e' He'. apply in_map_iff in He'. destruct He' as (e & <- & He).
    destruct (extract_edge_label_frame cm e) as (-> & -> & ->).
    destruct (Hfirst e He) as (Ts & Tt & c & Hf & Hce).
    split; [|split]; auto. exists c.
    destruct (find_some _ _ Hf) as [Hin Hp]. apply has_pair_spec in Hp.
    destruct Hp as [Hs Ht].
    destruct (@index_value_get cm c (index_of_ok root Hcm) Hin) as (k & Hk & _ & _).
    repeat split; auto.
    + eapply is_edge_of_pair; eauto.
    + rewrite Hce. simpl. unfold ET.get_d. now rewrite Hk.
  - intros c s t Hin Hs Ht Ts Tt.
    specialize (Hall c s t Hin Hs Ht Ts Tt).
    apply in_map_iff in Hall. destruct Hall as (e & Hp & He).
    exists (extract_edge_label cm e). split; [now apply in_map|].
    destruct (extract_edge_label_frame cm e) as (_ & -> & ->).
    unfold pair_of in Hp. now injection Hp.
Qed.

(* ------------------------------------------------------------------ *)
(** ** Extraction: nodes *)

Section Nodes.
Context {PF : PyFloat}.

Lemma nodes_parse_edge (p : DrawioParser) (c : Element) :
  nodes (graph (_parse_edge p c)) = nodes (graph p).
Proof.
  destruct (parse_edge_cases p c) as [(s & t & _ & _ & _ & _ & _ & ->)|[-> _]];
    reflexivity.
Qed.

Lemma is_node_has_geo (p : DrawioParser) (c : Element) :
  _is_node p c = true -> exists geo, find_geo (namespace p) c = Some geo.
Proof.
  unfold _is_node. destruct (find_geo (namespace p) c) as [geo|]; [eauto|].
  simpl. rewrite orb_true_r. discriminate.
Qed.

Lemma nodes_inv_same (p0 p p' : DrawioParser) (pre : list Element) (c : Element) :
  nodes_inv p0 pre p ->
  cell_map p' = cell_map p -> namespace p' = namespace p ->
  nodes (graph p') = nodes (graph p) ->
  (_is_edge c = true \/ _is_node p c = false) ->
  nodes_inv p0 (pre ++ [c]) p'.
Proof.
  intros (Hc & Hn & ND & Hmade & Hall) Hc' Hn' Hnodes Hnot.
  unfold nodes_inv. rewrite Hnodes.
  split; [congruence|]. split; [congruence|]. split; [assumption|]. split.
  - intros k n Hk. destruct (Hmade k n Hk) as (c0 & geo & Hin & H).
    exists c0, geo. split; auto. apply in_or_app. auto.
  - intros c' Hin He Hnd. apply in_app_or in Hin. destruct Hin as [Hin|[<-|[]]]; auto.
    rewrite <- (is_node_frame p0 p c Hc Hn) in Hnd.
    destruct Hnot; congruence.
Qed.

Lemma nodes_inv_step (p0 p p' : DrawioParser) (pre : list Element) (c : Element) :
  nodes_inv p0 pre p -> parse_cell p c = Ok p' -> nodes_inv p0 (pre ++ [c]) p'.
Proof.
  intros Inv H. destruct (parse_cell_frame _ _ H) as [Fc Fn].
  apply parse_cell_cases in H.
  destruct H as [[Hedge ->]|[(Hedge & Hnode & H)|(Hedge & Hnode & ->)]].
  - eapply nodes_inv_same; eauto using nodes_parse_edge.
  - apply parse_node_cases in H. destruct H as (geo & w & h & Hg & Hw & Hh & ->).
    destruct Inv as (Hc & Hn & ND & Hmade & Hall).
    unfold nodes_inv. simpl.
    split; [assumption|]. split; [assumption|].
    split; [now apply PyDictFacts.NoDup_keys_set|]. split.
    + intros k n. rewrite PyDictFacts.get_set.
      destruct (String.eqb (ET.get_d c "id" "") k) eqn:E.
      * apply String.eqb_eq in E. intros [= <-]. exists c, geo. simpl.
        assert (Hnd0 : _is_node p0 c = true)
          by (rewrite <- (is_node_frame p0 p c Hc Hn); exact Hnode).
        assert (Hg0 : find_geo (namespace p0) c = Some geo)
          by (rewrite <- Hn; exact Hg).
        repeat split; auto. apply in_or_app. simpl. auto.
      * intros Hk. destruct (Hmade k n Hk) as (c0 & geo0 & Hin & H).
        exists c0, geo0. split; auto. apply in_or_app. auto.
    + intros c' Hin He Hnd. unfold PyDict.mem. rewrite PyDictFacts.get_set.
      apply in_app_or in Hin. destruct Hin as [Hin|[<-|[]]].
      * destruct (String.eqb (ET.get_d c "id" "") (ET.get_d c' "id" "")); auto.
        apply (Hall c' Hin He Hnd).
      * now rewrite String.eqb_refl.
  - eapply nodes_inv_same; eauto.
Qed.

Lemma nodes_inv_loop (l : list Element) (p0 p1 : DrawioParser) :
  nodes (graph p0) = [] ->
  for_each parse_cell l p0 = Ok p1 ->
  nodes_inv p0 l p1.
Proof.
  intros H0 Hrun.
  apply (for_each_inv_nil parse_cell (nodes_inv p0) l p0); auto.
  - unfold nodes_inv. rewrite H0. simpl.
    repeat split; try constructor; try discriminate; tauto.
  - intros pre a s s' Hinv _ Hb. eapply nodes_inv_step; eauto.
Qed.

(* -------------------------------------------------------------- *)
(** *** Role refinement *)

Lemma get_map_items {V W : Type} (f : string -> V -> W) (k : string) (d : PyDict.t V) :
  PyDict.get k (map (fun kv : string * V => (fst kv, f (fst kv) (snd kv))) d)
  = option_map (f k) (PyDict.get k d).
Proof.
  induction d as [|[k' v] d IH]; simpl; auto.
  destruct (String.eqb k k') eqn:E; auto.
  apply String.eqb_eq in E. now subst.
Qed.

Lemma keys_map_items {V W : Type} (f : string -> V -> W) (d : PyDict.t V) :
  PyDict.keys (map (fun kv : string * V => (fst kv, f (fst kv) (snd kv))) d)
  = PyDict.keys d.
Proof.
  unfold PyDict.keys. rewrite map_map. reflexivity.
Qed.

Lemma get_incr_if_present (k k' : string) (d : PyDict.t nat) :
  PyDict.get k' (incr_if_present k d)
  = if String.eqb k k' then option_map (fun c => c + 1) (PyDict.get k' d)
    else PyDict.get k' d.
Proof.
  unfold incr_if_present.
  destruct (String.eqb k k') eqn:E.
  - apply String.eqb_eq in E. subst k'.
    destruct (PyDict.get k d) as [c|] eqn:G; simpl.
    + apply PyDictFacts.get_set_eq.
    + assumption.
  - destruct (PyDict.get k d) as [c|] eqn:G; auto.
    rewrite PyDictFacts.get_set, E. reflexivity.
Qed.

(** the counters after the counting loop *)
Lemma get_fold_count (es : list FlowEdge) (ins outs : PyDict.t nat) (k : string) :
  PyDict.get k (fst (fold_left count_edge es (ins, outs)))
  = option_map
      (fun c => c + length (filter (fun e => String.eqb (target_id e) k) es))
      (PyDict.get k ins)
  /\ PyDict.get k (snd (fold_left count_edge es (ins, outs)))
     = option_map
         (fun c => c + length (filter (fun e => String.eqb (source_id e) k) es))
         (PyDict.get k outs).
Proof.
  revert ins outs. induction es as [|e es IH]; intros ins outs; simpl.
  - split; destruct (PyDict.get k _); simpl; auto; f_equal; lia.
  - unfold count_edge at 2 4. simpl.
    destruct (IH (incr_if_present (target_id e) ins)
                 (incr_if_present (source_id e) outs)) as [-> ->].
    rewrite !get_incr_if_present.
    split.
    + destruct (String.eqb (target_id e) k); destruct (PyDict.get k ins);
        simpl; auto; f_equal; lia.
    + destruct (String.eqb (source_id e) k); destruct (PyDict.get k outs);
        simpl; auto; f_equal; lia.
Qed.

Lemma degrees_spec (g : FlowGraph) (k : string) :
  In k (PyDict.keys (nodes g)) ->
  PyDict.get_or 0 k (fst (degrees g)) = in_degree g k /\
  PyDict.get_or 0 k (snd (degrees g)) = out_degree g k.
Proof.
  intros Hk. unfold degrees, PyDict.get_or, in_degree, out_degree. cbv zeta.
  pose proof (get_fold_count (edges g)
                (map (fun kv : string * FlowNode => (fst kv, 0)) (nodes g))
                (map (fun kv : string * FlowNode => (fst kv, 0)) (nodes g)) k)
    as [E1 E2].
  assert (Hz : PyDict.get k (map (fun kv : string * FlowNode => (fst kv, 0)) (nodes g))
               = Some 0).
  { rewrite (get_map_items (fun _ _ => 0)).
    destruct (PyDictFacts.In_keys_get _ _ Hk) as [n ->]. reflexivity. }
  rewrite Hz in E1, E2. simpl in E1, E2.
  unfold PyDict.t in *. rewrite E1, E2. auto.
Qed.

Lemma get_infer (p : DrawioParser) (k : string) :
  PyDict.get k (nodes (graph (_infer_node_types p)))
  = option_map (refine_type (in_degree (graph p) k) (out_degree (graph p) k))
      (PyDict.get k (nodes (graph p))).
Proof.
  unfold _infer_node_types.
  destruct (degrees (graph p)) as [ins outs] eqn:D. simpl.
  rewrite (get_map_items
             (fun k n => refine_type (PyDict.get_or 0 k ins) (PyDict.get_or 0 k outs) n)).
  destruct (PyDict.get k (nodes (graph p))) as [n|] eqn:G; simpl; auto.
  destruct (degrees_spec (graph p) k) as [Hi Ho].
  { eapply PyDictFacts.get_Some_key; eauto. }
  rewrite D in Hi, Ho. simpl in Hi, Ho. now rewrite Hi, Ho.
Qed.

Lemma keys_infer (p : DrawioParser) :
  PyDict.keys (nodes (graph (_infer_node_types p))) = PyDict.keys (nodes (graph p)).
Proof.
  unfold _infer_node_types. destruct (degrees (graph p)). simpl.
  unfold PyDict.keys. rewrite map_map. reflexivity.
Qed.

Lemma refine_type_frame (i o : nat) (n : FlowNode) :
  node_id (refine_type i o n) = node_id n /\
  width (refine_type i o n) = width n /\
  height (refine_type i o n) = height n.
Proof.
  unfold refine_type.
  destruct ((i =? 0)%nat && (0 <? o)%nat), ((o =? 0)%nat && (0 <? i)%nat); auto.
Qed.

Lemma refine_type_spec (i o : nat) (n : FlowNode) :
  (i = 0 -> 0 < o -> node_type (refine_type i o n) = START) /\
  (o = 0 -> 0 < i -> node_type (refine_type i o n) = END) /\
  (i = 0 -> o = 0 -> node_type (refine_type i o n) = node_type n) /\
  (0 < i -> 0 < o -> node_type (refine_type i o n) = node_type n).
Proof.
  unfold refine_type.
  destruct i as [|i], o as [|o]; simpl; repeat split; intros; auto; lia.
Qed.

End Nodes.

Section ExtractedGraph.
Context {PF : PyFloat}.

Lemma in_degree_edges (g g' : FlowGraph) (k : string) :
  edges g = edges g' ->
  in_degree g k = in_degree g' k /\ out_degree g k = out_degree g' k.
Proof. unfold in_degree, out_degree. now intros ->. Qed.

Lemma in_degree_labels (p : DrawioParser) (k : string) :
  in_degree (graph (_extract_edge_labels p)) k = in_degree (graph p) k /\
  out_degree (graph (_extract_edge_labels p)) k = out_degree (graph p) k.
Proof.
  unfold in_degree, out_degree. rewrite edges_labels.
  generalize (edges (graph p)). intros es.
  induction es as [|e es [IHi IHo]]; simpl; auto.
  destruct (extract_edge_label_frame (cell_map p) e) as (_ & -> & ->).
  destruct (String.eqb (target_id e) k), (String.eqb (source_id e) k);
    simpl; auto.
Qed.

(** The nodes of an extracted graph, seen from the index. *)
Lemma parse_nodes (root : Element) (g : FlowGraph) :
  parse (Ok root) = Ok g ->
  exists model p1,
    find_model (namespace_of root) root = Some model /\
    nodes_inv (fresh_parser root model) (PyDict.values (build_cell_map model)) p1 /\
    g = graph (_infer_node_types (_extract_edge_labels p1)).
Proof.
  intros H. apply parse_Ok_inv in H. destruct H as (model & p1 & Hm & Hrun & ->).
  exists model, p1. split; [assumption|]. split; [|reflexivity].
  now apply nodes_inv_loop.
Qed.

(** a node of an extracted graph is the refinement of a node of the loop *)
Lemma get_parsed_node (p1 : DrawioParser) (k : string) (n : FlowNode) :
  PyDict.get k (nodes (graph (_infer_node_types (_extract_edge_labels p1)))) = Some n ->
  exists n0,
    PyDict.get k (nodes (graph p1)) = Some n0 /\
    n = refine_type
          (in_degree (graph (_infer_node_types (_extract_edge_labels p1))) k)
          (out_degree (graph (_infer_node_types (_extract_edge_labels p1))) k) n0.
Proof.
  rewrite get_infer, nodes_labels.
  destruct (PyDict.get k (nodes (graph p1))) as [n0|]; simpl; [|discriminate].
  intros [= <-]. exists n0. split; auto.
  destruct (in_degree_edges (graph (_infer_node_types (_extract_edge_labels p1)))
              (graph (_extract_edge_labels p1)) k (edges_infer _)) as [-> ->].
  reflexivity.
Qed.

Lemma float_attr_ok (geo : Element) (k : string) (d : Z) :
  (forall s, ET.get geo k = Some s -> float_of_str s <> None) ->
  exists f, float_attr geo k d = Ok f.
Proof.
  intros H. unfold float_attr.
  destruct (ET.get geo k) as [s|]; [|eauto].
  specialize (H s eq_refl). destruct (float_of_str s); [eauto | contradiction].
Qed.

Lemma float_attr_inv (geo : Element) (k : string) (d : Z) (f : float) :
  float_attr geo k d = Ok f ->
  (ET.get geo k = None -> f = float_of_int d) /\
  (forall s, ET.get geo k = Some s -> float_of_str s = Some f).
Proof.
  unfold float_attr. destruct (ET.get geo k) as [s|].
  - destruct (float_of_str s) eqn:E; [|discriminate].
    intros [= <-]. split; [discriminate|]. now intros ? [= <-].
  - intros [= <-]. split; [auto | discriminate].
Qed.

(** the loop ends well when every size attribute it reads is a number *)
Lemma loop_total (l : list Element) (p0 : DrawioParser) :
  (forall c geo k s,
      In c l -> _is_edge c = false -> _is_node p0 c = true ->
      find_geo (namespace p0) c = Some geo ->
      k = "width" \/ k = "height" ->
      ET.get geo k = Some s -> float_of_str s <> None) ->
  exists p1, for_each parse_cell l p0 = Ok p1.
Proof.
  intros Hnum.
  destruct (for_each_total parse_cell
              (fun p => cell_map p = cell_map p0 /\ namespace p = namespace p0) l)
    with (s := p0) as (p1 & H & _); eauto.
  intros c p [Hc Hn] Hin.
  destruct (parse_cell p c) as [p'|e] eqn:E.
  - exists p'. split; auto. destruct (parse_cell_frame _ _ E). split; congruence.
  - exfalso. unfold parse_cell in E.
    destruct (_is_edge c) eqn:He; [discriminate|].
    destruct (_is_node p c) eqn:Hnd; [|discriminate].
    destruct (is_node_has_geo _ _ Hnd) as [geo Hg].
    rewrite (is_node_frame p0 p c Hc Hn) in Hnd.
    unfold _parse_node in E. rewrite Hg in E. rewrite Hn in Hg.
    destruct (float_attr_ok geo "width" 120) as [w Hw]; [eauto|].
    destruct (float_attr_ok geo "height" 60) as [h Hh]; [eauto|].
    rewrite Hw, Hh in E. discriminate.
Qed.

End ExtractedGraph.

(** C3: in an extracted graph a node that no edge enters and some edge
    leaves has role START, a node that no edge leaves and some edge enters
    has role END, whatever its style said; a node with no edge at all has
    the role that the style of its element gives. *)
Theorem roles_refined_by_degree `{PF : PyFloat} (root : Element) (g : FlowGraph) :
  parse (Ok root) = Ok g ->
  exists cm,
    index_of root = Some cm /\
    forall nid n, PyDict.get nid (nodes g) = Some n ->
      (in_degree g nid = 0 -> 0 < out_degree g nid -> node_type n = START) /\
      (out_degree g nid = 0 -> 0 < in_degree g nid -> node_type n = END) /\
      (in_degree g nid = 0 -> out_degree g nid = 0 ->
         exists cell, PyDict.get nid cm = Some cell /\
                      node_type n = style_type (ET.get_d cell "style" "")).
Proof.
  intros H. destruct (parse_nodes _ H) as (model & p1 & Hm & Inv & ->).
  exists (build_cell_map model). split; [unfold index_of; now rewrite Hm|].
  intros nid n Hn. apply get_parsed_node in Hn. destruct Hn as (n0 & Hn0 & ->).
  set (g := graph (_infer_node_types (_extract_edge_labels p1))).
  destruct (refine_type_spec (in_degree g nid) (out_degree g nid) n0)
    as (Hs & He & Hz & _).
  split; [exact Hs|]. split; [exact He|].
  intros Hi Ho. rewrite (Hz Hi Ho).
  destruct Inv as (_ & _ & _ & Hmade & _).
  destruct (Hmade nid n0 Hn0) as (c & geo & Hin & Hid & _ & _ & _ & _ & _ & Hty & _).
  exists c. split; [|exact Hty].
  destruct (@index_value_get (build_cell_map model) c (index_ok_build model) Hin)
    as (k & Hk & _ & Hget).
  unfold ET.get_d in Hid. rewrite Hk in Hid. now subst k.
Qed.

(** Extraction succeeds when the document has a graph model and every
    width and height attribute on the geometry of a node element of the
    index is a number; then a node whose geometry has no width gets width
    120.0, one whose geometry has no height gets height 60.0, and an
    attribute that is there gives the node its value. *)
Lemma sizes_by_index `{PF : PyFloat} (root model : Element) :
  find_model (namespace_of root) root = Some model ->
  ((forall c geo k s,
       In c (PyDict.values (build_cell_map model)) ->
       _is_edge c = false -> _is_node (fresh_parser root model) c = true ->
       find_geo (namespace_of root) c = Some geo ->
       k = "width" \/ k = "height" ->
       ET.get geo k = Some s -> float_of_str s <> None) ->
   exists g, parse (Ok root) = Ok g)
  /\
  (forall g, parse (Ok root) = Ok g ->
     forall nid n, PyDict.get nid (nodes g) = Some n ->
       exists cell geo,
         PyDict.get nid (build_cell_map model) = Some cell /\
         find_geo (namespace_of root) cell = Some geo /\
         (ET.get geo "width" = None -> width n = float_of_int 120) /\
         (ET.get geo "height" = None -> height n = float_of_int 60) /\
         (forall s, ET.get geo "width" = Some s -> float_of_str s = Some (width n)) /\
         (forall s, ET.get geo "height" = Some s -> float_of_str s = Some (height n))).
Proof.
  intros Hm. split.
  - intros Hnum.
    destruct (loop_total (PyDict.values (build_cell_map model))
                (fresh_parser root model) Hnum) as [p1 Hrun].
    exists (graph (_infer_node_types (_extract_edge_labels p1))).
    unfold parse. simpl. rewrite Hm. simpl.
    fold (fresh_parser root model). rewrite Hrun. reflexivity.
  - intros g H nid n Hn.
    destruct (parse_nodes _ H) as (model' & p1 & Hm' & Inv & ->).
    rewrite Hm in Hm'. injection Hm' as <-.
    apply get_parsed_node in Hn. destruct Hn as (n0 & Hn0 & ->).
    destruct Inv as (_ & _ & _ & Hmade & _).
    destruct (Hmade nid n0 Hn0) as (c & geo & Hin & Hid & _ & _ & Hg & Hw & Hh & _).
    destruct (@index_value_get (build_cell_map model) c (index_ok_build model) Hin)
      as (k & Hk & _ & Hget).
    unfold ET.get_d in Hid. rewrite Hk in Hid. subst k.
    exists c, geo. split; [exact Hget|]. split; [exact Hg|].
    destruct (refine_type_frame
                (in_degree (graph (_infer_node_types (_extract_edge_labels p1))) nid)
                (out_degree (graph (_infer_node_types (_extract_edge_labels p1))) nid) n0)
      as (_ & -> & ->).
    destruct (float_attr_inv _ _ _ Hw) as [Hw1 Hw2].
    destruct (float_attr_inv _ _ _ Hh) as [Hh1 Hh2].
    auto.
Qed.

(** The label of an extracted edge whose element has a child, in the terms
    of the code: decided by the element's own value when that is not empty,
    and otherwise by the value of the first element of the index that
    [is_label_of] accepts. *)
Lemma label_by_index `{PF : PyFloat} (root : Element) (g : FlowGraph) :
  parse (Ok root) = Ok g ->
  exists cm,
    index_of root = Some cm /\
    forall e, In e (edges g) ->
      exists cell,
        PyDict.get (edge_id e) cm = Some cell /\
        (ET.truthy cell = true ->
         PyStr.truthy_opt (ET.get cell "value") = true ->
         label e = yes_no (PyStr.lower (ET.get_d cell "value" "")) "") /\
        (ET.truthy cell = true ->
         PyStr.truthy_opt (ET.get cell "value") = false ->
         label e =
         match find (is_label_of (edge_id e)) (PyDict.values cm) with
         | Some child => yes_no (PyStr.lower (ET.get_d child "value" "")) ""
         | None => ""
         end).
Proof.
  intros H. destruct (parse_edges _ H) as (cm & es & Hcm & (ND & Hfirst & Hall) & ->).
  exists cm. split; [assumption|].
  intros e' He'. apply in_map_iff in He'. destruct He' as (e & <- & He).
  destruct (extract_edge_label_frame cm e) as (-> & _ & _).
  destruct (Hfirst e He) as (_ & _ & c & Hf & Hce).
  destruct (find_some _ _ Hf) as [Hin _].
  destruct (@index_value_get cm c (index_of_ok root Hcm) Hin) as (k & Hk & _ & Hget).
  assert (Hid : edge_id e = k).
  { rewrite Hce. simpl. unfold ET.get_d. now rewrite Hk. }
  assert (Hl : label e = "") by (rewrite Hce; reflexivity).
  exists c. rewrite Hid. split; [exact Hget|].
  unfold extract_edge_label. rewrite Hid, Hget, Hl. simpl.
  split; intros Tc Tv; rewrite Tc, Tv; simpl; [reflexivity|].
  destruct (find (is_label_of k) (PyDict.values cm)); simpl; auto.
Qed.

(* ------------------------------------------------------------------ *)
(** ** Generation followed by extraction *)

Section Generated.
Context {PF : PyFloat}.

Lemma fold_write_node (l : list FlowNode) (t : string) (a : list (string * string))
  (cs : list Element) :
  fold_left _write_node l (Elem t a cs) = Elem t a (cs ++ map node_cell l).
Proof.
  revert cs. induction l as [|n l IH]; intros cs; simpl.
  - now rewrite app_nil_r.
  - rewrite IH, <- app_assoc. reflexivity.
Qed.

Lemma fold_write_edge (l : list FlowEdge) (t : string) (a : list (string * string))
  (cs : list Element) :
  fold_left _write_edge l (Elem t a cs) = Elem t a (cs ++ map edge_cell l).
Proof.
  revert cs. induction l as [|n l IH]; intros cs; simpl.
  - now rewrite app_nil_r.
  - rewrite IH, <- app_assoc. reflexivity.
Qed.

Lemma generate_shape (g : FlowGraph) :
  generate g =
  Elem "mxfile" [ ("host", "elk-v4"); ("version", "4.0") ]
    [ Elem "diagram" [ ("name", "Flowchart") ] [ generated_model g ] ].
Proof.
  unfold generate. rewrite fold_write_node, fold_write_edge.
  unfold generated_model, generated_cells. rewrite <- app_assoc. reflexivity.
Qed.

Lemma namespace_generate (g : FlowGraph) : namespace_of (generate g) = "".
Proof. rewrite generate_shape. reflexivity. Qed.

Lemma find_model_generate (g : FlowGraph) :
  find_model "" (generate g) = Some (generated_model g).
Proof. rewrite generate_shape. reflexivity. Qed.

(** the generated edge element, with its style and its value named *)
Lemma edge_cell_shape (e : FlowEdge) :
  exists style lbl kids,
    edge_cell e =
    Elem "mxCell"
      [ ("id", edge_id e); ("value", lbl); ("style", style);
        ("edge", "1"); ("parent", "1");
        ("source", source_id e); ("target", target_id e) ]
      [ Elem "mxGeometry" [ ("relative", "1"); ("as", "geometry") ] kids ]
    /\ (kids = [] \/
        kids = [ Elem "Array" [ ("as", "points") ] (map point_cell (routing_points e)) ]).
Proof.
  unfold edge_cell.
  destruct (PyDict.get_or ("0.5", "1") (source_side e) pmap) as [ex ey].
  destruct (PyDict.get_or ("0.5", "0") (target_side e) pmap) as [ix iy].
  do 3 eexists. split; [reflexivity|].
  destruct (routing_points e); auto.
Qed.

Lemma edge_cell_attrs (e : FlowEdge) :
  ET.get (edge_cell e) "id" = Some (edge_id e) /\
  ET.get (edge_cell e) "source" = Some (source_id e) /\
  ET.get (edge_cell e) "target" = Some (target_id e) /\
  _is_edge (edge_cell e) = true.
Proof.
  destruct (edge_cell_shape e) as (style & lbl & kids & -> & _).
  repeat split; reflexivity.
Qed.

Lemma node_cell_attrs (n : FlowNode) :
  ET.get (node_cell n) "id" = Some (node_id n) /\
  ET.get (node_cell n) "source" = None /\
  ET.get (node_cell n) "style" = Some (node_style (node_type n)) /\
  _is_edge (node_cell n) = false.
Proof. repeat split; reflexivity. Qed.

Lemma flat_map_iter_points (pts : list Point) :
  flat_map ET.iter (map point_cell pts) = map point_cell pts.
Proof.
  induction pts as [|pt pts IH]; simpl; auto. now rewrite IH.
Qed.

(** below a generated cell no element carries an id *)
Lemma iter_node_cell (n : FlowNode) :
  exists rest, ET.iter (node_cell n) = node_cell n :: rest /\
               forall y, In y rest -> ET.get y "id" = None.
Proof.
  eexists. split; [reflexivity|]. simpl. intros y [<-|[]]. reflexivity.
Qed.

Lemma iter_edge_cell (e : FlowEdge) :
  exists rest, ET.iter (edge_cell e) = edge_cell e :: rest /\
               forall y, In y rest -> ET.get y "id" = None.
Proof.
  destruct (edge_cell_shape e) as (style & lbl & kids & -> & Hk).
  eexists. split; [reflexivity|]. simpl. rewrite app_nil_r.
  intros y [<-|Hy]; [reflexivity|].
  destruct Hk as [->| ->]; simpl in Hy; [tauto|].
  rewrite app_nil_r, flat_map_iter_points in Hy.
  destruct Hy as [<-|Hy]; [reflexivity|].
  apply in_map_iff in Hy. destruct Hy as (pt & <- & _). reflexivity.
Qed.

(** the elements of a generated model that carry an id are its cells *)
Lemma iter_generated_model (g : FlowGraph) (y : Element) (k : string) :
  In y (ET.iter (generated_model g)) -> ET.get y "id" = Some k ->
  In y (generated_cells g).
Proof.
  unfold generated_model. simpl. intros [<-|[<-|H]]; try discriminate.
  intros Hk. unfold generated_cells in *. simpl in H.
  destruct H as [<-|[<-|H]]; simpl; auto.
  right. right. rewrite app_nil_r, flat_map_app in H.
  apply in_app_or in H. apply in_or_app.
  destruct H as [H|H]; [left|right];
    apply in_flat_map in H; destruct H as (c & Hc & Hy);
    apply in_map_iff in Hc; destruct Hc as (z & <- & Hz).
  - destruct (iter_node_cell z) as (rest & E & Hrest). rewrite E in Hy.
    destruct Hy as [<-|Hy]; [now apply in_map|].
    rewrite (Hrest _ Hy) in Hk. discriminate.
  - destruct (iter_edge_cell z) as (rest & E & Hrest). rewrite E in Hy.
    destruct Hy as [<-|Hy]; [now apply in_map|].
    rewrite (Hrest _ Hy) in Hk. discriminate.
Qed.

Lemma iter_self (e : Element) : In e (ET.iter e).
Proof. destruct e. simpl. auto. Qed.

Lemma generated_cells_iter (g : FlowGraph) (c : Element) :
  In c (generated_cells g) -> In c (ET.iter (generated_model g)).
Proof.
  intros H. unfold generated_model. simpl. right. right.
  rewrite app_nil_r.
  apply (in_flat_map ET.iter (generated_cells g) c).
  exists c. split; [exact H | apply iter_self].
Qed.

End Generated.

Section Ready.
Context {PF : PyFloat}.

Lemma in_list_spec (a : string) (l : list string) :
  PyStr.in_list a l = true <-> In a l.
Proof.
  unfold PyStr.in_list. rewrite existsb_exists. split.
  - intros (b & Hb & E). apply String.eqb_eq in E. now subst.
  - intros H. exists a. split; auto. apply String.eqb_refl.
Qed.

Lemma nodupb_spec (l : list string) : nodupb l = true -> NoDup l.
Proof.
  induction l as [|a l IH]; simpl; intros H; constructor.
  - apply andb_prop in H. destruct H as [H _].
    intros Hin. apply in_list_spec in Hin. rewrite Hin in H. discriminate.
  - apply andb_prop in H. tauto.
Qed.

Lemma NoDup_nodupb (l : list string) : NoDup l -> nodupb l = true.
Proof.
  induction 1 as [|a l Hn ND IH]; simpl; auto.
  rewrite IH, andb_true_r. destruct (PyStr.in_list a l) eqn:E; auto.
  apply in_list_spec in E. contradiction.
Qed.

Lemma NodeType_eqb_spec (a b : NodeType) : NodeType_eqb a b = true <-> a = b.
Proof. destruct a, b; simpl; split; congruence. Qed.

Variable g : FlowGraph.
Hypothesis R : roundtrip_ready g = true.

Lemma ready_parts :
  NoDup (PyDict.keys (nodes g)) /\
  (forall kv, In kv (nodes g) -> node_ready g kv = true) /\
  NoDup (map edge_id (edges g)) /\
  (forall e, In e (edges g) -> edge_ready g e = true).
Proof.
  unfold roundtrip_ready in R.
  repeat (apply andb_prop in R; destruct R as [R ?]).
  repeat split; auto using nodupb_spec.
  - now apply forallb_forall.
  - now apply forallb_forall.
Qed.

Lemma ready_node (k : string) (n : FlowNode) :
  In (k, n) (nodes g) ->
  node_id n = k /\ PyStr.truthy k = true /\ k <> "0" /\ k <> "1" /\
  role_agrees g k n = true.
Proof.
  intros Hin. destruct ready_parts as (_ & Hn & _).
  specialize (Hn _ Hin). unfold node_ready in Hn. cbn [fst snd] in Hn.
  repeat (apply andb_prop in Hn; destruct Hn as [Hn ?]).
  apply String.eqb_eq in Hn.
  assert (Hr : ~ In k ["0"; "1"]).
  { rewrite <- in_list_spec. now destruct (PyStr.in_list k ["0"; "1"]). }
  simpl in Hr. repeat split; auto.
Qed.

Lemma ready_edge (e : FlowEdge) :
  In e (edges g) ->
  PyStr.truthy (edge_id e) = true /\ ~ In (edge_id e) (PyDict.keys (nodes g)) /\
  PyStr.truthy (source_id e) = true /\ PyStr.truthy (target_id e) = true.
Proof.
  intros Hin. destruct ready_parts as (_ & _ & _ & He).
  specialize (He _ Hin). unfold edge_ready in He.
  repeat (apply andb_prop in He; destruct He as [He ?]).
  repeat split; auto.
  apply PyDictFacts.get_None. unfold PyDict.mem in *.
  now destruct (PyDict.get (edge_id e) (nodes g)).
Qed.

Lemma ready_value (n : FlowNode) :
  In n (PyDict.values (nodes g)) -> In (node_id n, n) (nodes g).
Proof.
  intros H. apply PyDictFacts.In_values in H. destruct H as [k H].
  destruct (ready_node _ _ H) as (-> & _). exact H.
Qed.

Lemma ready_same_node (n n' : FlowNode) :
  In n (PyDict.values (nodes g)) -> In n' (PyDict.values (nodes g)) ->
  node_id n = node_id n' -> n = n'.
Proof.
  intros H H' E. apply ready_value in H, H'. rewrite E in H.
  destruct ready_parts as (ND & _).
  apply (PyDictFacts.In_get _ _ _ ND) in H, H'. congruence.
Qed.

Lemma ready_same_edge (e e' : FlowEdge) :
  In e (edges g) -> In e' (edges g) -> edge_id e = edge_id e' -> e = e'.
Proof.
  destruct ready_parts as (_ & _ & ND & _). revert ND.
  induction (edges g) as [|a l IH]; simpl; [tauto|].
  intros ND. inversion ND as [|? ? Hn ND']; subst.
  intros [<-|H] [<-|H'] E; auto.
  - exfalso. apply Hn. rewrite E. now apply in_map.
  - exfalso. apply Hn. rewrite <- E. now apply in_map.
Qed.

End Ready.

Section GeneratedIndex.
Context {PF : PyFloat}.

Lemma find_app {A : Type} (f : A -> bool) (l1 l2 : list A) :
  find f (l1 ++ l2) =
  match find f l1 with Some x => Some x | None => find f l2 end.
Proof.
  induction l1 as [|a l1 IH]; simpl; auto. destruct (f a); auto.
Qed.

Lemma find_unique {A : Type} (f : A -> bool) (l : list A) (x : A) :
  In x l -> f x = true -> (forall y, In y l -> f y = true -> y = x) ->
  find f l = Some x.
Proof.
  induction l as [|a l IH]; simpl; [tauto|].
  intros Hin Hx Hu. destruct (f a) eqn:E.
  - f_equal. auto.
  - destruct Hin as [->|Hin]; [congruence|]. auto.
Qed.

Lemma has_id_spec (k : string) (e : Element) :
  has_id k e = true <-> ET.get e "id" = Some k.
Proof.
  unfold has_id, PyStr.opt_eqb. destruct (ET.get e "id") as [c|].
  - rewrite String.eqb_eq. split; congruence.
  - split; discriminate.
Qed.

Variable g : FlowGraph.

(** the node and edge cells of the generated document *)
Let body : list Element :=
  map node_cell (PyDict.values (nodes g)) ++ map edge_cell (edges g).

Lemma iter_generated_split :
  ET.iter (generated_model g) =
  [ generated_model g;
    Elem "root" [] (generated_cells g);
    Elem "mxCell" [ ("id", "0") ] [];
    Elem "mxCell" [ ("id", "1"); ("parent", "0") ] [] ]
  ++ flat_map ET.iter body.
Proof.
  unfold generated_model, generated_cells. simpl. now rewrite app_nil_r.
Qed.

Lemma body_id (y : Element) (k : string) :
  In y (flat_map ET.iter body) -> ET.get y "id" = Some k ->
  (exists n, In n (PyDict.values (nodes g)) /\ y = node_cell n)
  \/ (exists e, In e (edges g) /\ y = edge_cell e).
Proof.
  intros H Hk. apply in_flat_map in H. destruct H as (c & Hc & Hy).
  unfold body in Hc. apply in_app_or in Hc.
  destruct Hc as [Hc|Hc]; [left|right];
    apply in_map_iff in Hc; destruct Hc as (z & <- & Hz); exists z; split; auto.
  - destruct (iter_node_cell z) as (rest & E & Hrest). rewrite E in Hy.
    destruct Hy as [<-|Hy]; auto.
    rewrite (Hrest _ Hy) in Hk. discriminate.
  - destruct (iter_edge_cell z) as (rest & E & Hrest). rewrite E in Hy.
    destruct Hy as [<-|Hy]; auto.
    rewrite (Hrest _ Hy) in Hk. discriminate.
Qed.

Lemma body_node (n : FlowNode) :
  In n (PyDict.values (nodes g)) -> In (node_cell n) (flat_map ET.iter body).
Proof.
  intros H. apply in_flat_map. exists (node_cell n). split; [|apply iter_self].
  unfold body. apply in_or_app. left. now apply in_map.
Qed.

Lemma body_edge (e : FlowEdge) :
  In e (edges g) -> In (edge_cell e) (flat_map ET.iter body).
Proof.
  intros H. apply in_flat_map. exists (edge_cell e). split; [|apply iter_self].
  unfold body. apply in_or_app. right. now apply in_map.
Qed.

(** an id that one element of the body carries, and only one, is filed
    under that element *)
Lemma generated_get (k : string) (x : Element) :
  PyStr.truthy k = true ->
  In x (flat_map ET.iter body) -> ET.get x "id" = Some k ->
  (forall y, In y (flat_map ET.iter body) -> ET.get y "id" = Some k -> y = x) ->
  PyDict.get k (build_cell_map (generated_model g)) = Some x.
Proof.
  intros T Hin Hx Hu. unfold build_cell_map.
  rewrite get_fold_index by assumption.
  rewrite iter_generated_split, rev_app_distr, find_app.
  rewrite (@find_unique _ (has_id k) (rev (flat_map ET.iter body)) x).
  - reflexivity.
  - now apply in_rev in Hin.
  - now apply has_id_spec.
  - intros y Hy Hf. apply in_rev in Hy. apply has_id_spec in Hf. auto.
Qed.

Lemma generated_values (c : Element) :
  In c (PyDict.values (build_cell_map (generated_model g))) ->
  c = Elem "mxCell" [ ("id", "0") ] []
  \/ c = Elem "mxCell" [ ("id", "1"); ("parent", "0") ] []
  \/ (exists n, In n (PyDict.values (nodes g)) /\ c = node_cell n)
  \/ (exists e, In e (edges g) /\ c = edge_cell e).
Proof.
  intros H.
  destruct (@index_value_get _ c (index_ok_build (generated_model g)) H)
    as (k & Hk & T & Hget).
  unfold build_cell_map in Hget. rewrite get_fold_index in Hget by assumption.
  destruct (find (has_id k) (rev (ET.iter (generated_model g)))) as [c'|] eqn:F;
    [|discriminate].
  injection Hget as ->. apply find_some in F. destruct F as [Hin _].
  apply in_rev in Hin. rewrite iter_generated_split in Hin.
  apply in_app_or in Hin. destruct Hin as [Hin|Hin].
  - simpl in Hin. destruct Hin as [<-|[<-|[<-|[<-|[]]]]]; auto; discriminate.
  - destruct (body_id _ Hin Hk); auto.
Qed.

Hypothesis R : roundtrip_ready g = true.

Lemma generated_get_node (k : string) (n : FlowNode) :
  In (k, n) (nodes g) ->
  PyDict.get k (build_cell_map (generated_model g)) = Some (node_cell n).
Proof.
  intros Hin. destruct (ready_node g R _ _ Hin) as (Hid & T & _).
  assert (Hv : In n (PyDict.values (nodes g))).
  { apply PyDictFacts.In_values. eauto. }
  apply generated_get; auto.
  - now apply body_node.
  - destruct (node_cell_attrs n) as (Hi & _). rewrite Hi. congruence.
  - intros y Hy Hk. destruct (body_id _ Hy Hk) as [(n' & Hn' & ->)|(e & He & ->)].
    + f_equal. apply (ready_same_node g R); auto.
      destruct (node_cell_attrs n') as (Hi & _). rewrite Hi in Hk. congruence.
    + exfalso. destruct (ready_edge g R _ He) as (_ & Hno & _).
      destruct (edge_cell_attrs e) as (Hi & _). rewrite Hi in Hk.
      injection Hk as Hk. apply Hno. rewrite Hk.
      apply in_map_iff. exists (k, n). auto.
Qed.

Lemma generated_get_edge (e : FlowEdge) :
  In e (edges g) ->
  PyDict.get (edge_id e) (build_cell_map (generated_model g)) = Some (edge_cell e).
Proof.
  intros Hin. destruct (ready_edge g R _ Hin) as (T & Hno & _).
  destruct (edge_cell_attrs e) as (Hi & _).
  apply generated_get; auto.
  - now apply body_edge.
  - intros y Hy Hk. destruct (body_id _ Hy Hk) as [(n' & Hn' & ->)|(e' & He' & ->)].
    + exfalso. apply Hno.
      destruct (node_cell_attrs n') as (Hi' & _). rewrite Hi' in Hk.
      injection Hk as <-.
      apply ready_value in Hn'; auto.
      apply in_map_iff. exists (node_id n', n'). auto.
    + f_equal. apply (ready_same_edge g R); auto.
      destruct (edge_cell_attrs e') as (Hi' & _). congruence.
Qed.

Lemma generated_node_in_index (k : string) (n : FlowNode) :
  In (k, n) (nodes g) ->
  In (node_cell n) (PyDict.values (build_cell_map (generated_model g))).
Proof.
  intros H. apply generated_get_node in H. apply PyDictFacts.get_Some_In in H.
  apply PyDictFacts.In_values. eauto.
Qed.

Lemma generated_edge_in_index (e : FlowEdge) :
  In e (edges g) ->
  In (edge_cell e) (PyDict.values (build_cell_map (generated_model g))).
Proof.
  intros H. apply generated_get_edge in H. apply PyDictFacts.get_Some_In in H.
  apply PyDictFacts.In_values. eauto.
Qed.

End GeneratedIndex.

Section RoundTrip.
Context {PF : PyFloat}.

Lemma parse_of_loop (root model : Element) (p1 : DrawioParser) :
  find_model (namespace_of root) root = Some model ->
  for_each parse_cell (PyDict.values (build_cell_map model)) (fresh_parser root model)
  = Ok p1 ->
  parse (Ok root) = Ok (graph (_infer_node_types (_extract_edge_labels p1))).
Proof.
  intros Hm Hrun. unfold parse. simpl. rewrite Hm. simpl.
  fold (fresh_parser root model). rewrite Hrun. reflexivity.
Qed.

Lemma style_type_node_style (t : NodeType) :
  style_type (node_style t) = style_reads_as t.
Proof. destruct t; reflexivity. Qed.

Lemma node_style_no_label (t : NodeType) :
  PyStr.contains "edgelabel" (PyStr.lower (node_style t)) = false.
Proof. destruct t; reflexivity. Qed.

Lemma find_geo_node_cell (n : FlowNode) :
  find_geo "" (node_cell n) =
  Some (Elem "mxGeometry"
          [ ("x", str_of_float (x n)); ("y", str_of_float (y n));
            ("width", str_of_float (width n)); ("height", str_of_float (height n));
            ("as", "geometry") ] []).
Proof. reflexivity. Qed.

Lemma is_node_node_cell (p : DrawioParser) (n : FlowNode) :
  namespace p = "" -> node_id n <> "0" -> node_id n <> "1" ->
  _is_node p (node_cell n) = true.
Proof.
  intros Hns H0 H1. unfold _is_node. rewrite Hns, find_geo_node_cell.
  destruct (node_cell_attrs n) as (Hi & _ & Hs & He). rewrite Hi, He.
  apply String.eqb_neq in H0, H1.
  unfold PyStr.in_list at 1. simpl existsb. rewrite H0, H1. simpl orb.
  unfold ET.get_d at 1. rewrite Hs, node_style_no_label.
  reflexivity.
Qed.

Lemma is_node_reserved (p : DrawioParser) (c : Element) :
  c = Elem "mxCell" [ ("id", "0") ] []
  \/ c = Elem "mxCell" [ ("id", "1"); ("parent", "0") ] [] ->
  _is_node p c = false.
Proof. intros [-> | ->]; reflexivity. Qed.

Variable g : FlowGraph.
Hypothesis R : roundtrip_ready g = true.

(** the parser that re-extracts the generated document, before its loop *)
Let p0 : DrawioParser := fresh_parser (generate g) (generated_model g).

Lemma namespace_p0 : namespace p0 = "".
Proof. unfold p0. simpl. apply namespace_generate. Qed.

(** which cells of the generated document the loop takes for nodes *)
Lemma reparsed_node_cell (c : Element) :
  In c (PyDict.values (build_cell_map (generated_model g))) ->
  _is_edge c = false -> _is_node p0 c = true ->
  exists n, In n (PyDict.values (nodes g)) /\ c = node_cell n.
Proof.
  intros Hin He Hn.
  destruct (generated_values g c Hin) as [H|[H|[H|(e & _ & ->)]]]; auto.
  - rewrite (is_node_reserved p0 (or_introl H)) in Hn. discriminate.
  - rewrite (is_node_reserved p0 (or_intror H)) in Hn. discriminate.
  - destruct (edge_cell_attrs e) as (_ & _ & _ & He'). congruence.
Qed.

Lemma reparse_runs :
  exists p1,
    for_each parse_cell (PyDict.values (build_cell_map (generated_model g))) p0 = Ok p1.
Proof.
  apply loop_total. intros c geo k s Hin He Hn Hg Hk Hs.
  destruct (reparsed_node_cell c Hin He Hn) as (n & _ & ->).
  rewrite namespace_p0, find_geo_node_cell in Hg. injection Hg as <-.
  destruct Hk as [-> | ->]; cbv in Hs; injection Hs as <-;
    apply float_of_str_of_float.
Qed.

Lemma filter_length_pos {A : Type} (f : A -> bool) (l : list A) :
  0 < length (filter f l) <-> exists a, In a l /\ f a = true.
Proof.
  induction l as [|a l IH]; simpl.
  - split; [lia | intros (? & [] & _)].
  - destruct (f a) eqn:E; simpl.
    + split; [eauto | lia].
    + rewrite IH. split; intros (b & Hb & Hf); eauto.
      destruct Hb as [<-|Hb]; [congruence | eauto].
Qed.

Lemma in_degree_pos (h : FlowGraph) (k : string) :
  0 < in_degree h k <-> exists s, In (s, k) (map pair_of (edges h)).
Proof.
  unfold in_degree. rewrite filter_length_pos. split.
  - intros (e & He & E). apply String.eqb_eq in E. subst k.
    exists (source_id e). apply in_map_iff. exists e. auto.
  - intros (s & Hs). apply in_map_iff in Hs. destruct Hs as (e & E & He).
    exists e. split; auto. injection E as _ <-. apply String.eqb_refl.
Qed.

Lemma out_degree_pos (h : FlowGraph) (k : string) :
  0 < out_degree h k <-> exists t, In (k, t) (map pair_of (edges h)).
Proof.
  unfold out_degree. rewrite filter_length_pos. split.
  - intros (e & He & E). apply String.eqb_eq in E. subst k.
    exists (target_id e). apply in_map_iff. exists e. auto.
  - intros (t & Ht). apply in_map_iff in Ht. destruct Ht as (e & E & He).
    exists e. split; auto. injection E as <- _. apply String.eqb_refl.
Qed.

(** the refinement gives back the role of a node whose role agrees with
    its degrees, when it starts from the role that the generated style
    reads as and meets degrees that vanish together with the node's *)
Lemma refine_restores (i o i' o' : nat) (n n0 : FlowNode) (k : string) :
  (0 < i' <-> 0 < i) -> (0 < o' <-> 0 < o) ->
  (if (i =? 0)%nat && (0 <? o)%nat then NodeType_eqb (node_type n) START
   else if (o =? 0)%nat && (0 <? i)%nat then NodeType_eqb (node_type n) END
        else negb (NodeType_eqb (node_type n) END)) = true ->
  node_type n0 = style_reads_as (node_type n) ->
  node_type (refine_type i' o' n0) = node_type n.
Proof.
  intros Hi Ho Hr H0.
  destruct (refine_type_spec i' o' n0) as (Hs & He & Hz & Hp).
  destruct i as [|i], o as [|o]; simpl in Hr.
  - rewrite Hz by lia. rewrite H0. destruct (node_type n); auto; discriminate.
  - rewrite Hs by lia. apply NodeType_eqb_spec in Hr. auto.
  - rewrite He by lia. apply NodeType_eqb_spec in Hr. auto.
  - rewrite Hp by lia. rewrite H0. destruct (node_type n); auto; discriminate.
Qed.

Lemma reextraction_of_ready_graph :
  exists g',
    parse (Ok (generate g)) = Ok g' /\
    (forall k, In k (PyDict.keys (nodes g')) <-> In k (PyDict.keys (nodes g))) /\
    (forall s t, In (s, t) (map pair_of (edges g')) <-> In (s, t) (map pair_of (edges g))) /\
    (forall k n n', PyDict.get k (nodes g) = Some n -> PyDict.get k (nodes g') = Some n' ->
                    node_type n' = node_type n).
Proof.
  destruct reparse_runs as [p1 Hrun].
  assert (NI := nodes_inv_loop _ p0 eq_refl Hrun).
  assert (EI := edges_inv_loop _ p0 eq_refl Hrun).
  destruct NI as (_ & _ & _ & Hmade & Hnodes).
  destruct EI as (_ & Hfirst & Hedges).
  assert (Hkeys : forall k, In k (PyDict.keys (nodes (graph p1)))
                            <-> In k (PyDict.keys (nodes g))).
  { intros k. split.
    - intros Hk. destruct (PyDictFacts.In_keys_get _ _ Hk) as [n0 Hn0].
      destruct (Hmade k n0 Hn0) as (c & geo & Hin & Hid & He & Hn & _).
      destruct (reparsed_node_cell c Hin He Hn) as (n & Hv & ->).
      apply (ready_value g R) in Hv.
      unfold ET.get_d in Hid. destruct (node_cell_attrs n) as (Hi & _).
      rewrite Hi in Hid. subst k.
      apply in_map_iff. exists (node_id n, n). auto.
    - intros Hk. destruct (PyDictFacts.In_keys_get _ _ Hk) as [n Hn].
      apply PyDictFacts.get_Some_In in Hn.
      destruct (ready_node g R _ _ Hn) as (Hid & _ & H0 & H1 & _).
      assert (Hm := Hnodes (node_cell n) (generated_node_in_index g R _ _ Hn)).
      destruct (node_cell_attrs n) as (Hi & _ & _ & He).
      rewrite <- Hid in H0, H1.
      specialize (Hm He (is_node_node_cell p0 n namespace_p0 H0 H1)).
      unfold ET.get_d in Hm. rewrite Hi, Hid in Hm.
      unfold PyDict.mem in Hm.
      destruct (PyDict.get k (nodes (graph p1))) eqn:G; [|discriminate].
      eapply PyDictFacts.get_Some_key; eauto. }
  assert (Hpairs : forall s t, In (s, t) (map pair_of (edges (graph p1)))
                               <-> In (s, t) (map pair_of (edges g))).
  { intros s t. split.
    - intros H. apply in_map_iff in H. destruct H as (e' & E & He').
      destruct (Hfirst e' He') as (_ & _ & c & Hf & _).
      apply find_some in Hf. destruct Hf as [Hin Hp].
      apply has_pair_spec in Hp. destruct Hp as [Hs Ht].
      destruct (generated_values g c Hin) as [->|[->|[(n & _ & ->)|(e & He & ->)]]];
        try discriminate.
      destruct (edge_cell_attrs e) as (_ & Hs' & Ht' & _).
      apply in_map_iff. exists e. split; auto.
      unfold pair_of in *. congruence.
    - intros H. apply in_map_iff in H. destruct H as (e & E & He).
      injection E as <- <-.
      destruct (ready_edge g R _ He) as (_ & _ & Ts & Tt).
      destruct (edge_cell_attrs e) as (_ & Hs & Ht & _).
      apply (Hedges (edge_cell e) _ _ (generated_edge_in_index g R _ He) Hs Ht Ts Tt). }
  set (g' := graph (_infer_node_types (_extract_edge_labels p1))).
  assert (Hpairs' : forall s t, In (s, t) (map pair_of (edges g'))
                                <-> In (s, t) (map pair_of (edges g))).
  { intros s t. unfold g'. rewrite edges_infer, edges_labels, pair_of_labels. apply Hpairs. }
  exists g'. split; [|split; [|split]].
  - apply parse_of_loop with (model := generated_model g); auto.
    rewrite namespace_generate. apply find_model_generate.
  - intros k. unfold g'. rewrite keys_infer, nodes_labels. apply Hkeys.
  - exact Hpairs'.
  - intros k n n' Hn Hn'. apply get_parsed_node in Hn'. fold g' in Hn'.
    destruct Hn' as (n0 & Hn0 & ->).
    apply PyDictFacts.get_Some_In in Hn.
    destruct (ready_node g R _ _ Hn) as (Hid & _ & _ & _ & Hr).
    destruct (Hmade k n0 Hn0) as (c & geo & Hin & Hcid & He & Hnd & _ & _ & _ & Hty & _).
    destruct (reparsed_node_cell c Hin He Hnd) as (n1 & Hv1 & ->).
    assert (n1 = n).
    { apply (ready_same_node g R); auto.
      - apply PyDictFacts.In_values. eauto.
      - unfold ET.get_d in Hcid. destruct (node_cell_attrs n1) as (Hi & _).
        rewrite Hi in Hcid. congruence. }
    subst n1.
    apply refine_restores with (i := in_degree g k) (o := out_degree g k) (k := k).
    + rewrite !in_degree_pos. split; intros (s & Hs); exists s; now apply Hpairs'.
    + rewrite !out_degree_pos. split; intros (t & Ht); exists t; now apply Hpairs'.
    + exact Hr.
    + rewrite Hty. unfold ET.get_d. destruct (node_cell_attrs n) as (_ & _ & Hs & _).
      rewrite Hs. apply style_type_node_style.
Qed.

End RoundTrip.

(* ------------------------------------------------------------------ *)
(** ** Extracted graphs are ready for the round trip *)

Section ExtractedReady.
Context {PF : PyFloat}.

Lemma style_type_not_END (style : string) : style_type style <> END.
Proof.
  unfold style_type.
  destruct (PyStr.contains "rhombus" _ || PyStr.contains "diamond" _);
    [discriminate|].
  destruct (PyStr.contains "ellipse" _); discriminate.
Qed.

Lemma is_node_not_reserved (p : DrawioParser) (c : Element) (k : string) :
  _is_node p c = true -> ET.get c "id" = Some k -> PyStr.in_list k ["0"; "1"] = false.
Proof.
  unfold _is_node. intros H Hk. rewrite Hk in H.
  destruct (PyStr.in_list k ["0"; "1"]); [discriminate | reflexivity].
Qed.

Lemma role_agrees_refine (h : FlowGraph) (k : string) (n0 : FlowNode) :
  node_type n0 <> END ->
  role_agrees h k (refine_type (in_degree h k) (out_degree h k) n0) = true.
Proof.
  intros H. unfold role_agrees, refine_type.
  destruct (in_degree h k) as [|i], (out_degree h k) as [|o]; simpl; auto;
    destruct (node_type n0); auto; contradiction.
Qed.

Lemma NoDup_map_finer {A B C : Type} (f : A -> B) (h : A -> C) (l : list A) :
  (forall a b, In a l -> In b l -> h a = h b -> f a = f b) ->
  NoDup (map f l) -> NoDup (map h l).
Proof.
  induction l as [|a l IH]; simpl; intros Hf ND; constructor.
  - inversion ND as [|? ? Hn _]; subst. intros Hin.
    apply in_map_iff in Hin. destruct Hin as (b & E & Hb).
    apply Hn. apply in_map_iff. exists b. split; [|exact Hb].
    symmetry. apply Hf; auto.
  - inversion ND; subst. apply IH; auto.
Qed.

Lemma forallb_map_label (cm : PyDict.t Element) (f : FlowEdge -> bool) (es : list FlowEdge) :
  (forall e, In e es -> f (extract_edge_label cm e) = true) ->
  forallb f (map (extract_edge_label cm) es) = true.
Proof.
  intros H. apply forallb_forall. intros e' He'.
  apply in_map_iff in He'. destruct He' as (e & <- & He). auto.
Qed.

Lemma extracted_graph_ready (root : Element) (g : FlowGraph) :
  parse (Ok root) = Ok g -> roundtrip_ready g = true.
Proof.
  intros H. apply parse_Ok_inv in H. destruct H as (model & p1 & Hm & Hrun & ->).
  assert (NI := nodes_inv_loop _ (fresh_parser root model) eq_refl Hrun).
  assert (EI := edges_inv_loop _ (fresh_parser root model) eq_refl Hrun).
  destruct NI as (Hcm & _ & NDk & Hmade & _).
  destruct EI as (NDp & Hfirst & _).
  set (cm := build_cell_map model) in *.
  assert (Hok : index_ok cm) by apply index_ok_build.
  set (g := graph (_infer_node_types (_extract_edge_labels p1))).
  (* the element behind an edge *)
  assert (Hcell : forall e, In e (edges (graph p1)) ->
            exists c, PyDict.get (edge_id e) cm = Some c /\
                      PyStr.truthy (edge_id e) = true /\
                      ET.get c "source" = Some (source_id e) /\
                      ET.get c "target" = Some (target_id e)).
  { intros e He. destruct (Hfirst e He) as (_ & _ & c & Hf & Hce).
    apply find_some in Hf. destruct Hf as [Hin Hp]. apply has_pair_spec in Hp.
    destruct (@index_value_get cm c Hok Hin) as (k & Hk & T & Hget).
    assert (edge_id e = k).
    { rewrite Hce. simpl. unfold ET.get_d. now rewrite Hk. }
    subst k. exists c. tauto. }
  unfold roundtrip_ready. rewrite !andb_true_iff. repeat split.
  - apply NoDup_nodupb. unfold g. now rewrite keys_infer, nodes_labels.
  - apply forallb_forall. intros [k n] Hin.
    assert (Hget : PyDict.get k (nodes g) = Some n).
    { apply PyDictFacts.In_get; auto. unfold g. now rewrite keys_infer, nodes_labels. }
    apply get_parsed_node in Hget. fold g in Hget. destruct Hget as (n0 & Hn0 & ->).
    destruct (Hmade k n0 Hn0) as (c & geo & Hc & Hid & _ & Hnd & _ & _ & _ & Hty & Hnid).
    destruct (@index_value_get cm c Hok Hc) as (k' & Hk' & T & _).
    unfold ET.get_d in Hid. rewrite Hk' in Hid. subst k'.
    unfold node_ready. cbn [fst snd]. rewrite !andb_true_iff. repeat split.
    + destruct (refine_type_frame (in_degree g k) (out_degree g k) n0) as (-> & _).
      rewrite Hnid. apply String.eqb_refl.
    + exact T.
    + now rewrite (is_node_not_reserved _ _ Hnd Hk').
    + apply role_agrees_refine. rewrite Hty. apply style_type_not_END.
  - apply NoDup_nodupb. unfold g. rewrite edges_infer, edges_labels, map_map.
    rewrite (map_ext _ edge_id)
      by (intros e; now destruct (extract_edge_label_frame (cell_map p1) e)).
    apply NoDup_map_finer with (f := pair_of); auto.
    intros a b Ha Hb E.
    destruct (Hcell a Ha) as (ca & Ga & _ & Sa & Ta).
    destruct (Hcell b Hb) as (cb & Gb & _ & Sb & Tb).
    rewrite E in Ga. unfold pair_of. congruence.
  - unfold g. rewrite edges_infer, edges_labels.
    apply forallb_map_label. intros e He.
    destruct (extract_edge_label_frame (cell_map p1) e) as (Ei & Es & Et).
    unfold edge_ready. rewrite Ei, Es, Et.
    destruct (Hfirst e He) as (Ts & Tt & _).
    destruct (Hcell e He) as (c & Gc & Ti & Sc & Tc).
    rewrite Ts, Tt, Ti, !andb_true_r. simpl.
    unfold PyDict.mem. rewrite get_infer, nodes_labels.
    destruct (PyDict.get (edge_id e) (nodes (graph p1))) as [n0|] eqn:Gn; auto.
    exfalso.
    destruct (Hmade _ n0 Gn) as (c' & geo & Hc' & Hid & He' & _).
    destruct (@index_value_get cm c' Hok Hc') as (k' & Hk' & _ & Gc').
    unfold ET.get_d in Hid. rewrite Hk' in Hid. subst k'.
    rewrite Gc in Gc'. injection Gc' as <-.
    rewrite (is_edge_of_pair c Sc Tc Ts Tt) in He'. discriminate.
Qed.

End ExtractedReady.


(* ------------------------------------------------------------------ *)
(** ** The properties on the sample documents *)

Lemma request_edge_ports_and_priority_witness :
  In {| elk_edge_id := "e3"; sources := ["B_E"]; targets := ["D_N"]; priority := 1 |}
     (elk_edges (_build_elk_graph default_engine flowchart_graph))
  /\ exists (i : nat) (edge : FlowEdge) (src_node : FlowNode),
      nth_error (edges flowchart_graph) i = Some edge /\
      PyDict.get (source_id edge) (nodes flowchart_graph) = Some src_node /\
      ["D_N"] = [(target_id edge ++ "_N")%string] /\
      (node_type src_node = DECISION -> label edge = "no" ->
         ["B_E"] = [(source_id edge ++ "_E")%string] /\ 1%Z = 1%Z) /\
      (node_type src_node = DECISION -> label edge <> "no" ->
         ["B_E"] = [(source_id edge ++ "_S")%string] /\ 1%Z = 10%Z) /\
      (node_type src_node = START ->
         ["B_E"] = [(source_id edge ++ "_S")%string] /\ 1%Z = 10%Z) /\
      (node_type src_node <> DECISION ->
         ["B_E"] = [(source_id edge ++ "_S")%string] /\ 1%Z = 10%Z).
Proof.
  assert (H : In {| elk_edge_id := "e3"; sources := ["B_E"]; targets := ["D_N"];
                    priority := 1 |}
                 (elk_edges (_build_elk_graph default_engine flowchart_graph))).
  { vm_compute. auto. }
  split; [exact H|].
  exact (request_edge_ports_and_priority default_engine flowchart_graph _ H).
Defined.

Lemma request_keeps_dangling_targets_witness :
  PyDict.mem "Y" (nodes half_dangling_graph) = false
  /\ exists d,
      In d (elk_edges (_build_elk_graph default_engine half_dangling_graph)) /\
      elk_edge half_dangling_graph 0 (new_FlowEdge "e1" "X" "Y") = Some d /\
      targets d = [("Y" ++ "_N")%string].
Proof.
  split; [reflexivity|].
  destruct (request_keeps_dangling_targets default_engine half_dangling_graph)
    as (H & _ & _).
  apply (H 0 (new_FlowEdge "e1" "X" "Y")); reflexivity.
Defined.

Lemma extraction_keeps_edges_with_both_ends_witness :
  parse (Ok flowchart_doc) = Ok flowchart_graph
  /\ exists cm,
      index_of flowchart_doc = Some cm /\
      (forall e, In e (edges flowchart_graph) ->
         PyStr.truthy (source_id e) = true /\ PyStr.truthy (target_id e) = true /\
         exists c, In c (PyDict.values cm) /\ _is_edge c = true /\
                   ET.get c "id" = Some (edge_id e) /\
                   ET.get c "source" = Some (source_id e) /\
                   ET.get c "target" = Some (target_id e)) /\
      (forall c s t, In c (PyDict.values cm) ->
         ET.get c "source" = Some s -> ET.get c "target" = Some t ->
         PyStr.truthy s = true -> PyStr.truthy t = true ->
         exists e, In e (edges flowchart_graph) /\ source_id e = s /\ target_id e = t).
Proof.
  split; [reflexivity|].
  apply (extraction_keeps_edges_with_both_ends flowchart_doc). reflexivity.
Defined.

(** C2 as stated fails: the edge of [dangling_doc] is extracted although
    neither of its ends is a node of the graph. *)
Lemma dangling_edge_is_extracted :
  parse (Ok dangling_doc) = Ok dangling_graph /\
  In (new_FlowEdge "e1" "X" "Y") (edges dangling_graph) /\
  PyDict.mem "X" (nodes dangling_graph) = false /\
  PyDict.mem "Y" (nodes dangling_graph) = false.
Proof.
  split; [reflexivity|].
  split; [left; reflexivity|]. split; reflexivity.
Qed.

Lemma roles_refined_by_degree_witness :
  parse (Ok flowchart_doc) = Ok flowchart_graph
  /\ exists cm,
      index_of flowchart_doc = Some cm /\
      forall nid n, PyDict.get nid (nodes flowchart_graph) = Some n ->
        (in_degree flowchart_graph nid = 0 -> 0 < out_degree flowchart_graph nid ->
         node_type n = START) /\
        (out_degree flowchart_graph nid = 0 -> 0 < in_degree flowchart_graph nid ->
         node_type n = END) /\
        (in_degree flowchart_graph nid = 0 -> out_degree flowchart_graph nid = 0 ->
           exists cell, PyDict.get nid cm = Some cell /\
                        node_type n = style_type (ET.get_d cell "style" "")).
Proof.
  split; [reflexivity|].
  apply (roles_refined_by_degree flowchart_doc). reflexivity.
Defined.



(** C5 as stated fails: the edge of [maybe_doc] has the value "maybe",
    which is no affirmation, and a label decoration that says "no"; the
    wording gives the label "no", the extracted edge has the empty label. *)
Lemma own_value_stops_the_scan :
  parse (Ok maybe_doc) = Ok maybe_graph /\
  In (new_FlowEdge "e1" "A" "B") (edges maybe_graph) /\
  label (new_FlowEdge "e1" "A" "B") = "" /\
  option_map (fun cm => worded_label cm "e1") (index_of maybe_doc) = Some "no".
Proof.
  split; [reflexivity|].
  split; [left; reflexivity|]. split; [reflexivity | reflexivity].
Qed.

(** An edge element without a child is a false [Element], so its own value
    is not read: the "yes" of [childless_doc] is lost. *)
Lemma childless_edge_value_is_skipped :
  parse (Ok childless_doc)
  = Ok {| nodes := []; edges := [ new_FlowEdge "e1" "A" "B" ] |}
  /\ label (new_FlowEdge "e1" "A" "B") = "".
Proof. split; reflexivity. Qed.

(** C6 as stated fails: a width that is not a number makes extraction
    raise, it is not replaced by 120. *)
Lemma text_width_raises :
  parse (Ok wide_doc) = Raise (ValueError "wide").
Proof. reflexivity. Qed.

(** C9: with Node.js installed, the command ends with exit status 0 when
    the input cannot be read, when it has no graph model, when the solver
    fails, and when the output cannot be written, although the pipeline
    raised in each of these runs. *)
Theorem main_exits_zero_on_failure :
  (pipeline unreadable_world = Raise ParseError /\ main unreadable_world = 0%Z) /\
  (pipeline no_model_world = Raise (ValueError "Invalid draw.io file")
   /\ main no_model_world = 0%Z) /\
  (pipeline solver_failure_world = Raise (RuntimeError "elk")
   /\ main solver_failure_world = 0%Z) /\
  (pipeline write_failure_world = Raise OSError /\ main write_failure_world = 0%Z).
Proof. repeat split; reflexivity. Qed.

(* ================================================================== *)
(** * Further properties of the tool *)

(* ------------------------------------------------------------------ *)
(** ** What extraction gives *)

(** X1.  Every graph whose generated document carries only printable ASCII
    text in its attributes, whatever its ids and roles otherwise (empty,
    repeated or reserved ids included), gives a document that extraction
    accepts once it is written and read back: the document has a graph
    model, and every size it carries is the text of a float. *)
Theorem generated_document_extracts `{PF : PyFloat} `{XF : XmlFile} (g : FlowGraph) :
  writable (generate g) = true ->
  exists g', parse (written_and_read (generate g)) = Ok g'.
Proof.
  intros W. rewrite (written_and_read_writable _ W).
  destruct (reparse_runs g) as [p1 Hrun].
  exists (graph (_infer_node_types (_extract_edge_labels p1))).
  apply parse_of_loop with (model := generated_model g); auto.
  rewrite namespace_generate. apply find_model_generate.
Qed.

Lemma generated_document_extracts_witness :
  writable (generate dangling_graph) = true
  /\ exists g', parse (written_and_read (generate dangling_graph)) = Ok g'.
Proof.
  split; [reflexivity|].
  apply (generated_document_extracts dangling_graph). reflexivity.
Defined.

(** X2.  Extraction, generation and extraction again: when the document
    generated from an extracted graph carries only printable ASCII text in
    its attributes, that document, written and read back, extracts to a
    graph with the same node ids, the same (source, target) pairs and the
    same roles. *)
Theorem extraction_roundtrip `{PF : PyFloat} `{XF : XmlFile}
  (root : Element) (g : FlowGraph) :
  parse (Ok root) = Ok g ->
  writable (generate g) = true ->
  exists g',
    parse (written_and_read (generate g)) = Ok g' /\
    (forall k, In k (PyDict.keys (nodes g')) <-> In k (PyDict.keys (nodes g))) /\
    (forall s t, In (s, t) (map pair_of (edges g')) <-> In (s, t) (map pair_of (edges g))) /\
    (forall k n n', PyDict.get k (nodes g) = Some n -> PyDict.get k (nodes g') = Some n' ->
                    node_type n' = node_type n).
Proof.
  intros H W. rewrite (written_and_read_writable _ W).
  apply reextraction_of_ready_graph. apply (extracted_graph_ready root H).
Qed.

Lemma extraction_roundtrip_witness :
  parse (Ok flowchart_doc) = Ok flowchart_graph
  /\ writable (generate flowchart_graph) = true
  /\ exists g',
      parse (written_and_read (generate flowchart_graph)) = Ok g' /\
      (forall k, In k (PyDict.keys (nodes g')) <-> In k (PyDict.keys (nodes flowchart_graph))) /\
      (forall s t, In (s, t) (map pair_of (edges g'))
                   <-> In (s, t) (map pair_of (edges flowchart_graph))) /\
      (forall k n n', PyDict.get k (nodes flowchart_graph) = Some n ->
                      PyDict.get k (nodes g') = Some n' ->
                      node_type n' = node_type n).
Proof.
  split; [reflexivity|]. split; [reflexivity|].
  apply (extraction_roundtrip flowchart_doc); reflexivity.
Defined.

Section ExtractedShape.
Context {PF : PyFloat}.

Lemma yes_no_values (val : string) :
  yes_no val "" = "" \/ yes_no val "" = "yes" \/ yes_no val "" = "no".
Proof.
  unfold yes_no.
  destruct (PyStr.in_list val ["y"; "yes"]); auto.
  destruct (PyStr.in_list val ["n"; "no"]); auto.
Qed.

(** what label extraction makes of a fresh edge *)
Lemma extract_fresh_edge (cm : PyDict.t Element) (i s t : string) :
  exists l,
    extract_edge_label cm (new_FlowEdge i s t) = set_label l (new_FlowEdge i s t)
    /\ (l = "" \/ l = "yes" \/ l = "no").
Proof.
  unfold extract_edge_label.
  destruct (ET.truthy_opt (PyDict.get (edge_id (new_FlowEdge i s t)) cm) && _).
  - destruct (PyDict.get (edge_id (new_FlowEdge i s t)) cm) as [c|].
    + eexists. split; [reflexivity | apply yes_no_values].
    + exists "". auto.
  - destruct (find _ (PyDict.values cm)) as [child|].
    + eexists. split; [reflexivity | apply yes_no_values].
    + exists "". auto.
Qed.

End ExtractedShape.

(** X3.  Every edge of an extracted graph has the label "", "yes" or "no", the
    sides SOUTH and NORTH, and no routing point. *)
Theorem extracted_edges_are_unrouted `{PF : PyFloat} (root : Element) (g : FlowGraph) :
  parse (Ok root) = Ok g ->
  forall e, In e (edges g) ->
    (label e = "" \/ label e = "yes" \/ label e = "no") /\
    source_side e = "SOUTH" /\ target_side e = "NORTH" /\ routing_points e = [].
Proof.
  intros H e' He'.
  destruct (parse_edges _ H) as (cm & es & _ & (_ & Hfirst & _) & E).
  rewrite E in He'. apply in_map_iff in He'. destruct He' as (e & <- & He).
  destruct (Hfirst e He) as (_ & _ & c & _ & ->).
  destruct (extract_fresh_edge cm (ET.get_d c "id" "") (source_id e) (target_id e))
    as (l & -> & Hl).
  simpl. auto.
Qed.

Lemma extracted_edges_are_unrouted_witness :
  parse (Ok flowchart_doc) = Ok flowchart_graph
  /\ forall e, In e (edges flowchart_graph) ->
       (label e = "" \/ label e = "yes" \/ label e = "no") /\
       source_side e = "SOUTH" /\ target_side e = "NORTH" /\ routing_points e = [].
Proof.
  split; [reflexivity|].
  apply (extracted_edges_are_unrouted flowchart_doc). reflexivity.
Defined.

(** X4.  In an extracted graph a node has role END exactly when no edge leaves
    it and some edge enters it: the style of an element never makes an END
    node. *)
Theorem extracted_END_iff `{PF : PyFloat} (root : Element) (g : FlowGraph) :
  parse (Ok root) = Ok g ->
  forall k n, PyDict.get k (nodes g) = Some n ->
    (node_type n = END <-> out_degree g k = 0 /\ 0 < in_degree g k).
Proof.
  intros H k n Hn.
  destruct (parse_nodes _ H) as (model & p1 & _ & Inv & ->).
  apply get_parsed_node in Hn. destruct Hn as (n0 & Hn0 & ->).
  destruct Inv as (_ & _ & _ & Hmade & _).
  destruct (Hmade k n0 Hn0) as (c & geo & _ & _ & _ & _ & _ & _ & _ & Hty & _).
  assert (Hne : node_type n0 <> END) by (rewrite Hty; apply style_type_not_END).
  set (g := graph (_infer_node_types (_extract_edge_labels p1))).
  destruct (refine_type_spec (in_degree g k) (out_degree g k) n0) as (Hs & He & Hz & Hp).
  split.
  - intros HE.
    destruct (in_degree g k) as [|i] eqn:Ei, (out_degree g k) as [|o] eqn:Eo.
    + rewrite Hz in HE by reflexivity. contradiction.
    + rewrite Hs in HE by (auto; lia). discriminate.
    + split; [reflexivity | lia].
    + rewrite Hp in HE by lia. contradiction.
  - intros [Ho Hi]. auto.
Qed.

Lemma extracted_END_iff_witness :
  parse (Ok flowchart_doc) = Ok flowchart_graph
  /\ forall k n, PyDict.get k (nodes flowchart_graph) = Some n ->
       (node_type n = END
        <-> out_degree flowchart_graph k = 0 /\ 0 < in_degree flowchart_graph k).
Proof.
  split; [reflexivity|].
  apply (extracted_END_iff flowchart_doc). reflexivity.
Defined.

Section FreshNodes.
Context {PF : PyFloat}.

(** every node that the loop files is a fresh node made from a visited
    element, under the id of that element *)
Lemma nodes_fresh_loop (l : list Element) (p0 p1 : DrawioParser) :
  nodes (graph p0) = [] ->
  for_each parse_cell l p0 = Ok p1 ->
  forall k n, PyDict.get k (nodes (graph p1)) = Some n ->
    exists c w h,
      In c l /\ ET.get_d c "id" "" = k /\
      n = new_FlowNode k (style_type (ET.get_d c "style" "")) (ET.get_d c "value" "") w h.
Proof.
  intros H0 Hrun.
  apply (for_each_inv_nil parse_cell
           (fun pre p => forall k n, PyDict.get k (nodes (graph p)) = Some n ->
              exists c w h,
                In c pre /\ ET.get_d c "id" "" = k /\
                n = new_FlowNode k (style_type (ET.get_d c "style" ""))
                      (ET.get_d c "value" "") w h) l p0); auto.
  - rewrite H0. discriminate.
  - intros pre a s s' Inv _ Hb k n Hk.
    assert (Hold : forall k n, PyDict.get k (nodes (graph s)) = Some n ->
              exists c w h,
                In c (pre ++ [a]) /\ ET.get_d c "id" "" = k /\
                n = new_FlowNode k (style_type (ET.get_d c "style" ""))
                      (ET.get_d c "value" "") w h).
    { intros k0 n0 H. destruct (Inv k0 n0 H) as (c & w & h & Hin & Hrest).
      exists c, w, h. split; auto. apply in_or_app. auto. }
    apply parse_cell_cases in Hb.
    destruct Hb as [[_ ->]|[(_ & _ & Hb)|(_ & _ & ->)]]; auto.
    + rewrite nodes_parse_edge in Hk. auto.
    + apply parse_node_cases in Hb. destruct Hb as (geo & w & h & _ & _ & _ & ->).
      simpl in Hk. rewrite PyDictFacts.get_set in Hk.
      destruct (String.eqb (ET.get_d a "id" "") k) eqn:E; auto.
      apply String.eqb_eq in E. injection Hk as <-.
      exists a, w, h. rewrite E. repeat split; auto.
      apply in_or_app. simpl. auto.
Qed.

Lemma refine_type_keeps (i o : nat) (n : FlowNode) :
  node_label (refine_type i o n) = node_label n /\
  x (refine_type i o n) = x n /\ y (refine_type i o n) = y n.
Proof.
  unfold refine_type.
  destruct ((i =? 0)%nat && (0 <? o)%nat), ((o =? 0)%nat && (0 <? i)%nat); auto.
Qed.

End FreshNodes.

(** X5.  The nodes of an extracted graph: no key twice; every node carries its
    key as id; the id is not empty and is not one of the reserved ids "0"
    and "1"; the node is not placed (x and y are 0); its label is the value
    of the element that the index holds for its id (empty when the element
    has no value). *)
Theorem extracted_nodes_are_well_keyed `{PF : PyFloat} (root : Element) (g : FlowGraph) :
  parse (Ok root) = Ok g ->
  exists cm,
    index_of root = Some cm /\
    NoDup (PyDict.keys (nodes g)) /\
    forall k n, PyDict.get k (nodes g) = Some n ->
      node_id n = k /\ k <> "" /\ k <> "0" /\ k <> "1" /\
      x n = float_of_int 0 /\ y n = float_of_int 0 /\
      exists cell, PyDict.get k cm = Some cell /\
                   node_label n = ET.get_d cell "value" "".
Proof.
  intros H. assert (R := extracted_graph_ready root H).
  destruct (ready_parts g R) as (ND & _).
  destruct (parse_Ok_inv _ H) as (model & p1 & Hm & Hrun & E).
  exists (build_cell_map model).
  split; [unfold index_of; now rewrite Hm|]. split; [exact ND|].
  intros k n Hn.
  destruct (ready_node g R k n (PyDictFacts.get_Some_In _ _ Hn)) as (Hid & T & H0 & H1 & _).
  split; [exact Hid|]. split; [intros ->; discriminate|]. split; [exact H0|].
  split; [exact H1|].
  subst g. apply get_parsed_node in Hn. destruct Hn as (n0 & Hn0 & ->).
  destruct (nodes_fresh_loop _ (fresh_parser root model) eq_refl Hrun k Hn0)
    as (c & w & h & Hin & Hc & ->).
  destruct (refine_type_keeps
              (in_degree (graph (_infer_node_types (_extract_edge_labels p1))) k)
              (out_degree (graph (_infer_node_types (_extract_edge_labels p1))) k)
              (new_FlowNode k (style_type (ET.get_d c "style" ""))
                 (ET.get_d c "value" "") w h)) as (-> & -> & ->).
  simpl. split; [reflexivity|]. split; [reflexivity|].
  exists c. split; [|reflexivity].
  destruct (@index_value_get (build_cell_map model) c (index_ok_build model) Hin)
    as (k' & Hk' & _ & Hget).
  unfold ET.get_d in Hc. rewrite Hk' in Hc. now subst k'.
Qed.

Lemma extracted_nodes_are_well_keyed_witness :
  parse (Ok flowchart_doc) = Ok flowchart_graph
  /\ exists cm,
      index_of flowchart_doc = Some cm /\
      NoDup (PyDict.keys (nodes flowchart_graph)) /\
      forall k n, PyDict.get k (nodes flowchart_graph) = Some n ->
        node_id n = k /\ k <> "" /\ k <> "0" /\ k <> "1" /\
        x n = float_of_int 0 /\ y n = float_of_int 0 /\
        exists cell, PyDict.get k cm = Some cell /\
                     node_label n = ET.get_d cell "value" "".
Proof.
  split; [reflexivity|].
  apply (extracted_nodes_are_well_keyed flowchart_doc). reflexivity.
Defined.

(** X6.  The edges of an extracted graph: no id is empty, no id occurs twice,
    and no edge id is a node key: an element of the index becomes an edge or
    a node, never both. *)
Theorem extracted_edges_are_well_named `{PF : PyFloat} (root : Element) (g : FlowGraph) :
  parse (Ok root) = Ok g ->
  NoDup (map edge_id (edges g)) /\
  forall e, In e (edges g) ->
    edge_id e <> "" /\ PyDict.get (edge_id e) (nodes g) = None.
Proof.
  intros H. assert (R := extracted_graph_ready root H).
  destruct (ready_parts g R) as (_ & _ & ND & _). split; [exact ND|].
  intros e He. destruct (ready_edge g R e He) as (T & Hno & _).
  split.
  - intros E. rewrite E in T. discriminate.
  - now apply PyDictFacts.get_None.
Qed.

Lemma extracted_edges_are_well_named_witness :
  parse (Ok flowchart_doc) = Ok flowchart_graph
  /\ NoDup (map edge_id (edges flowchart_graph))
  /\ forall e, In e (edges flowchart_graph) ->
       edge_id e <> "" /\ PyDict.get (edge_id e) (nodes flowchart_graph) = None.
Proof.
  split; [reflexivity|].
  apply (extracted_edges_are_well_named flowchart_doc). reflexivity.
Defined.

(* ------------------------------------------------------------------ *)
(** ** How extraction fails *)

Section Failures.
Context {PF : PyFloat}.

(** a loop raises at the first element whose body raises *)
Lemma for_each_raise {S A : Type} (body : S -> A -> result S) (l : list A) (s : S)
  (e : exn) :
  for_each body l s = Raise e ->
  exists pre a s',
    (exists post, l = pre ++ a :: post) /\
    for_each body pre s = Ok s' /\ body s' a = Raise e.
Proof.
  revert s. induction l as [|a l IH]; intros s H; simpl in H; [discriminate|].
  destruct (body s a) as [s1|e1] eqn:Hb; simpl in H.
  - destruct (IH s1 H) as (pre & b & s' & (post & ->) & Hpre & Hraise).
    exists (a :: pre), b, s'. split; [exists post; reflexivity|].
    simpl. rewrite Hb. simpl. auto.
  - injection H as <-. exists [], a, s. split; [exists l; reflexivity|]. auto.
Qed.

Lemma float_attr_raise (geo : Element) (k : string) (d : Z) (e : exn) :
  float_attr geo k d = Raise e ->
  exists s, ET.get geo k = Some s /\ float_of_str s = None /\ e = ValueError s.
Proof.
  unfold float_attr. destruct (ET.get geo k) as [s|]; [|discriminate].
  destruct (float_of_str s) eqn:E; [discriminate|].
  intros [= <-]. eauto.
Qed.

Lemma iter_tag_nil (root : Element) (t : string) :
  ET.iter_tag root t = [] <-> forall x, In x (ET.iter root) -> ET.tag x <> t.
Proof.
  unfold ET.iter_tag. generalize (ET.iter root). intros l.
  induction l as [|a l IH]; simpl.
  - split; [intros _ x [] | reflexivity].
  - destruct (String.eqb (ET.tag a) t) eqn:E.
    + split; [discriminate|]. intros H. apply String.eqb_eq in E.
      exfalso. apply (H a); auto.
    + rewrite IH. apply String.eqb_neq in E. split.
      * intros H x [<-|Hx]; auto.
      * intros H x Hx. apply H. auto.
Qed.

Lemma find_model_None (ns : string) (root : Element) :
  find_model ns root = None <->
  forall x, In x (ET.iter root) ->
            ET.tag x <> (ns ++ "mxGraphModel")%string /\ ET.tag x <> "mxGraphModel".
Proof.
  unfold find_model. split.
  - destruct (ET.iter_tag root (ns ++ "mxGraphModel")) eqn:E1; [|discriminate].
    destruct (ET.iter_tag root "mxGraphModel") eqn:E2; [|discriminate].
    intros _ x Hx. split.
    + now apply (proj1 (iter_tag_nil root _) E1).
    + now apply (proj1 (iter_tag_nil root _) E2).
  - intros H.
    assert (E1 : ET.iter_tag root (ns ++ "mxGraphModel") = []).
    { apply iter_tag_nil. intros x Hx. apply (H x Hx). }
    assert (E2 : ET.iter_tag root "mxGraphModel" = []).
    { apply iter_tag_nil. intros x Hx. apply (H x Hx). }
    now rewrite E1, E2.
Qed.

Lemma in_middle {A : Type} (l pre post : list A) (a : A) :
  l = pre ++ a :: post -> In a l.
Proof. intros ->. apply in_or_app. simpl. auto. Qed.

(** the two ways in which extraction of a tree raises *)
Lemma parse_raise_cases (root : Element) :
  forall e, parse (Ok root) = Raise e ->
    (find_model (namespace_of root) root = None /\ e = ValueError "Invalid draw.io file")
    \/ exists model c geo k s,
         find_model (namespace_of root) root = Some model /\
         In c (PyDict.values (build_cell_map model)) /\
         _is_edge c = false /\ _is_node (fresh_parser root model) c = true /\
         find_geo (namespace_of root) c = Some geo /\
         (k = "width" \/ k = "height") /\
         ET.get geo k = Some s /\ float_of_str s = None /\ e = ValueError s.
Proof.
  intros e. unfold parse. simpl.
  destruct (find_model (namespace_of root) root) as [model|] eqn:Hm.
  2:{ intros [= <-]. auto. }
  simpl. fold (fresh_parser root model).
  destruct (for_each parse_cell _ (fresh_parser root model)) as [p1|e1] eqn:Hrun;
    simpl; [discriminate|].
  intros [= <-]. right.
  apply for_each_raise in Hrun.
  destruct Hrun as (pre & c & p & (post & Hl) & Hpre & Hraise).
  destruct (loop_frame _ _ Hpre) as [Hc Hn]. simpl in Hn.
  unfold parse_cell in Hraise.
  destruct (_is_edge c) eqn:He; [discriminate|].
  destruct (_is_node p c) eqn:Hnd; [|discriminate].
  destruct (is_node_has_geo _ _ Hnd) as [geo Hg].
  rewrite (is_node_frame (fresh_parser root model) p c Hc Hn) in Hnd.
  unfold _parse_node in Hraise. rewrite Hg in Hraise. rewrite Hn in Hg.
  exists model, c, geo.
  destruct (float_attr geo "width" 120) as [w|ew] eqn:Hw; simpl in Hraise.
  - destruct (float_attr geo "height" 60) as [h|eh] eqn:Hh; simpl in Hraise;
      [discriminate|].
    injection Hraise as <-.
    destruct (float_attr_raise _ _ _ Hh) as (s & Hs & Hf & ->).
    exists "height", s. repeat split; eauto using in_middle.
  - injection Hraise as <-.
    destruct (float_attr_raise _ _ _ Hw) as (s & Hs & Hf & ->).
    exists "width", s. repeat split; eauto using in_middle.
Qed.

End Failures.

(** X7.  Extraction of a tree fails in two ways only.  It raises "Invalid
    draw.io file" when no element of the tree is tagged mxGraphModel, with
    the namespace of the root or without.  Otherwise it raises only for a
    node element of the index whose geometry carries a width or a height
    that is not the text of a float, with that text in the error.  *)
Theorem extraction_failures `{PF : PyFloat} (root : Element) :
  ((forall x, In x (ET.iter root) ->
      ET.tag x <> (namespace_of root ++ "mxGraphModel")%string
      /\ ET.tag x <> "mxGraphModel") ->
   parse (Ok root) = Raise (ValueError "Invalid draw.io file"))
  /\
  (forall e, parse (Ok root) = Raise e ->
     (find_model (namespace_of root) root = None /\ e = ValueError "Invalid draw.io file")
     \/ exists model c geo k s,
          find_model (namespace_of root) root = Some model /\
          In c (PyDict.values (build_cell_map model)) /\
          _is_edge c = false /\ _is_node (fresh_parser root model) c = true /\
          find_geo (namespace_of root) c = Some geo /\
          (k = "width" \/ k = "height") /\
          ET.get geo k = Some s /\ float_of_str s = None /\ e = ValueError s).
Proof.
  split.
  - intros H. apply find_model_None in H. unfold parse. simpl. now rewrite H.
  - apply parse_raise_cases.
Qed.

Lemma extraction_failures_witness :
  parse (Ok wide_doc) = Raise (ValueError "wide")
  /\ ((find_model (namespace_of wide_doc) wide_doc = None
       /\ ValueError "wide" = ValueError "Invalid draw.io file")
      \/ exists model c geo k s,
           find_model (namespace_of wide_doc) wide_doc = Some model /\
           In c (PyDict.values (build_cell_map model)) /\
           _is_edge c = false /\ _is_node (fresh_parser wide_doc model) c = true /\
           find_geo (namespace_of wide_doc) c = Some geo /\
           (k = "width" \/ k = "height") /\
           ET.get geo k = Some s /\ float_of_str s = None /\
           ValueError "wide" = ValueError s).
Proof.
  split; [reflexivity|].
  destruct (@extraction_failures whole_float wide_doc) as [_ H].
  apply H. reflexivity.
Defined.

(* ------------------------------------------------------------------ *)
(** ** What the application of a layout changes *)

Section ApplyLayout.
Context {PF : PyFloat}.

Lemma get_apply_child (ns : PyDict.t FlowNode) (child : ElkChildResult) (k : string) :
  PyDict.get k (apply_child ns child)
  = if String.eqb (res_id child) k
    then option_map (set_xy (res_x child) (res_y child)) (PyDict.get k ns)
    else PyDict.get k ns.
Proof.
  unfold apply_child.
  destruct (String.eqb (res_id child) k) eqn:E.
  - apply String.eqb_eq in E. subst k.
    destruct (PyDict.get (res_id child) ns) as [n|] eqn:G; simpl.
    + apply PyDictFacts.get_set_eq.
    + exact G.
  - destruct (PyDict.get (res_id child) ns) as [n|] eqn:G; auto.
    rewrite PyDictFacts.get_set, E. reflexivity.
Qed.

Lemma keys_apply_child (ns : PyDict.t FlowNode) (child : ElkChildResult) :
  PyDict.keys (apply_child ns child) = PyDict.keys ns.
Proof.
  unfold apply_child.
  destruct (PyDict.get (res_id child) ns) as [n|] eqn:G; auto.
  rewrite PyDictFacts.keys_set. unfold PyDict.mem. now rewrite G.
Qed.

Lemma keys_fold_apply_child (cs : list ElkChildResult) (ns : PyDict.t FlowNode) :
  PyDict.keys (fold_left apply_child cs ns) = PyDict.keys ns.
Proof.
  revert ns. induction cs as [|c cs IH]; intros ns; simpl; auto.
  now rewrite IH, keys_apply_child.
Qed.

Lemma get_fold_apply_child (cs : list ElkChildResult) (ns : PyDict.t FlowNode)
  (k : string) :
  PyDict.get k (fold_left apply_child cs ns)
  = option_map (placed cs k) (PyDict.get k ns).
Proof.
  revert ns. induction cs as [|c cs IH]; intros ns; simpl.
  - destruct (PyDict.get k ns); reflexivity.
  - rewrite IH, get_apply_child. unfold placed. simpl rev. rewrite find_app_last.
    destruct (find (fun c0 => String.eqb (res_id c0) k) (rev cs)) as [c'|];
      destruct (String.eqb (res_id c) k); destruct (PyDict.get k ns); reflexivity.
Qed.

(** the ids, roles, labels and sizes of the nodes, key by key *)
Lemma placed_core (cs : list ElkChildResult) (k : string) (n : FlowNode) :
  node_core (placed cs k n) = node_core n.
Proof.
  unfold placed. destruct (find _ (rev cs)); reflexivity.
Qed.

Lemma edge_core_update_first (f : FlowEdge -> bool) (upd : FlowEdge -> FlowEdge)
  (es : list FlowEdge) :
  (forall e, edge_core (upd e) = edge_core e) ->
  map edge_core (update_first f upd es) = map edge_core es.
Proof.
  intros H. induction es as [|e es IH]; simpl; auto.
  destruct (f e); simpl; [now rewrite H | now rewrite IH].
Qed.

Lemma apply_edge_cases (es : list FlowEdge) (r : ElkEdgeResult) :
  (portless es r = true /\ apply_edge es r = Raise IndexError)
  \/ (portless es r = false /\
      apply_edge es r =
      Ok (if existsb (fun e => String.eqb (edge_id e) (res_edge_id r)) es
          then update_first (fun e => String.eqb (edge_id e) (res_edge_id r))
                 (routed_by r) es
          else es)).
Proof.
  unfold apply_edge, portless, routed_by.
  destruct (existsb (fun e => String.eqb (edge_id e) (res_edge_id r)) es); simpl; auto.
  destruct (get_list (res_sources r) ["_S"]) as [|src_p ?]; simpl; auto.
  destruct (get_list (res_targets r) ["_N"]) as [|tgt_p ?]; simpl; auto.
Qed.

Lemma apply_edge_core (es es' : list FlowEdge) (r : ElkEdgeResult) :
  apply_edge es r = Ok es' -> map edge_core es' = map edge_core es.
Proof.
  destruct (apply_edge_cases es r) as [[_ ->]|[_ ->]]; [discriminate|].
  intros [= <-].
  destruct (existsb _ es); auto. now apply edge_core_update_first.
Qed.

Lemma edge_ids_of_core (es es' : list FlowEdge) :
  map edge_core es' = map edge_core es -> map edge_id es' = map edge_id es.
Proof.
  intros H. apply (f_equal (map (fun c : string * string * string * string =>
                                   fst (fst (fst c))))) in H.
  now rewrite !map_map in H.
Qed.

Lemma portless_ids (es es' : list FlowEdge) (r : ElkEdgeResult) :
  map edge_id es' = map edge_id es -> portless es' r = portless es r.
Proof.
  intros H. unfold portless. f_equal.
  assert (E : forall l, existsb (fun e => String.eqb (edge_id e) (res_edge_id r)) l
                        = existsb (fun i => String.eqb i (res_edge_id r)) (map edge_id l)).
  { induction l; simpl; congruence. }
  now rewrite !E, H.
Qed.

Lemma for_each_apply_edge_core (rs : list ElkEdgeResult) (es es' : list FlowEdge) :
  for_each apply_edge rs es = Ok es' -> map edge_core es' = map edge_core es.
Proof.
  revert es. induction rs as [|r rs IH]; intros es H; simpl in H.
  - now injection H as <-.
  - destruct (apply_edge es r) as [es1|] eqn:E; simpl in H; [|discriminate].
    rewrite (IH _ H). now apply apply_edge_core with (r := r).
Qed.

(** the loop over the edge entries ends well exactly when none is portless *)
Lemma for_each_apply_edge_runs (rs : list ElkEdgeResult) (es : list FlowEdge) :
  (forall r, In r rs -> portless es r = false) ->
  exists es', for_each apply_edge rs es = Ok es'.
Proof.
  revert es. induction rs as [|r rs IH]; intros es H; simpl; [eauto|].
  destruct (apply_edge_cases es r) as [[Hp _]|[_ E]].
  - rewrite H in Hp by (simpl; auto). discriminate.
  - rewrite E. simpl. apply IH. intros r' Hr'.
    rewrite <- (H r') by (simpl; auto).
    apply portless_ids. apply edge_ids_of_core.
    destruct (existsb _ es); auto. now apply edge_core_update_first.
Qed.

Lemma for_each_apply_edge_raises (rs : list ElkEdgeResult) (es : list FlowEdge)
  (e : exn) :
  for_each apply_edge rs es = Raise e ->
  e = IndexError /\ exists r, In r rs /\ portless es r = true.
Proof.
  revert es. induction rs as [|r rs IH]; intros es H; simpl in H; [discriminate|].
  destruct (apply_edge_cases es r) as [[Hp E]|[_ E]]; rewrite E in H; simpl in H.
  - injection H as <-. split; auto. exists r. simpl. auto.
  - destruct (IH _ H) as (-> & r' & Hr' & Hp). split; auto.
    exists r'. split; [simpl; auto|].
    rewrite <- Hp. symmetry. apply portless_ids. apply edge_ids_of_core.
    destruct (existsb _ es); auto. now apply edge_core_update_first.
Qed.

(** with all ids different, writing to the first edge of an id is writing
    to the edge of that id *)
Lemma update_first_unique (k : string) (upd : FlowEdge -> FlowEdge)
  (es : list FlowEdge) :
  NoDup (map edge_id es) ->
  update_first (fun e => String.eqb (edge_id e) k) upd es
  = map (fun e => if String.eqb (edge_id e) k then upd e else e) es.
Proof.
  induction es as [|e es IH]; simpl; auto.
  intros ND. inversion ND as [|? ? Hn ND']; subst.
  destruct (String.eqb (edge_id e) k) eqn:E.
  - f_equal. apply String.eqb_eq in E. subst k.
    rewrite <- (map_id es) at 1. apply map_ext_in. intros a Ha.
    destruct (String.eqb (edge_id a) (edge_id e)) eqn:E'; auto.
    apply String.eqb_eq in E'. exfalso. apply Hn. rewrite <- E'. now apply in_map.
  - f_equal. auto.
Qed.

Lemma map_unmatched (k : string) (upd : FlowEdge -> FlowEdge) (es : list FlowEdge) :
  existsb (fun e => String.eqb (edge_id e) k) es = false ->
  map (fun e => if String.eqb (edge_id e) k then upd e else e) es = es.
Proof.
  induction es as [|e es IH]; simpl; auto.
  intros H. apply orb_false_elim in H. destruct H as [-> H]. now rewrite IH.
Qed.

Lemma routed_cons (r : ElkEdgeResult) (rs : list ElkEdgeResult) (e : FlowEdge) :
  routed (r :: rs) e
  = routed rs (if String.eqb (edge_id e) (res_edge_id r) then routed_by r e else e).
Proof.
  unfold routed. simpl rev. rewrite find_app_last.
  rewrite (String.eqb_sym (edge_id e) (res_edge_id r)).
  destruct (String.eqb (res_edge_id r) (edge_id e)) eqn:E; simpl; rewrite ?E;
    destruct (find _ (rev rs)); reflexivity.
Qed.

Lemma for_each_apply_edge_routed (rs : list ElkEdgeResult) (es es' : list FlowEdge) :
  NoDup (map edge_id es) ->
  for_each apply_edge rs es = Ok es' -> es' = map (routed rs) es.
Proof.
  revert es. induction rs as [|r rs IH]; intros es ND H; simpl in H.
  - injection H as <-. unfold routed. simpl. now rewrite map_id.
  - destruct (apply_edge es r) as [es1|] eqn:E; simpl in H; [|discriminate].
    assert (E1 : es1 = map (fun e => if String.eqb (edge_id e) (res_edge_id r)
                                     then routed_by r e else e) es).
    { destruct (apply_edge_cases es r) as [[_ E']|[_ E']]; rewrite E' in E;
        [discriminate|]. injection E as <-.
      destruct (existsb _ es) eqn:Ex.
      - now apply update_first_unique.
      - symmetry. now apply map_unmatched. }
    rewrite (IH es1); auto.
    + rewrite E1, map_map. apply map_ext. intros e. symmetry. apply routed_cons.
    + rewrite (@edge_ids_of_core es es1); auto.
      now apply apply_edge_core with (r := r).
Qed.

Lemma apply_layout_inv (g g' : FlowGraph) (res : ElkResult) :
  _apply_layout g res = Ok g' ->
  nodes g' = fold_left apply_child (get_list (res_children res) []) (nodes g) /\
  for_each apply_edge (get_list (res_edges res) []) (edges g) = Ok (edges g').
Proof.
  unfold _apply_layout.
  destruct (for_each apply_edge _ (edges g)) as [es|]; simpl; [|discriminate].
  intros [= <-]. auto.
Qed.

(** when the loop over the edge entries ends well, no entry is portless *)
Lemma for_each_apply_edge_ok (rs : list ElkEdgeResult) (es es' : list FlowEdge) :
  for_each apply_edge rs es = Ok es' ->
  forall r, In r rs -> portless es r = false.
Proof.
  revert es. induction rs as [|r rs IH]; intros es H r' Hr'; simpl in H; [destruct Hr'|].
  destruct (apply_edge_cases es r) as [[_ E]|[Hp E]]; rewrite E in H; simpl in H;
    [discriminate|].
  destruct Hr' as [<-|Hr']; [exact Hp|].
  rewrite <- (IH _ H r' Hr'). symmetry. apply portless_ids. apply edge_ids_of_core.
  destruct (existsb _ es); auto. now apply edge_core_update_first.
Qed.

Lemma routed_core (rs : list ElkEdgeResult) (e : FlowEdge) :
  edge_core (routed rs e) = edge_core e.
Proof.
  unfold routed. destruct (find _ (rev rs)); reflexivity.
Qed.

Lemma string_app_nil_r (s : string) : (s ++ "")%string = s.
Proof. induction s as [|c s IH]; simpl; [reflexivity | now rewrite IH]. Qed.

Lemma string_app_assoc (a b c : string) :
  ((a ++ b) ++ c)%string = (a ++ (b ++ c))%string.
Proof. induction a as [|x a IH]; simpl; [reflexivity | now rewrite IH]. Qed.

Lemma underscore_free_app (a b : string) :
  underscore_free (a ++ b) = underscore_free a && underscore_free b.
Proof.
  induction a as [|c a IH]; simpl; [reflexivity|].
  rewrite IH. now rewrite andb_assoc.
Qed.

(** what [split("_")[-1]] gives *)
Lemma split_last_from_spec (s acc : string) :
  underscore_free acc = true ->
  underscore_free (PyStr.split_last_from "_" acc s) = true
  /\ (PyStr.split_last_from "_" acc s = (acc ++ s)%string
      \/ exists pre, s = (pre ++ "_" ++ PyStr.split_last_from "_" acc s)%string).
Proof.
  revert acc. induction s as [|c s IH]; intros acc Hacc; simpl.
  - split; [exact Hacc|]. left. now rewrite string_app_nil_r.
  - destruct (Ascii.eqb c "_") eqn:E.
    + apply Ascii.eqb_eq in E. subst c.
      destruct (IH "" eq_refl) as [Hf [Hr|[pre Hr]]]; (split; [exact Hf|]); right.
      * exists "". simpl. f_equal. symmetry. exact Hr.
      * exists (String "_" pre). simpl. f_equal. exact Hr.
    + destruct (IH (acc ++ String c "")%string) as [Hf [Hr|[pre Hr]]].
      * rewrite underscore_free_app, Hacc. simpl. now rewrite E.
      * split; [exact Hf|]. left. rewrite Hr. now rewrite string_app_assoc.
      * split; [exact Hf|]. right. exists (String c pre). simpl. f_equal. exact Hr.
Qed.

Lemma split_last_spec (s : string) :
  after_last_underscore s (PyStr.split_last "_" s).
Proof.
  unfold after_last_underscore, PyStr.split_last.
  destruct (@split_last_from_spec s "" eq_refl) as [Hf [Hr|Hr]].
  - split; [exact Hf|]. left. now rewrite Hr.
  - split; [exact Hf|]. now right.
Qed.

End ApplyLayout.

Section LayoutKeeps.
Context {PF : PyFloat}.

Lemma degrees_of_core (g g' : FlowGraph) (k : string) :
  map edge_core (edges g') = map edge_core (edges g) ->
  in_degree g' k = in_degree g k /\ out_degree g' k = out_degree g k.
Proof.
  unfold in_degree, out_degree. generalize (edges g) (edges g').
  intros es. induction es as [|e es IH]; intros [|e' es'] H; simpl in H;
    try discriminate; auto.
  injection H as Hi Hs Ht _ H. destruct (IH es' H) as [IHi IHo].
  simpl. rewrite Hs, Ht.
  destruct (String.eqb (target_id e) k), (String.eqb (source_id e) k); simpl; auto.
Qed.

Lemma pairs_of_core (es es' : list FlowEdge) :
  map edge_core es' = map edge_core es -> map pair_of es' = map pair_of es.
Proof.
  intros H.
  apply (f_equal (map (fun c : string * string * string * string =>
                         (snd (fst (fst c)), snd (fst c))))) in H.
  now rewrite !map_map in H.
Qed.

Lemma in_list_reserved (k : string) :
  k <> "0" -> k <> "1" -> PyStr.in_list k ["0"; "1"] = false.
Proof.
  intros H0 H1. apply String.eqb_neq in H0, H1.
  unfold PyStr.in_list. simpl. now rewrite H0, H1.
Qed.

(** a graph with the same keys, the same node cores and the same edge cores
    as a ready graph is ready *)
Lemma ready_of_core (g g' : FlowGraph) :
  PyDict.keys (nodes g') = PyDict.keys (nodes g) ->
  (forall k, option_map node_core (PyDict.get k (nodes g'))
             = option_map node_core (PyDict.get k (nodes g))) ->
  map edge_core (edges g') = map edge_core (edges g) ->
  roundtrip_ready g = true -> roundtrip_ready g' = true.
Proof.
  intros Hk Hn He R.
  destruct (ready_parts g R) as (NDk & _ & NDe & _).
  unfold roundtrip_ready. rewrite !andb_true_iff. repeat split.
  - rewrite Hk. now apply NoDup_nodupb.
  - apply forallb_forall. intros [k n'] Hin.
    assert (G' : PyDict.get k (nodes g') = Some n').
    { apply PyDictFacts.In_get; auto. now rewrite Hk. }
    specialize (Hn k). rewrite G' in Hn. simpl in Hn.
    destruct (PyDict.get k (nodes g)) as [n|] eqn:G; [|discriminate].
    simpl in Hn. injection Hn as Hid Hty _ _ _.
    destruct (ready_node g R k n (PyDictFacts.get_Some_In _ _ G))
      as (Hnid & T & H0 & H1 & Hr).
    unfold node_ready. cbn [fst snd]. rewrite !andb_true_iff. repeat split.
    + rewrite Hid, Hnid. apply String.eqb_refl.
    + exact T.
    + now rewrite in_list_reserved.
    + unfold role_agrees in *.
      destruct (degrees_of_core g g' k He) as [-> ->]. now rewrite Hty.
  - rewrite (@edge_ids_of_core _ (edges g) (edges g') He). now apply NoDup_nodupb.
  - apply forallb_forall. intros e' He'.
    assert (Hc : In (edge_core e') (map edge_core (edges g))).
    { rewrite <- He. now apply in_map. }
    apply in_map_iff in Hc. destruct Hc as (e & Hc & Hin).
    destruct (ready_edge g R e Hin) as (T & Hno & Ts & Tt).
    injection Hc as Hi Hs Ht _.
    unfold edge_ready. rewrite <- Hi, <- Hs, <- Ht, T, Ts, Tt, !andb_true_r.
    rewrite <- Hk in Hno. apply PyDictFacts.get_None in Hno.
    unfold PyDict.mem. now rewrite Hno.
Qed.

Lemma layout_inv (self : ELKLayoutEngine) (solver : ElkGraph -> result ElkResult)
  (g g' : FlowGraph) :
  layout self solver g = Ok g' ->
  exists res, solver (_build_elk_graph self g) = Ok res /\ _apply_layout g res = Ok g'.
Proof.
  unfold layout. destruct (solver (_build_elk_graph self g)) as [res|]; simpl;
    [eauto | discriminate].
Qed.

End LayoutKeeps.

(** X8.  Where the application of a layout puts the nodes, for an answer
    of the shape ELK documents: the keys stay, in their order; a node whose
    id has entries in the answer has the x and the y of the last of them; a
    node without entry has the x and the y it had; the id, the role, the
    label and the size of a node stay; an entry for an id that is no node
    key adds no node. *)
Theorem layout_places_nodes `{PF : PyFloat} (g g' : FlowGraph) (res : ElkResult) :
  _apply_layout g res = Ok g' ->
  PyDict.keys (nodes g') = PyDict.keys (nodes g) /\
  forall k n, PyDict.get k (nodes g) = Some n ->
    exists n',
      PyDict.get k (nodes g') = Some n' /\
      node_core n' = node_core n /\
      (forall c,
         find (fun c => String.eqb (res_id c) k)
           (rev (match res_children res with Some l => l | None => [] end)) = Some c ->
         x n' = res_x c /\ y n' = res_y c) /\
      (find (fun c => String.eqb (res_id c) k)
         (rev (match res_children res with Some l => l | None => [] end)) = None ->
       x n' = x n /\ y n' = y n).
Proof.
  intros H. destruct (apply_layout_inv _ _ H) as [-> _].
  split; [apply keys_fold_apply_child|].
  intros k n G. rewrite get_fold_apply_child, G. simpl.
  exists (placed (get_list (res_children res) []) k n).
  split; [reflexivity|]. split; [apply placed_core|].
  unfold placed, get_list.
  destruct (find _ (rev _)) as [c|]; split.
  - intros c' [= <-]. split; reflexivity.
  - discriminate.
  - discriminate.
  - intros _. split; reflexivity.
Qed.

Lemma layout_places_nodes_witness :
  _apply_layout flowchart_graph flowchart_result = Ok flowchart_laid_out
  /\ PyDict.get "A" (nodes flowchart_graph)
     = Some (new_FlowNode "A" START "" 100%Z 60%Z)
  /\ exists n',
       PyDict.get "A" (nodes flowchart_laid_out) = Some n' /\
       node_core n' = node_core (new_FlowNode "A" START "" 100%Z 60%Z) /\
       (forall c,
          find (fun c => String.eqb (res_id c) "A")
            (rev (match res_children flowchart_result with Some l => l | None => [] end))
          = Some c ->
          x n' = res_x c /\ y n' = res_y c) /\
       (find (fun c => String.eqb (res_id c) "A")
          (rev (match res_children flowchart_result with Some l => l | None => [] end))
        = None ->
        x n' = x (new_FlowNode "A" START "" 100%Z 60%Z)
        /\ y n' = y (new_FlowNode "A" START "" 100%Z 60%Z)).
Proof.
  split; [reflexivity|]. split; [reflexivity|].
  destruct (@layout_places_nodes whole_float flowchart_graph flowchart_laid_out
              flowchart_result eq_refl) as [_ H].
  apply (H "A"). reflexivity.
Defined.

(** X9.  How the application of a layout routes the edges of a graph whose
    edge ids are all different, for an answer of the shape ELK documents:
    no edge is added, dropped or moved; an edge whose id has entries in the
    answer gets, from the last of them, the points of its sections (start
    point, bend points if any, end point, section after section) as routing
    points, and as sides what follows the last underscore of the first
    source port and of the first target port ("_S" and "_N" when the entry
    has no ports); an edge without entry stays as it was. *)
Theorem layout_routes_edges `{PF : PyFloat} (g g' : FlowGraph) (res : ElkResult) :
  _apply_layout g res = Ok g' ->
  NoDup (map edge_id (edges g)) ->
  length (edges g') = length (edges g) /\
  forall i e, nth_error (edges g) i = Some e ->
    exists e',
      nth_error (edges g') i = Some e' /\
      edge_core e' = edge_core e /\
      (forall r,
         find (fun r => String.eqb (res_edge_id r) (edge_id e))
           (rev (match res_edges res with Some l => l | None => [] end)) = Some r ->
         routing_points e'
         = flat_map (fun sec => startPoint sec
                                :: match bendPoints sec with Some l => l | None => [] end
                                ++ [endPoint sec])
             (match res_sections r with Some l => l | None => [] end) /\
         (exists src_p rest,
            match res_sources r with Some l => l | None => ["_S"] end = src_p :: rest /\
            after_last_underscore src_p (source_side e')) /\
         (exists tgt_p rest,
            match res_targets r with Some l => l | None => ["_N"] end = tgt_p :: rest /\
            after_last_underscore tgt_p (target_side e'))) /\
      (find (fun r => String.eqb (res_edge_id r) (edge_id e))
         (rev (match res_edges res with Some l => l | None => [] end)) = None ->
       e' = e).
Proof.
  intros H ND. destruct (apply_layout_inv _ _ H) as [_ He].
  pose proof (for_each_apply_edge_ok _ _ He) as Hok.
  rewrite (@for_each_apply_edge_routed _ _ _ _ ND He). split; [apply length_map|].
  intros i e Hi. exists (routed (get_list (res_edges res) []) e).
  split; [now apply map_nth_error|]. split; [apply routed_core|].
  unfold routed. fold (get_list (res_edges res) []).
  destruct (find _ (rev (get_list (res_edges res) []))) as [r|] eqn:F; split;
    try discriminate; [|intros _; reflexivity].
  intros r' [= <-].
  destruct (find_some _ _ F) as [Hin Hid]. apply in_rev in Hin.
  apply String.eqb_eq in Hid.
  specialize (Hok r Hin). unfold portless in Hok.
  assert (Ex : existsb (fun e0 => String.eqb (edge_id e0) (res_edge_id r)) (edges g) = true).
  { apply existsb_exists. exists e. split; [eapply nth_error_In; eauto|].
    rewrite Hid. apply String.eqb_refl. }
  rewrite Ex in Hok. simpl in Hok. apply orb_false_elim in Hok.
  unfold get_list in Hok. destruct Hok as [Hs Ht].
  split; [reflexivity|]. unfold routed_by, get_list. cbn [source_side target_side set_routing].
  split.
  - destruct (match res_sources r with Some l => l | None => ["_S"] end)
      as [|src_p rest]; [discriminate|].
    exists src_p, rest. split; [reflexivity | apply split_last_spec].
  - destruct (match res_targets r with Some l => l | None => ["_N"] end)
      as [|tgt_p rest]; [discriminate|].
    exists tgt_p, rest. split; [reflexivity | apply split_last_spec].
Qed.

Lemma layout_routes_edges_witness :
  _apply_layout flowchart_graph flowchart_result = Ok flowchart_laid_out
  /\ NoDup (map edge_id (edges flowchart_graph))
  /\ nth_error (edges flowchart_graph) 2 = Some (set_label "no" (new_FlowEdge "e3" "B" "D"))
  /\ exists e',
       nth_error (edges flowchart_laid_out) 2 = Some e' /\
       edge_core e' = edge_core (set_label "no" (new_FlowEdge "e3" "B" "D")) /\
       (forall r,
          find (fun r => String.eqb (res_edge_id r) "e3")
            (rev (match res_edges flowchart_result with Some l => l | None => [] end))
          = Some r ->
          routing_points e'
          = flat_map (fun sec => startPoint sec
                                 :: match bendPoints sec with Some l => l | None => [] end
                                 ++ [endPoint sec])
              (match res_sections r with Some l => l | None => [] end) /\
          (exists src_p rest,
             match res_sources r with Some l => l | None => ["_S"] end = src_p :: rest /\
             after_last_underscore src_p (source_side e')) /\
          (exists tgt_p rest,
             match res_targets r with Some l => l | None => ["_N"] end = tgt_p :: rest /\
             after_last_underscore tgt_p (target_side e'))) /\
       (find (fun r => String.eqb (res_edge_id r) "e3")
          (rev (match res_edges flowchart_result with Some l => l | None => [] end))
        = None ->
        e' = set_label "no" (new_FlowEdge "e3" "B" "D")).
Proof.
  assert (ND : NoDup (map edge_id (edges flowchart_graph))).
  { apply nodupb_spec. reflexivity. }
  split; [reflexivity|]. split; [exact ND|]. split; [reflexivity|].
  destruct (@layout_routes_edges whole_float flowchart_graph flowchart_laid_out
              flowchart_result eq_refl ND) as [_ H].
  apply (H 2). reflexivity.
Defined.

(** X10.  The application of a layout never adds, drops or reorders an edge and
    never changes the id, the source, the target or the label of an edge,
    also when edge ids repeat; and it keeps the id, the role, the label and
    the size of every node. *)
Theorem layout_keeps_the_graph `{PF : PyFloat} (g g' : FlowGraph) (res : ElkResult) :
  _apply_layout g res = Ok g' ->
  map edge_core (edges g') = map edge_core (edges g) /\
  forall k, option_map node_core (PyDict.get k (nodes g'))
            = option_map node_core (PyDict.get k (nodes g)).
Proof.
  intros H. destruct (apply_layout_inv _ _ H) as [Hn He]. split.
  - now apply for_each_apply_edge_core with (rs := get_list (res_edges res) []).
  - intros k. rewrite Hn, get_fold_apply_child.
    destruct (PyDict.get k (nodes g)); simpl; auto. now rewrite placed_core.
Qed.

Lemma layout_keeps_the_graph_witness :
  _apply_layout flowchart_graph flowchart_result = Ok flowchart_laid_out
  /\ map edge_core (edges flowchart_laid_out) = map edge_core (edges flowchart_graph)
  /\ forall k, option_map node_core (PyDict.get k (nodes flowchart_laid_out))
               = option_map node_core (PyDict.get k (nodes flowchart_graph)).
Proof.
  split; [reflexivity|].
  apply (layout_keeps_the_graph flowchart_graph flowchart_result). reflexivity.
Defined.

(** X12.  The whole pipeline, read back: when a document extracts to a graph,
    the layout of that graph ends well on an answer of the shape ELK
    documents, and the document generated from the laid-out graph carries
    only printable ASCII text in its attributes, then that document, written
    and read back, extracts to a graph with the node ids, the (source,
    target) pairs and the roles of the first graph. *)
Theorem pipeline_output_reads_back `{PF : PyFloat} `{XF : XmlFile}
  (root : Element) (self : ELKLayoutEngine) (solver : ElkGraph -> result ElkResult)
  (g g' : FlowGraph) :
  parse (Ok root) = Ok g ->
  layout self solver g = Ok g' ->
  writable (generate g') = true ->
  exists g'',
    parse (written_and_read (generate g')) = Ok g'' /\
    (forall k, In k (PyDict.keys (nodes g'')) <-> In k (PyDict.keys (nodes g))) /\
    (forall s t, In (s, t) (map pair_of (edges g'')) <-> In (s, t) (map pair_of (edges g))) /\
    (forall k n n'', PyDict.get k (nodes g) = Some n -> PyDict.get k (nodes g'') = Some n'' ->
                     node_type n'' = node_type n).
Proof.
  intros Hp Hl W. rewrite (written_and_read_writable _ W).
  destruct (layout_inv _ _ _ Hl) as (res & _ & Ha).
  destruct (apply_layout_inv _ _ Ha) as [Hn He].
  assert (Hk : PyDict.keys (nodes g') = PyDict.keys (nodes g)).
  { rewrite Hn. apply keys_fold_apply_child. }
  assert (Hc : forall k, option_map node_core (PyDict.get k (nodes g'))
                         = option_map node_core (PyDict.get k (nodes g))).
  { intros k. rewrite Hn, get_fold_apply_child.
    destruct (PyDict.get k (nodes g)); simpl; auto. now rewrite placed_core. }
  assert (Hec : map edge_core (edges g') = map edge_core (edges g)).
  { now apply for_each_apply_edge_core with (rs := get_list (res_edges res) []). }
  assert (R' : roundtrip_ready g' = true).
  { apply (ready_of_core g g' Hk Hc Hec). apply (extracted_graph_ready root Hp). }
  destruct (reextraction_of_ready_graph g' R') as (g'' & Hp'' & Hkeys & Hpairs & Hroles).
  exists g''. split; [exact Hp''|]. split; [|split].
  - intros k. rewrite Hkeys, Hk. reflexivity.
  - intros s t. rewrite Hpairs, (pairs_of_core _ _ Hec). reflexivity.
  - intros k n n'' Gn Gn''. specialize (Hc k). rewrite Gn in Hc.
    destruct (PyDict.get k (nodes g')) as [n'|] eqn:Gn'; [|discriminate].
    simpl in Hc. injection Hc as _ Hty _ _ _.
    rewrite <- Hty. now apply (Hroles k n' n'').
Qed.

Lemma pipeline_output_reads_back_witness :
  parse (Ok flowchart_doc) = Ok flowchart_graph
  /\ layout default_engine (fun _ => Ok flowchart_result) flowchart_graph
     = Ok flowchart_laid_out
  /\ writable (generate flowchart_laid_out) = true
  /\ exists g'',
      parse (written_and_read (generate flowchart_laid_out)) = Ok g'' /\
      (forall k, In k (PyDict.keys (nodes g''))
                 <-> In k (PyDict.keys (nodes flowchart_graph))) /\
      (forall s t, In (s, t) (map pair_of (edges g''))
                   <-> In (s, t) (map pair_of (edges flowchart_graph))) /\
      (forall k n n'', PyDict.get k (nodes flowchart_graph) = Some n ->
                       PyDict.get k (nodes g'') = Some n'' ->
                       node_type n'' = node_type n).
Proof.
  split; [reflexivity|]. split; [reflexivity|]. split; [reflexivity|].
  apply (pipeline_output_reads_back flowchart_doc default_engine
           (fun _ => Ok flowchart_result)); reflexivity.
Defined.

(* ------------------------------------------------------------------ *)
(** ** The ports and the ids of the layout request *)

Section RequestPorts.
Context {PF : PyFloat}.

(** a port id ends in an underscore and a letter: it tells its node id and
    its letter *)
Lemma port_id_inj (s s' : string) (a b : ascii) :
  (s ++ String "_" (String a ""))%string = (s' ++ String "_" (String b ""))%string ->
  s = s' /\ a = b.
Proof.
  revert s'. induction s as [|c s IH]; intros [|c' s'] H; simpl in H.
  - injection H as ->. auto.
  - injection H as _ H. destruct s' as [|c'' s'']; simpl in H; [discriminate|].
    injection H as _ H. destruct s''; discriminate.
  - injection H as _ H. destruct s as [|c'' s'']; simpl in H; [discriminate|].
    injection H as _ H. destruct s''; discriminate.
  - injection H as -> H. destruct (IH _ H) as [-> ->]. auto.
Qed.

Lemma split_last_from_port (s acc : string) (a : ascii) :
  Ascii.eqb a "_" = false ->
  PyStr.split_last_from "_" acc (s ++ String "_" (String a "")) = String a "".
Proof.
  intros Ha. revert acc. induction s as [|c s IH]; intros acc; simpl.
  - now rewrite Ha.
  - destruct (Ascii.eqb c "_"); apply IH.
Qed.

Lemma split_last_port (s : string) (a : ascii) :
  Ascii.eqb a "_" = false ->
  PyStr.split_last "_" (s ++ String "_" (String a "")) = String a "".
Proof. apply split_last_from_port. Qed.

Lemma resolves_node (self : ELKLayoutEngine) (g : FlowGraph) (k suffix : string) :
  PyDict.mem k (nodes g) = true ->
  In suffix ["_N"; "_S"; "_E"; "_W"] ->
  resolves (_build_elk_graph self g) (k ++ suffix).
Proof.
  unfold PyDict.mem. intros Hm Hs.
  destruct (PyDict.get k (nodes g)) as [n|] eqn:G; [|discriminate].
  apply PyDictFacts.get_Some_In in G.
  exists (elk_node (k, n)). split.
  - simpl. now apply in_map.
  - unfold port_ids. simpl. simpl in Hs.
    destruct Hs as [<-|[<-|[<-|[<-|[]]]]]; auto.
Qed.

Lemma resolves_north (self : ELKLayoutEngine) (g : FlowGraph) (t : string) :
  resolves (_build_elk_graph self g) (t ++ "_N") -> PyDict.mem t (nodes g) = true.
Proof.
  intros (c & Hc & Hp). simpl in Hc. apply in_map_iff in Hc.
  destruct Hc as ([k n] & <- & Hin). unfold port_ids in Hp. simpl in Hp.
  assert (Hk : PyDict.mem k (nodes g) = true).
  { unfold PyDict.mem.
    destruct (PyDict.get k (nodes g)) eqn:G; auto.
    apply PyDictFacts.get_None in G. exfalso. apply G.
    apply in_map_iff. exists (k, n). auto. }
  destruct Hp as [H|[H|[H|[H|[]]]]]; apply port_id_inj in H; destruct H as [-> H];
    try discriminate; exact Hk.
Qed.

Lemma elk_edge_ids_from (g : FlowGraph) (es : list FlowEdge) (i : nat) :
  (forall e, In e es -> PyStr.truthy (edge_id e) = true) ->
  map elk_edge_id (elk_edges_from g i es)
  = map edge_id (filter (fun e => PyDict.mem (source_id e) (nodes g)) es).
Proof.
  revert i. induction es as [|e es IH]; intros i H; simpl; auto.
  unfold PyDict.mem at 1.
  destruct (PyDict.get (source_id e) (nodes g)) as [n|] eqn:G.
  - rewrite (elk_edge_Some g i e G). simpl.
    rewrite (H e) by (simpl; auto). f_equal. apply IH. intros; apply H; simpl; auto.
  - unfold elk_edge. rewrite G. apply IH. intros; apply H; simpl; auto.
Qed.

End RequestPorts.

(** X13.  The ports that the edge descriptors of a layout request name: every
    descriptor is the descriptor of an edge of the graph, with the north
    port of that edge's target as its one target port; every source port is
    a port of a node descriptor of the request; the target port is one
    exactly when the target id of the edge is a node key. *)
Theorem request_ports_resolve `{PF : PyFloat}
  (self : ELKLayoutEngine) (g : FlowGraph) (d : ElkEdge) :
  In d (elk_edges (_build_elk_graph self g)) ->
  exists i edge,
    nth_error (edges g) i = Some edge /\
    elk_edge g i edge = Some d /\
    targets d = [(target_id edge ++ "_N")%string] /\
    (forall p, In p (sources d) -> resolves (_build_elk_graph self g) p) /\
    (forall p, In p (targets d) ->
       (resolves (_build_elk_graph self g) p
        <-> PyDict.mem (target_id edge) (nodes g) = true)).
Proof.
  intros H. simpl in H. apply In_elk_edges_from in H.
  destruct H as (j & edge & Hn & Hd). simpl in Hd.
  exists j, edge. split; [exact Hn|]. split; [exact Hd|].
  destruct (PyDict.get (source_id edge) (nodes g)) as [n|] eqn:Hs.
  2:{ unfold elk_edge in Hd. rewrite Hs in Hd. discriminate. }
  rewrite (elk_edge_Some _ _ _ Hs) in Hd. injection Hd as <-. simpl.
  assert (Hm : PyDict.mem (source_id edge) (nodes g) = true)
    by (unfold PyDict.mem; now rewrite Hs).
  split; [reflexivity|]. split.
  - intros p [<-|[]]. apply resolves_node; auto.
    unfold convention. destruct (node_type n); simpl; auto.
    destruct (String.eqb (label edge) "no"); simpl; auto.
  - intros p [<-|[]]. split.
    + apply resolves_north.
    + intros Ht. apply resolves_node; simpl; auto.
Qed.

Lemma request_ports_resolve_witness :
  In {| elk_edge_id := "e3"; sources := ["B_E"]; targets := ["D_N"]; priority := 1 |}
     (elk_edges (_build_elk_graph default_engine flowchart_graph))
  /\ exists i edge,
      nth_error (edges flowchart_graph) i = Some edge /\
      elk_edge flowchart_graph i edge
      = Some {| elk_edge_id := "e3"; sources := ["B_E"]; targets := ["D_N"];
                priority := 1 |} /\
      ["D_N"] = [(target_id edge ++ "_N")%string] /\
      (forall p, In p ["B_E"] -> resolves (_build_elk_graph default_engine flowchart_graph) p) /\
      (forall p, In p ["D_N"] ->
         (resolves (_build_elk_graph default_engine flowchart_graph) p
          <-> PyDict.mem (target_id edge) (nodes flowchart_graph) = true)).
Proof.
  assert (H : In {| elk_edge_id := "e3"; sources := ["B_E"]; targets := ["D_N"];
                    priority := 1 |}
                 (elk_edges (_build_elk_graph default_engine flowchart_graph))).
  { vm_compute. auto. }
  split; [exact H|].
  exact (request_ports_resolve default_engine flowchart_graph _ H).
Defined.

(** X14.  The ids of the edge descriptors: when no edge id is empty, they are the
    ids of the edges whose source is a node key, in the order of the edges. *)
Theorem request_edge_ids `{PF : PyFloat} (self : ELKLayoutEngine) (g : FlowGraph) :
  (forall e, In e (edges g) -> PyStr.truthy (edge_id e) = true) ->
  map elk_edge_id (elk_edges (_build_elk_graph self g))
  = map edge_id (filter (fun e => PyDict.mem (source_id e) (nodes g)) (edges g)).
Proof.
  intros H. simpl. now apply elk_edge_ids_from.
Qed.

Lemma request_edge_ids_witness :
  (forall e, In e (edges flowchart_graph) -> PyStr.truthy (edge_id e) = true)
  /\ map elk_edge_id (elk_edges (_build_elk_graph default_engine flowchart_graph))
     = ["e1"; "e2"; "e3"].
Proof.
  assert (H : forall e, In e (edges flowchart_graph) -> PyStr.truthy (edge_id e) = true).
  { intros e He. simpl in He. destruct He as [<-|[<-|[<-|[]]]]; reflexivity. }
  split; [exact H|].
  rewrite (request_edge_ids default_engine flowchart_graph H). reflexivity.
Defined.

(** X15.  From the ports of the request to the sides that the application of a
    layout records: what follows the last underscore of a source port is "E"
    for a descriptor of priority 1 and "S" for one of priority 10, and of a
    target port it is "N", whatever underscores the node ids contain. *)
Theorem request_ports_name_sides `{PF : PyFloat}
  (self : ELKLayoutEngine) (g : FlowGraph) (d : ElkEdge) :
  In d (elk_edges (_build_elk_graph self g)) ->
  (forall p, In p (sources d) ->
     (PyStr.split_last "_" p = "E" /\ priority d = 1%Z)
     \/ (PyStr.split_last "_" p = "S" /\ priority d = 10%Z)) /\
  (forall p, In p (targets d) -> PyStr.split_last "_" p = "N").
Proof.
  intros H. simpl in H. apply In_elk_edges_from in H.
  destruct H as (j & edge & Hn & Hd). simpl in Hd.
  destruct (PyDict.get (source_id edge) (nodes g)) as [n|] eqn:Hs.
  2:{ unfold elk_edge in Hd. rewrite Hs in Hd. discriminate. }
  rewrite (elk_edge_Some _ _ _ Hs) in Hd. injection Hd as <-. simpl. split.
  - intros p [<-|[]]. unfold convention.
    destruct (node_type n); simpl;
      try (right; split; [now apply split_last_port | reflexivity]).
    destruct (String.eqb (label edge) "no"); simpl;
      [left | right]; (split; [now apply split_last_port | reflexivity]).
  - intros p [<-|[]]. now apply split_last_port.
Qed.

Lemma request_ports_name_sides_witness :
  In {| elk_edge_id := "e3"; sources := ["B_E"]; targets := ["D_N"]; priority := 1 |}
     (elk_edges (_build_elk_graph default_engine flowchart_graph))
  /\ (forall p, In p ["B_E"] ->
        (PyStr.split_last "_" p = "E" /\ 1%Z = 1%Z)
        \/ (PyStr.split_last "_" p = "S" /\ 1%Z = 10%Z))
  /\ (forall p, In p ["D_N"] -> PyStr.split_last "_" p = "N").
Proof.
  assert (H : In {| elk_edge_id := "e3"; sources := ["B_E"]; targets := ["D_N"];
                    priority := 1 |}
                 (elk_edges (_build_elk_graph default_engine flowchart_graph))).
  { vm_compute. auto. }
  split; [exact H|].
  exact (request_ports_name_sides default_engine flowchart_graph _ H).
Defined.

(* ------------------------------------------------------------------ *)
(** ** Role refinement *)

Section Refinement.
Context {PF : PyFloat}.

Lemma refine_type_idem (i o : nat) (n : FlowNode) :
  refine_type i o (refine_type i o n) = refine_type i o n.
Proof.
  unfold refine_type. destruct i as [|i], o as [|o]; reflexivity.
Qed.

Lemma degrees_keys_edges (g g' : FlowGraph) :
  PyDict.keys (nodes g') = PyDict.keys (nodes g) -> edges g' = edges g ->
  degrees g' = degrees g.
Proof.
  intros Hk He. unfold degrees. rewrite He.
  assert (E : forall l : PyDict.t FlowNode,
             map (fun kv : string * FlowNode => (fst kv, 0)) l
             = map (fun k => (k, 0)) (PyDict.keys l)).
  { intros l. unfold PyDict.keys. now rewrite map_map. }
  now rewrite !E, Hk.
Qed.

End Refinement.

(** X16.  Role refinement settles at once: refining the roles of a parser a
    second time changes nothing. *)
Theorem role_refinement_is_idempotent `{PF : PyFloat} (p : DrawioParser) :
  _infer_node_types (_infer_node_types p) = _infer_node_types p.
Proof.
  assert (D : degrees (graph (_infer_node_types p)) = degrees (graph p)).
  { apply degrees_keys_edges; [apply keys_infer | apply edges_infer]. }
  unfold _infer_node_types at 1. rewrite D.
  unfold _infer_node_types. destruct (degrees (graph p)) as [ins outs]. simpl.
  unfold with_graph. simpl. f_equal. f_equal.
  rewrite map_map. apply map_ext. intros [k n]. simpl.
  now rewrite refine_type_idem.
Qed.

(* ------------------------------------------------------------------ *)
(** ** Labels through generation and extraction *)

Section LabelsReadBack.
Context {PF : PyFloat}.

Lemma find_all_false {A : Type} (f : A -> bool) (l : list A) :
  (forall a, In a l -> f a = false) -> find f l = None.
Proof.
  induction l as [|a l IH]; simpl; auto.
  intros H. rewrite (H a) by auto. auto.
Qed.

Lemma edge_cell_value (e : FlowEdge) :
  ET.truthy (edge_cell e) = true /\
  ET.get (edge_cell e) "value"
  = Some (if String.eqb (label e) "yes" then "Y"
          else if String.eqb (label e) "no" then "N" else "").
Proof.
  unfold edge_cell.
  destruct (PyDict.get_or ("0.5", "1") (source_side e) pmap) as [ex ey].
  destruct (PyDict.get_or ("0.5", "0") (target_side e) pmap) as [ix iy].
  split; reflexivity.
Qed.

(** no style that generation writes marks a label decoration *)
Lemma edge_cell_no_decoration (e : FlowEdge) :
  PyStr.contains "edgeLabel" (ET.get_d (edge_cell e) "style" "") = false.
Proof.
  unfold edge_cell, PyDict.get_or, pmap. cbn [PyDict.get].
  repeat match goal with
         | |- context [String.eqb ?a ?b] => destruct (String.eqb a b)
         end; reflexivity.
Qed.

Lemma node_cell_no_decoration (n : FlowNode) :
  PyStr.contains "edgeLabel" (ET.get_d (node_cell n) "style" "") = false.
Proof.
  unfold node_cell, ET.get_d. cbn. destruct (node_type n); reflexivity.
Qed.

Lemma generated_no_decoration (g : FlowGraph) (k : string) :
  find (is_label_of k) (PyDict.values (build_cell_map (generated_model g))) = None.
Proof.
  apply find_all_false. intros c Hc. unfold is_label_of.
  destruct (generated_values g c Hc) as [->|[->|[(n & _ & ->)|(e & _ & ->)]]].
  - apply andb_false_r.
  - apply andb_false_r.
  - rewrite node_cell_no_decoration. apply andb_false_r.
  - rewrite edge_cell_no_decoration. apply andb_false_r.
Qed.

Lemma yes_no_letter (l : string) :
  yes_no (PyStr.lower (if String.eqb l "yes" then "Y"
                       else if String.eqb l "no" then "N" else "")) ""
  = label_read_back l.
Proof.
  unfold label_read_back.
  destruct (String.eqb l "yes"); [reflexivity|].
  destruct (String.eqb l "no"); reflexivity.
Qed.

Variable g : FlowGraph.
Hypothesis R : roundtrip_ready g = true.

Lemma reextracted_label (e : FlowEdge) :
  In e (edges g) ->
  label (extract_edge_label (build_cell_map (generated_model g))
           (new_FlowEdge (edge_id e) (source_id e) (target_id e)))
  = label_read_back (label e).
Proof.
  intros He. unfold extract_edge_label. simpl edge_id.
  rewrite (generated_get_edge g R e He).
  destruct (edge_cell_value e) as [Tc Hv].
  simpl ET.truthy_opt. rewrite Tc, Hv. unfold ET.get_d. rewrite Hv.
  rewrite generated_no_decoration.
  unfold label_read_back.
  destruct (String.eqb (label e) "yes"); [reflexivity|].
  destruct (String.eqb (label e) "no"); reflexivity.
Qed.

Lemma labels_read_back :
  exists g',
    parse (Ok (generate g)) = Ok g' /\
    (forall k n n', PyDict.get k (nodes g) = Some n -> PyDict.get k (nodes g') = Some n' ->
                    node_label n' = node_label n) /\
    (forall e', In e' (edges g') ->
       exists e, In e (edges g) /\
                 edge_id e' = edge_id e /\ source_id e' = source_id e /\
                 target_id e' = target_id e /\
                 label e' = label_read_back (label e)).
Proof.
  destruct (reparse_runs g) as [p1 Hrun].
  assert (EI := edges_inv_loop _ (fresh_parser (generate g) (generated_model g))
                  eq_refl Hrun).
  destruct EI as (_ & Hfirst & _).
  destruct (loop_frame _ _ Hrun) as [Hcm _]. simpl in Hcm.
  exists (graph (_infer_node_types (_extract_edge_labels p1))).
  split; [|split].
  - apply parse_of_loop with (model := generated_model g); auto.
    rewrite namespace_generate. apply find_model_generate.
  - intros k n n' Hn Hn'. apply get_parsed_node in Hn'.
    destruct Hn' as (n0 & Hn0 & ->).
    destruct (refine_type_keeps
                (in_degree (graph (_infer_node_types (_extract_edge_labels p1))) k)
                (out_degree (graph (_infer_node_types (_extract_edge_labels p1))) k) n0)
      as (-> & _).
    destruct (nodes_fresh_loop _ (fresh_parser (generate g) (generated_model g))
                eq_refl Hrun k Hn0) as (c & w & h & Hin & Hc & ->).
    simpl. apply PyDictFacts.get_Some_In in Hn.
    destruct (ready_node g R _ _ Hn) as (Hid & _ & H0 & H1 & _).
    destruct (generated_values g c Hin) as [->|[->|[(n1 & Hn1 & ->)|(e & He & ->)]]].
    + exfalso. apply H0. now rewrite <- Hc.
    + exfalso. apply H1. now rewrite <- Hc.
    + assert (n1 = n).
      { apply (ready_same_node g R); auto.
        - apply PyDictFacts.In_values. eauto.
        - unfold ET.get_d in Hc. destruct (node_cell_attrs n1) as (Hi & _).
          rewrite Hi in Hc. congruence. }
      subst n1. reflexivity.
    + exfalso. destruct (ready_edge g R e He) as (_ & Hno & _). apply Hno.
      unfold ET.get_d in Hc. destruct (edge_cell_attrs e) as (Hi & _).
      rewrite Hi in Hc. rewrite Hc. apply in_map_iff. exists (k, n). auto.
  - intros e' He'. rewrite edges_infer, edges_labels, Hcm in He'.
    apply in_map_iff in He'. destruct He' as (e0 & <- & He0).
    destruct (Hfirst e0 He0) as (_ & _ & c & Hf & Hce).
    apply find_some in Hf. destruct Hf as [Hin Hp].
    apply has_pair_spec in Hp. destruct Hp as [Hs Ht].
    destruct (generated_values g c Hin) as [->|[->|[(n & _ & ->)|(e & He & ->)]]];
      try discriminate.
    destruct (edge_cell_attrs e) as (Hi & Hs' & Ht' & _).
    assert (E0 : e0 = new_FlowEdge (edge_id e) (source_id e) (target_id e)).
    { rewrite Hce. unfold ET.get_d. rewrite Hi. f_equal; congruence. }
    exists e. split; [exact He|].
    destruct (extract_edge_label_frame (build_cell_map (generated_model g)) e0)
      as (-> & -> & ->).
    rewrite E0 at 1 2 3. simpl. repeat split.
    rewrite E0. now apply reextracted_label.
Qed.

End LabelsReadBack.

(** X17.  Labels through generation and extraction, for a graph that is ready for
    the round trip and whose generated document carries only printable
    ASCII text in its attributes: from the document written and read back,
    every node comes back with its label; every edge that comes back is an
    edge of the graph, with its id, source and target, and its label comes
    back as it was when it is "yes" or "no", and as the empty label
    otherwise. *)
Theorem generated_labels_read_back `{PF : PyFloat} `{XF : XmlFile} (g : FlowGraph) :
  roundtrip_ready g = true ->
  writable (generate g) = true ->
  exists g',
    parse (written_and_read (generate g)) = Ok g' /\
    (forall k n n', PyDict.get k (nodes g) = Some n -> PyDict.get k (nodes g') = Some n' ->
                    node_label n' = node_label n) /\
    (forall e', In e' (edges g') ->
       exists e, In e (edges g) /\
                 edge_id e' = edge_id e /\ source_id e' = source_id e /\
                 target_id e' = target_id e /\
                 (label e = "yes" -> label e' = "yes") /\
                 (label e = "no" -> label e' = "no") /\
                 (label e <> "yes" -> label e <> "no" -> label e' = "")).
Proof.
  intros R W. rewrite (written_and_read_writable _ W).
  destruct (labels_read_back g R) as (g' & Hp & Hn & He).
  exists g'. split; [exact Hp|]. split; [exact Hn|].
  intros e' He'. destruct (He e' He') as (e & Hin & Hi & Hs & Ht & Hl).
  exists e. repeat (split; [assumption|]).
  rewrite Hl. unfold label_read_back.
  split; [|split].
  - intros ->. reflexivity.
  - intros ->. reflexivity.
  - intros Hy Hno. apply String.eqb_neq in Hy, Hno. now rewrite Hy, Hno.
Qed.

Lemma generated_labels_read_back_witness :
  roundtrip_ready flowchart_laid_out = true
  /\ writable (generate flowchart_laid_out) = true
  /\ exists g',
      parse (written_and_read (generate flowchart_laid_out)) = Ok g' /\
      (forall k n n', PyDict.get k (nodes flowchart_laid_out) = Some n ->
                      PyDict.get k (nodes g') = Some n' ->
                      node_label n' = node_label n) /\
      (forall e', In e' (edges g') ->
         exists e, In e (edges flowchart_laid_out) /\
                   edge_id e' = edge_id e /\ source_id e' = source_id e /\
                   target_id e' = target_id e /\
                   (label e = "yes" -> label e' = "yes") /\
                   (label e = "no" -> label e' = "no") /\
                   (label e <> "yes" -> label e <> "no" -> label e' = "")).
Proof.
  split; [reflexivity|]. split; [reflexivity|].
  apply (generated_labels_read_back flowchart_laid_out); reflexivity.
Defined.

(* ------------------------------------------------------------------ *)
(** ** The order of the index and of the generated document *)

Section Orders.
Context {PF : PyFloat}.

Lemma first_occurrences_ext (l seen seen' : list string) :
  (forall a, In a seen <-> In a seen') ->
  first_occurrences seen l = first_occurrences seen' l.
Proof.
  revert seen seen'. induction l as [|a l IH]; intros seen seen' H; simpl; auto.
  assert (E : PyStr.in_list a seen = PyStr.in_list a seen').
  { destruct (PyStr.in_list a seen) eqn:E1, (PyStr.in_list a seen') eqn:E2; auto.
    - apply in_list_spec in E1. apply H in E1. apply in_list_spec in E1. congruence.
    - apply in_list_spec in E2. apply H in E2. apply in_list_spec in E2. congruence. }
  rewrite E. destruct (PyStr.in_list a seen'); auto.
  f_equal. apply IH. intros b. simpl. rewrite H. reflexivity.
Qed.

Lemma keys_fold_index (l : list Element) (cm : PyDict.t Element) :
  PyDict.keys (fold_left index_cell l cm)
  = PyDict.keys cm ++ first_occurrences (PyDict.keys cm) (filter PyStr.truthy (ids_of l)).
Proof.
  revert cm. induction l as [|a l IH]; intros cm; simpl.
  - now rewrite app_nil_r.
  - rewrite IH. unfold index_cell, ids_of. simpl.
    destruct (ET.get a "id") as [cid|]; simpl; auto.
    destruct (PyStr.truthy cid) eqn:T; simpl; auto.
    rewrite PyDictFacts.keys_set. unfold PyDict.mem.
    destruct (PyDict.get cid cm) as [c|] eqn:G.
    + apply PyDictFacts.get_Some_key in G. apply in_list_spec in G. now rewrite G.
    + apply PyDictFacts.get_None in G.
      destruct (PyStr.in_list cid (PyDict.keys cm)) eqn:E.
      * apply in_list_spec in E. contradiction.
      * rewrite <- app_assoc. simpl. f_equal. f_equal.
        apply first_occurrences_ext. intros b. rewrite in_app_iff. simpl. tauto.
Qed.

Lemma ids_of_app (l1 l2 : list Element) : ids_of (l1 ++ l2) = ids_of l1 ++ ids_of l2.
Proof. apply flat_map_app. Qed.

Lemma ids_of_none (l : list Element) :
  (forall y, In y l -> ET.get y "id" = None) -> ids_of l = [].
Proof.
  induction l as [|a l IH]; simpl; auto.
  intros H. unfold ids_of in *. simpl. rewrite (H a) by auto. simpl. auto.
Qed.

Lemma ids_of_node_cells (vs : list FlowNode) :
  ids_of (flat_map ET.iter (map node_cell vs)) = map node_id vs.
Proof.
  induction vs as [|n vs IH]; [reflexivity|].
  destruct (iter_node_cell n) as (rest & E & Hrest).
  cbn [map flat_map]. rewrite ids_of_app, IH, E.
  change (node_cell n :: rest) with ([node_cell n] ++ rest).
  rewrite ids_of_app, (ids_of_none rest Hrest). reflexivity.
Qed.

Lemma ids_of_edge_cells (es : list FlowEdge) :
  ids_of (flat_map ET.iter (map edge_cell es)) = map edge_id es.
Proof.
  induction es as [|e es IH]; [reflexivity|].
  destruct (iter_edge_cell e) as (rest & E & Hrest).
  cbn [map flat_map]. rewrite ids_of_app, IH, E.
  change (edge_cell e :: rest) with ([edge_cell e] ++ rest).
  rewrite ids_of_app, (ids_of_none rest Hrest).
  unfold ids_of. cbn [flat_map]. destruct (edge_cell_attrs e) as (-> & _). reflexivity.
Qed.

Lemma NoDup_append {A : Type} (l l' : list A) :
  NoDup l -> NoDup l' -> (forall a, In a l -> ~ In a l') -> NoDup (l ++ l').
Proof.
  induction l as [|a l IH]; simpl; auto.
  intros ND ND' H. inversion ND as [|? ? Hn NDl]; subst. constructor.
  - rewrite in_app_iff. intros [Hin|Hin]; [contradiction|]. apply (H a); auto.
  - apply IH; auto.
Qed.

Lemma port_ids_elk_node (k : string) (n : FlowNode) :
  port_ids (elk_node (k, n)) = [(k ++ "_N")%string; (k ++ "_S")%string;
                                (k ++ "_E")%string; (k ++ "_W")%string].
Proof. reflexivity. Qed.

Lemma port_of_key (k p : string) (n : FlowNode) :
  In p (port_ids (elk_node (k, n))) ->
  exists a, p = (k ++ String "_" (String a ""))%string.
Proof.
  rewrite port_ids_elk_node. simpl.
  intros [<-|[<-|[<-|[<-|[]]]]]; eexists; reflexivity.
Qed.

Lemma NoDup_ports_of_node (k : string) (n : FlowNode) :
  NoDup (port_ids (elk_node (k, n))).
Proof.
  rewrite port_ids_elk_node.
  repeat constructor; simpl; intros H;
    repeat (destruct H as [H|H]; [apply port_id_inj in H; destruct H; discriminate|]);
    exact H.
Qed.

End Orders.

(** X20.  The order of the index: its keys are the non-empty ids of the graph
    model in document order, each at the place of its first occurrence
    (while the element filed under an id is the last that carries it). *)
Theorem index_keys_in_first_occurrence_order (model : Element) :
  PyDict.keys (build_cell_map model)
  = first_occurrences [] (filter PyStr.truthy (ids_of (ET.iter model))).
Proof.
  unfold build_cell_map. now rewrite keys_fold_index.
Qed.

(** X19.  The ids of a generated document, in document order: "0", "1", the ids
    of the nodes in the order of the node mapping, then the ids of the edges
    in the order of the edge list; no other element carries an id. *)
Theorem generated_ids_in_order `{PF : PyFloat} (g : FlowGraph) :
  ids_of (ET.iter (generate g))
  = "0" :: "1" :: map node_id (PyDict.values (nodes g)) ++ map edge_id (edges g).
Proof.
  rewrite generate_shape.
  change (ET.iter (Elem "mxfile" [("host", "elk-v4"); ("version", "4.0")]
                     [Elem "diagram" [("name", "Flowchart")] [generated_model g]]))
    with (Elem "mxfile" [("host", "elk-v4"); ("version", "4.0")]
            [Elem "diagram" [("name", "Flowchart")] [generated_model g]]
          :: Elem "diagram" [("name", "Flowchart")] [generated_model g]
          :: (ET.iter (generated_model g) ++ []) ++ []).
  rewrite !app_nil_r, iter_generated_split.
  change (ids_of (?a :: ?b :: ?l)) with (ids_of [a; b] ++ ids_of l).
  rewrite !ids_of_app, flat_map_app, ids_of_app, ids_of_node_cells, ids_of_edge_cells.
  reflexivity.
Qed.

(** X18.  The port ids of a layout request are all different when the node keys
    are, whatever underscores the keys contain. *)
Theorem request_port_ids_are_distinct `{PF : PyFloat}
  (self : ELKLayoutEngine) (g : FlowGraph) :
  NoDup (PyDict.keys (nodes g)) ->
  NoDup (flat_map port_ids (elk_children (_build_elk_graph self g))).
Proof.
  simpl. induction (nodes g) as [|[k n] ns IH]; intros ND; [constructor|].
  cbn [map flat_map]. simpl in ND.
  inversion ND as [|? ? Hn ND']; subst.
  apply NoDup_append; auto using NoDup_ports_of_node.
  intros p Hp Hq. apply port_of_key in Hp. destruct Hp as (a & ->).
  apply in_flat_map in Hq. destruct Hq as (c & Hc & Hq).
  apply in_map_iff in Hc. destruct Hc as ([k' n'] & <- & Hin).
  apply port_of_key in Hq. destruct Hq as (b & Hq).
  apply port_id_inj in Hq. destruct Hq as [-> _].
  apply Hn. apply in_map_iff. exists (k', n'). auto.
Qed.

Lemma request_port_ids_are_distinct_witness :
  NoDup (PyDict.keys (nodes flowchart_graph))
  /\ NoDup (flat_map port_ids (elk_children (_build_elk_graph default_engine flowchart_graph))).
Proof.
  assert (ND : NoDup (PyDict.keys (nodes flowchart_graph))).
  { apply nodupb_spec. reflexivity. }
  split; [exact ND|].
  apply (request_port_ids_are_distinct default_engine flowchart_graph ND).
Defined.

(* ================================================================== *)
(** * Extraction, in the terms of the document *)

(* ------------------------------------------------------------------ *)
(** ** The elements of the index are the indexed elements of the model *)

Section IndexedElements.

Lemma flat_map_ext_In {A B : Type} (f g : A -> list B) (l : list A) :
  (forall a, In a l -> f a = g a) -> flat_map f l = flat_map g l.
Proof.
  induction l as [|a l IH]; simpl; intros H; [reflexivity|].
  rewrite (H a) by auto. rewrite IH; auto.
Qed.

Lemma values_by_keys {V : Type} (d : PyDict.t V) :
  NoDup (PyDict.keys d) ->
  PyDict.values d
  = flat_map (fun k => match PyDict.get k d with Some v => [v] | None => [] end)
      (PyDict.keys d).
Proof.
  unfold PyDict.keys, PyDict.values.
  induction d as [|[k v] d IH]; simpl; intros ND; [reflexivity|].
  inversion ND as [|? ? Hn ND']; subst.
  rewrite String.eqb_refl. simpl. f_equal.
  rewrite (IH ND') at 1. apply flat_map_ext_In. intros k' Hk'.
  destruct (String.eqb k' k) eqn:E; [|reflexivity].
  apply String.eqb_eq in E. subst k'. contradiction.
Qed.

Lemma In_first_occurrences (l seen : list string) (a : string) :
  In a (first_occurrences seen l) -> In a l.
Proof.
  revert seen. induction l as [|b l IH]; intros seen; simpl; auto.
  destruct (PyStr.in_list b seen); simpl; intros H.
  - right. eapply IH; eauto.
  - destruct H as [H|H]; auto. right. eapply IH; eauto.
Qed.

(** the index holds the indexed elements, in their order *)
Lemma values_indexed (model : Element) :
  PyDict.values (build_cell_map model) = indexed_elements model.
Proof.
  destruct (index_ok_build model) as [ND _].
  rewrite (@values_by_keys _ _ ND). unfold indexed_elements, build_cell_map.
  rewrite keys_fold_index. simpl.
  apply flat_map_ext_In. intros k Hk.
  apply In_first_occurrences in Hk. apply filter_In in Hk. destruct Hk as [_ T].
  rewrite get_fold_index by exact T. unfold last_with_id.
  destruct (find (has_id k) (rev (ET.iter model))); reflexivity.
Qed.

Lemma get_last_with_id (model : Element) (k : string) (c : Element) :
  PyDict.get k (build_cell_map model) = Some c -> last_with_id model k = Some c.
Proof.
  intros G. destruct (index_ok_build model) as [_ Hok].
  destruct (Hok k c (PyDictFacts.get_Some_In _ _ G)) as [_ T].
  unfold build_cell_map in G. rewrite get_fold_index in G by exact T.
  unfold last_with_id. destruct (find (has_id k) (rev (ET.iter model))); auto.
Qed.

(** two indexed elements with one id are one element *)
Lemma indexed_unique (model : Element) (c c' : Element) :
  In c (indexed_elements model) -> In c' (indexed_elements model) ->
  ET.get_d c "id" "" = ET.get_d c' "id" "" -> c = c'.
Proof.
  rewrite <- values_indexed. intros H H' E.
  destruct (@index_value_get _ c (index_ok_build model) H) as (k & Hk & _ & G).
  destruct (@index_value_get _ c' (index_ok_build model) H') as (k' & Hk' & _ & G').
  unfold ET.get_d in E. rewrite Hk, Hk' in E. subst k'. congruence.
Qed.

Lemma first_occurrences_NoDup (l seen : list string) :
  NoDup l -> (forall a, In a l -> ~ In a seen) -> first_occurrences seen l = l.
Proof.
  revert seen. induction l as [|a l IH]; intros seen ND H; simpl; [reflexivity|].
  inversion ND as [|? ? Hn ND']; subst.
  destruct (PyStr.in_list a seen) eqn:E.
  - apply in_list_spec in E. exfalso. apply (H a); simpl; auto.
  - f_equal. apply IH; auto.
    intros b Hb [<-|Hs]; [contradiction|]. apply (H b); simpl; auto.
Qed.

Lemma In_ids_of (l : list Element) (c : Element) (k : string) :
  In c l -> ET.get c "id" = Some k -> In k (ids_of l).
Proof.
  intros H G. unfold ids_of. apply in_flat_map. exists c. split; auto.
  rewrite G. simpl. auto.
Qed.

Lemma id_unique (l : list Element) (c c' : Element) (k : string) :
  NoDup (ids_of l) -> In c l -> In c' l ->
  ET.get c "id" = Some k -> ET.get c' "id" = Some k -> c = c'.
Proof.
  induction l as [|a l IH]; simpl; intros ND H H' G G'; [destruct H|].
  unfold ids_of in ND. simpl in ND. fold (ids_of l) in ND.
  assert (ND' : NoDup (ids_of l)).
  { destruct (ET.get a "id"); simpl in ND; auto. now inversion ND. }
  assert (Hno : forall x, In x l -> ET.get x "id" = Some k ->
                          ET.get a "id" = Some k -> False).
  { intros x Hx Gx Ga. rewrite Ga in ND. simpl in ND. inversion ND as [|? ? Hn _]; subst.
    apply Hn. eapply In_ids_of; eauto. }
  destruct H as [<-|H], H' as [<-|H']; auto.
  - exfalso. eapply Hno; eauto.
  - exfalso. eapply Hno; eauto.
Qed.

Lemma find_last_unique (l : list Element) (c : Element) (k : string) :
  NoDup (ids_of l) -> In c l -> ET.get c "id" = Some k ->
  find (has_id k) (rev l) = Some c.
Proof.
  intros ND H G.
  destruct (find (has_id k) (rev l)) as [c'|] eqn:F.
  - destruct (find_some _ _ F) as [Hin Hid]. apply in_rev in Hin.
    unfold has_id, PyStr.opt_eqb in Hid.
    destruct (ET.get c' "id") as [k'|] eqn:G'; [|discriminate].
    apply String.eqb_eq in Hid. subst k'.
    f_equal. eapply id_unique; eauto.
  - exfalso. apply in_rev in H. pose proof (find_none _ _ F c H) as Hf.
    unfold has_id, PyStr.opt_eqb in Hf. rewrite G, String.eqb_refl in Hf. discriminate.
Qed.

Lemma indexed_sublist (L l : list Element) :
  NoDup (ids_of L) -> (forall c, In c l -> In c L) ->
  flat_map (fun k => match find (has_id k) (rev L) with Some c => [c] | None => [] end)
    (filter PyStr.truthy (ids_of l))
  = filter (fun c => PyStr.truthy_opt (ET.get c "id")) l.
Proof.
  intros ND. induction l as [|a l IH]; intros H; [reflexivity|].
  assert (IH' := IH (fun c Hc => H c (or_intror Hc))).
  unfold ids_of. simpl. fold (ids_of l).
  destruct (ET.get a "id") as [i|] eqn:G; simpl; [|exact IH'].
  destruct (PyStr.truthy i); simpl; [|exact IH'].
  rewrite (@find_last_unique L a i ND (H a (or_introl eq_refl)) G). simpl.
  now rewrite IH'.
Qed.

(** when no id occurs twice in the model, the indexed elements are the
    elements with an id, in document order *)
Lemma indexed_of_distinct (model : Element) :
  NoDup (ids_of (ET.iter model)) -> indexed_elements model = elements_with_id model.
Proof.
  intros ND. unfold indexed_elements, elements_with_id, last_with_id.
  rewrite first_occurrences_NoDup.
  - apply indexed_sublist; auto.
  - now apply NoDup_filter.
  - intros a _ [].
Qed.

End IndexedElements.

(* ------------------------------------------------------------------ *)
(** ** Spellings and decorations *)

Section Spellings.

Ltac ascii_cases c :=
  destruct c as [[] [] [] [] [] [] [] []]; vm_compute; intros H;
  first [discriminate H | now left | now right].

Lemma lower_is_y (c : ascii) :
  PyStr.lower_ascii c = "y"%char -> c = "y"%char \/ c = "Y"%char.
Proof. ascii_cases c. Qed.

Lemma lower_is_e (c : ascii) :
  PyStr.lower_ascii c = "e"%char -> c = "e"%char \/ c = "E"%char.
Proof. ascii_cases c. Qed.

Lemma lower_is_s (c : ascii) :
  PyStr.lower_ascii c = "s"%char -> c = "s"%char \/ c = "S"%char.
Proof. ascii_cases c. Qed.

Lemma lower_is_n (c : ascii) :
  PyStr.lower_ascii c = "n"%char -> c = "n"%char \/ c = "N"%char.
Proof. ascii_cases c. Qed.

Lemma lower_is_o (c : ascii) :
  PyStr.lower_ascii c = "o"%char -> c = "o"%char \/ c = "O"%char.
Proof. ascii_cases c. Qed.

Ltac in_spellings := simpl; repeat (first [left; reflexivity | right]).

Lemma lower_yes (v : string) :
  PyStr.in_list (PyStr.lower v) ["y"; "yes"] = true <-> In v yes_spellings.
Proof.
  split.
  - intros H. apply in_list_spec in H. destruct H as [H|[H|[]]].
    + destruct v as [|c [|? ?]]; simpl in H; try discriminate.
      injection H as H. symmetry in H.
      destruct (lower_is_y _ H) as [-> | ->]; in_spellings.
    + destruct v as [|c1 [|c2 [|c3 [|? ?]]]]; simpl in H; try discriminate.
      injection H as H1 H2 H3. symmetry in H1, H2, H3.
      destruct (lower_is_y _ H1) as [-> | ->], (lower_is_e _ H2) as [-> | ->],
        (lower_is_s _ H3) as [-> | ->]; in_spellings.
  - intros H. unfold yes_spellings in H. simpl in H.
    repeat (destruct H as [<-|H]; [reflexivity|]). destruct H.
Qed.

Lemma lower_no (v : string) :
  PyStr.in_list (PyStr.lower v) ["n"; "no"] = true <-> In v no_spellings.
Proof.
  split.
  - intros H. apply in_list_spec in H. destruct H as [H|[H|[]]].
    + destruct v as [|c [|? ?]]; simpl in H; try discriminate.
      injection H as H. symmetry in H.
      destruct (lower_is_n _ H) as [-> | ->]; in_spellings.
    + destruct v as [|c1 [|c2 [|? ?]]]; simpl in H; try discriminate.
      injection H as H1 H2. symmetry in H1, H2.
      destruct (lower_is_n _ H1) as [-> | ->], (lower_is_o _ H2) as [-> | ->];
        in_spellings.
  - intros H. unfold no_spellings in H. simpl in H.
    repeat (destruct H as [<-|H]; [reflexivity|]). destruct H.
Qed.

(** the label that the code gives for a value is the label the value
    stands for *)
Lemma yes_no_stands_for (v : string) :
  stands_for v (yes_no (PyStr.lower v) "").
Proof.
  unfold stands_for, yes_no.
  destruct (PyStr.in_list (PyStr.lower v) ["y"; "yes"]) eqn:Y.
  - split; [reflexivity|]. split.
    + intros Hn. exfalso. unfold no_spellings in Hn. simpl in Hn.
      repeat (destruct Hn as [<-|Hn]; [discriminate Y|]). destruct Hn.
    + intros Hy. exfalso. apply Hy. now apply lower_yes.
  - destruct (PyStr.in_list (PyStr.lower v) ["n"; "no"]) eqn:N.
    + split; [|split; [reflexivity|]].
      * intros Hy. apply lower_yes in Hy. congruence.
      * intros _ Hn. exfalso. apply Hn. now apply lower_no.
    + split; [|split; [|reflexivity]].
      * intros Hy. apply lower_yes in Hy. congruence.
      * intros Hn. apply lower_no in Hn. congruence.
Qed.

Lemma prefix_spec (n h : string) :
  String.prefix n h = true <-> exists post, h = (n ++ post)%string.
Proof.
  revert h. induction n as [|a n IH]; intros h.
  - destruct h; simpl; (split; [intros _; eexists; reflexivity | reflexivity]).
  - destruct h as [|b h]; simpl.
    + split; [discriminate | intros [post H]; discriminate].
    + destruct (ascii_dec a b) as [->|Hab].
      * rewrite IH. split; intros [post H]; exists post; [now rewrite H | now injection H].
      * split; [discriminate|]. intros [post H]. injection H as H _. congruence.
Qed.

Lemma contains_unfold (n h : string) :
  PyStr.contains n h
  = if String.prefix n h then true
    else match h with
         | EmptyString => false
         | String _ h' => PyStr.contains n h'
         end.
Proof. destruct h; reflexivity. Qed.

Lemma contains_spec (n h : string) :
  PyStr.contains n h = true <-> exists pre post, h = (pre ++ n ++ post)%string.
Proof.
  induction h as [|c h IH]; rewrite contains_unfold;
    destruct (String.prefix n _) eqn:P.
  - split; [intros _|reflexivity]. apply prefix_spec in P. destruct P as [post P].
    exists "", post. exact P.
  - split; [discriminate|]. intros (pre & post & H).
    destruct pre; [|discriminate]. simpl in H.
    assert (P' : String.prefix n "" = true) by (apply prefix_spec; eauto).
    congruence.
  - split; [intros _|reflexivity]. apply prefix_spec in P. destruct P as [post P].
    exists "", post. exact P.
  - rewrite IH. split.
    + intros (pre & post & ->). exists (String c pre), post. reflexivity.
    + intros (pre & post & H). destruct pre as [|c' pre].
      * simpl in H.
        assert (P' : String.prefix n (String c h) = true) by (apply prefix_spec; eauto).
        congruence.
      * injection H as _ H. eauto.
Qed.

Lemma is_label_of_spec `{PF : PyFloat} (eid : string) (c : Element) :
  is_label_of eid c = true <-> decorates eid c.
Proof.
  unfold is_label_of, decorates. rewrite andb_true_iff, contains_spec.
  unfold PyStr.opt_eqb. destruct (ET.get c "parent") as [p|].
  - rewrite String.eqb_eq. split; intros [H H']; split; auto; congruence.
  - split; intros [H _]; discriminate.
Qed.

Lemma find_first {A : Type} (f : A -> bool) (before after : list A) (a : A) :
  (forall b, In b before -> f b = false) -> f a = true ->
  find f (before ++ a :: after) = Some a.
Proof.
  induction before as [|b before IH]; simpl; intros H Ha.
  - now rewrite Ha.
  - rewrite (H b) by auto. apply IH; auto.
Qed.

Lemma find_nowhere {A : Type} (f : A -> bool) (l : list A) :
  (forall b, In b l -> f b = false) -> find f l = None.
Proof.
  induction l as [|b l IH]; simpl; intros H; [reflexivity|].
  rewrite (H b) by auto. apply IH; auto.
Qed.

End Spellings.

(* ------------------------------------------------------------------ *)
(** ** Edges, sizes and labels, element by element *)

Section NodeOfElement.
Context {PF : PyFloat}.

(** every node element that extraction looks at has a node, filed under
    its id, with the sizes that its geometry gives *)
Lemma node_of_element (root model : Element) (g : FlowGraph) (c : Element) :
  find_model (namespace_of root) root = Some model ->
  parse (Ok root) = Ok g ->
  In c (indexed_elements model) ->
  _is_edge c = false -> _is_node (fresh_parser root model) c = true ->
  exists k geo n,
    ET.get c "id" = Some k /\
    find_geo (namespace_of root) c = Some geo /\
    PyDict.get k (nodes g) = Some n /\
    float_attr geo "width" 120 = Ok (width n) /\
    float_attr geo "height" 60 = Ok (height n).
Proof.
  intros Hm H Hin He Hn.
  destruct (parse_nodes _ H) as (model' & p1 & Hm' & Inv & ->).
  rewrite Hm in Hm'. injection Hm' as <-.
  destruct Inv as (_ & _ & _ & Hmade & Hall).
  rewrite <- values_indexed in Hin.
  pose proof (Hall c Hin He Hn) as Hmem. unfold PyDict.mem in Hmem.
  destruct (PyDict.get (ET.get_d c "id" "") (nodes (graph p1))) as [n0|] eqn:G;
    [|discriminate].
  destruct (Hmade _ n0 G) as (c' & geo & Hin' & Hid & _ & _ & Hg & Hw & Hh & _).
  assert (E : c' = c).
  { apply (@indexed_unique model); rewrite <- ?values_indexed; auto. }
  subst c'.
  destruct (@index_value_get _ c (index_ok_build model) Hin) as (k & Hk & _ & _).
  assert (Hkd : ET.get_d c "id" "" = k) by (unfold ET.get_d; now rewrite Hk).
  rewrite Hkd in G.
  eexists k, geo, _. split; [exact Hk|]. split; [exact Hg|].
  split; [rewrite get_infer, nodes_labels, G; reflexivity|].
  destruct (refine_type_frame
              (in_degree (graph (_extract_edge_labels p1)) k)
              (out_degree (graph (_extract_edge_labels p1)) k) n0)
    as (_ & -> & ->).
  auto.
Qed.

End NodeOfElement.

(** C8, corrected.  In an extracted graph no two edges have the same
    (source, target) pair.  The element that is kept for a pair is not the
    first of the document: extraction looks at one element for each id that
    is not empty, in the order in which the ids first occur in the document,
    and for each id at the last element that carries it; each edge carries
    the id of the first of these elements that has its source and target,
    and every one of these elements with a source and a target that are not
    empty has its pair among the edges.  When no id occurs twice in the
    graph model, these elements are the elements with an id that is not
    empty, in document order, so that the first occurrence of a pair among
    them is kept and the later ones are discarded. *)
Theorem extraction_keeps_first_of_each_pair `{PF : PyFloat}
  (root : Element) (g : FlowGraph) :
  parse (Ok root) = Ok g ->
  exists model,
    find_model (namespace_of root) root = Some model /\
    NoDup (map pair_of (edges g)) /\
    (forall e, In e (edges g) ->
       exists c, find (has_pair (source_id e) (target_id e)) (indexed_elements model)
                 = Some c /\
                 ET.get c "id" = Some (edge_id e)) /\
    (forall c s t, In c (indexed_elements model) ->
       ET.get c "source" = Some s -> ET.get c "target" = Some t ->
       PyStr.truthy s = true -> PyStr.truthy t = true ->
       In (s, t) (map pair_of (edges g))) /\
    (NoDup (ids_of (ET.iter model)) ->
     indexed_elements model = elements_with_id model).
Proof.
  intros H. destruct (first_of_each_pair_by_index _ H) as (cm & Hcm & ND & Hfirst & Hall).
  unfold index_of in Hcm.
  destruct (find_model (namespace_of root) root) as [model|]; [|discriminate].
  simpl in Hcm. injection Hcm as <-. rewrite values_indexed in Hfirst, Hall.
  exists model. split; [reflexivity|]. split; [exact ND|]. split; [exact Hfirst|].
  split; [exact Hall | apply indexed_of_distinct].
Qed.

Lemma extraction_keeps_first_of_each_pair_witness :
  parse (Ok flowchart_doc) = Ok flowchart_graph
  /\ exists model,
      find_model (namespace_of flowchart_doc) flowchart_doc = Some model /\
      NoDup (map pair_of (edges flowchart_graph)) /\
      (forall e, In e (edges flowchart_graph) ->
         exists c, find (has_pair (source_id e) (target_id e)) (indexed_elements model)
                   = Some c /\
                   ET.get c "id" = Some (edge_id e)) /\
      (forall c s t, In c (indexed_elements model) ->
         ET.get c "source" = Some s -> ET.get c "target" = Some t ->
         PyStr.truthy s = true -> PyStr.truthy t = true ->
         In (s, t) (map pair_of (edges flowchart_graph))) /\
      (NoDup (ids_of (ET.iter model)) ->
       indexed_elements model = elements_with_id model).
Proof.
  split; [reflexivity|].
  apply (extraction_keeps_first_of_each_pair flowchart_doc). reflexivity.
Defined.

(** C8 as stated fails: in [repeated_id_doc] the first element of the
    document with the pair (A, B) carries the id "e", and the edge that is
    kept for that pair carries the id "x" of the third element; the first
    element of the document, with the pair (C, D), gives no edge at all. *)
Lemma repeated_id_loses_the_first_occurrence :
  parse (Ok repeated_id_doc)
  = Ok {| nodes := []; edges := [ new_FlowEdge "x" "A" "B" ] |}
  /\ option_map (fun c => ET.get c "id")
       (find (has_pair "A" "B") (ET.iter repeated_id_doc)) = Some (Some "e")
  /\ option_map (fun c => ET.get c "id")
       (find (has_pair "C" "D") (ET.iter repeated_id_doc)) = Some (Some "x")
  /\ ~ In ("C", "D") (map pair_of [ new_FlowEdge "x" "A" "B" ]).
Proof.
  split; [reflexivity|]. split; [reflexivity|]. split; [reflexivity|].
  simpl. intros [H|[]]. discriminate H.
Qed.

(** C6, corrected.  For a document with a graph model.  Extraction succeeds
    when every width and every height attribute on the geometry of a node
    element is the text of a float.  When extraction succeeds, every node
    element that it looks at yields a node, filed under the element's id: a
    geometry without width gives the width 120.0, a geometry without height
    gives the height 60.0, and an attribute that is there gives the node its
    value.  When the geometry of some node element carries a width or a
    height that is not the text of a float, extraction fails: it raises
    ValueError with such a text, and no default is used. *)
Theorem size_defaults `{PF : PyFloat} (root model : Element) :
  find_model (namespace_of root) root = Some model ->
  ((forall c geo k s,
       In c (indexed_elements model) ->
       _is_edge c = false -> _is_node (fresh_parser root model) c = true ->
       find_geo (namespace_of root) c = Some geo ->
       k = "width" \/ k = "height" ->
       ET.get geo k = Some s -> float_of_str s <> None) ->
   exists g, parse (Ok root) = Ok g)
  /\
  (forall g, parse (Ok root) = Ok g ->
     forall c, In c (indexed_elements model) ->
       _is_edge c = false -> _is_node (fresh_parser root model) c = true ->
       exists k geo n,
         ET.get c "id" = Some k /\
         find_geo (namespace_of root) c = Some geo /\
         PyDict.get k (nodes g) = Some n /\
         (ET.get geo "width" = None -> width n = float_of_int 120) /\
         (ET.get geo "height" = None -> height n = float_of_int 60) /\
         (forall s, ET.get geo "width" = Some s -> float_of_str s = Some (width n)) /\
         (forall s, ET.get geo "height" = Some s -> float_of_str s = Some (height n)))
  /\
  (forall c geo k s,
     In c (indexed_elements model) ->
     _is_edge c = false -> _is_node (fresh_parser root model) c = true ->
     find_geo (namespace_of root) c = Some geo ->
     k = "width" \/ k = "height" ->
     ET.get geo k = Some s -> float_of_str s = None ->
     exists s', float_of_str s' = None /\ parse (Ok root) = Raise (ValueError s')).
Proof.
  intros Hm.
  assert (B : forall g, parse (Ok root) = Ok g ->
     forall c, In c (indexed_elements model) ->
       _is_edge c = false -> _is_node (fresh_parser root model) c = true ->
       exists k geo n,
         ET.get c "id" = Some k /\
         find_geo (namespace_of root) c = Some geo /\
         PyDict.get k (nodes g) = Some n /\
         (ET.get geo "width" = None -> width n = float_of_int 120) /\
         (ET.get geo "height" = None -> height n = float_of_int 60) /\
         (forall s, ET.get geo "width" = Some s -> float_of_str s = Some (width n)) /\
         (forall s, ET.get geo "height" = Some s -> float_of_str s = Some (height n))).
  { intros g H c Hin He Hn.
    destruct (node_of_element root c Hm H Hin He Hn)
      as (k & geo & n & Hk & Hg & Gn & Hw & Hh).
    exists k, geo, n.
    destruct (float_attr_inv _ _ _ Hw) as [Hw1 Hw2].
    destruct (float_attr_inv _ _ _ Hh) as [Hh1 Hh2].
    auto 10. }
  split; [|split; [exact B|]].
  - intros Hnum. destruct (sizes_by_index root Hm) as [Hrun _].
    apply Hrun. rewrite values_indexed. exact Hnum.
  - intros c geo k s Hin He Hn Hg Hk Hs Hf.
    destruct (parse (Ok root)) as [g|e] eqn:P.
    + exfalso.
      destruct (B g eq_refl c Hin He Hn) as (k' & geo' & n & _ & Hg' & _ & _ & _ & Hw & Hh).
      rewrite Hg in Hg'. injection Hg' as <-.
      destruct Hk as [-> | ->]; [rewrite (Hw s Hs) in Hf | rewrite (Hh s Hs) in Hf];
        discriminate.
    + destruct (parse_raise_cases root P) as [[Hnone _]|Hc].
      * rewrite Hm in Hnone. discriminate.
      * destruct Hc as (m & c0 & g0 & k0 & s' & _ & _ & _ & _ & _ & _ & _ & Hf' & ->).
        exists s'. auto.
Qed.

Lemma size_defaults_witness :
  (find_model (namespace_of flowchart_doc) flowchart_doc = Some flowchart_model
   /\ parse (Ok flowchart_doc) = Ok flowchart_graph
   /\ forall c, In c (indexed_elements flowchart_model) ->
        _is_edge c = false ->
        _is_node (fresh_parser flowchart_doc flowchart_model) c = true ->
        exists k geo n,
          ET.get c "id" = Some k /\
          find_geo (namespace_of flowchart_doc) c = Some geo /\
          PyDict.get k (nodes flowchart_graph) = Some n /\
          (ET.get geo "width" = None -> width n = float_of_int 120) /\
          (ET.get geo "height" = None -> height n = float_of_int 60) /\
          (forall s, ET.get geo "width" = Some s -> float_of_str s = Some (width n)) /\
          (forall s, ET.get geo "height" = Some s -> float_of_str s = Some (height n)))
  /\
  (find_model (namespace_of wide_doc) wide_doc = Some wide_doc
   /\ exists s', float_of_str s' = None /\ parse (Ok wide_doc) = Raise (ValueError s')).
Proof.
  split.
  - split; [reflexivity|]. split; [reflexivity|].
    destruct (@size_defaults whole_float flowchart_doc flowchart_model eq_refl)
      as (_ & H & _).
    apply (H flowchart_graph). reflexivity.
  - split; [reflexivity|].
    destruct (@size_defaults whole_float wide_doc wide_doc eq_refl) as (_ & _ & H).
    apply (H (Elem "mxCell" [("id", "A"); ("vertex", "1"); ("parent", "1")]
               [Elem "mxGeometry" [("width", "wide"); ("height", "60")] []])
             (Elem "mxGeometry" [("width", "wide"); ("height", "60")] [])
             "width" "wide").
    + left. reflexivity.
    + reflexivity.
    + reflexivity.
    + reflexivity.
    + left. reflexivity.
    + reflexivity.
    + reflexivity.
Defined.

(** C5, corrected, for an edge whose element has a child (its geometry; an
    element without a child is skipped).  The element of an extracted edge
    is the last element of the document that carries the edge's id.  When
    that element's own value is not empty, it alone decides the label:
    "yes" for a spelling of "y" or "yes" in any case, "no" for a spelling of
    "n" or "no" in any case, and the empty label for any other value; no
    decoration is looked at.  When the own value is missing or empty, the
    label is decided in the same way by the value of the first of the
    elements that extraction looks at whose parent is the edge's id and
    whose style contains "edgeLabel", and it is empty when there is no such
    element. *)
Theorem label_extraction `{PF : PyFloat} (root : Element) (g : FlowGraph) :
  parse (Ok root) = Ok g ->
  exists model,
    find_model (namespace_of root) root = Some model /\
    forall e, In e (edges g) ->
      exists cell,
        last_with_id model (edge_id e) = Some cell /\
        (ET.children cell <> [] ->
         (forall v, ET.get cell "value" = Some v -> v <> "" -> stands_for v (label e))
         /\
         (ET.get cell "value" = None \/ ET.get cell "value" = Some "" ->
          (forall before child after,
             indexed_elements model = before ++ child :: after ->
             decorates (edge_id e) child ->
             (forall c, In c before -> ~ decorates (edge_id e) c) ->
             stands_for (ET.get_d child "value" "") (label e))
          /\
          ((forall c, In c (indexed_elements model) -> ~ decorates (edge_id e) c) ->
           label e = ""))).
Proof.
  intros H. destruct (label_by_index _ H) as (cm & Hcm & Hlab).
  unfold index_of in Hcm.
  destruct (find_model (namespace_of root) root) as [model|]; [|discriminate].
  simpl in Hcm. injection Hcm as <-.
  exists model. split; [reflexivity|].
  intros e He. destruct (Hlab e He) as (cell & G & Hown & Hscan).
  exists cell. split; [now apply get_last_with_id|].
  intros Hch.
  assert (T : ET.truthy cell = true).
  { unfold ET.truthy. destruct (ET.children cell); [contradiction | reflexivity]. }
  split.
  - intros v Hv Hne.
    assert (Tv : PyStr.truthy_opt (ET.get cell "value") = true).
    { rewrite Hv. destruct v; [contradiction | reflexivity]. }
    rewrite (Hown T Tv). unfold ET.get_d. rewrite Hv. apply yes_no_stands_for.
  - intros Hv.
    assert (Tv : PyStr.truthy_opt (ET.get cell "value") = false).
    { destruct Hv as [-> | ->]; reflexivity. }
    rewrite (Hscan T Tv), values_indexed. split.
    + intros before child after Hsplit Hd Hnone.
      rewrite Hsplit, find_first.
      * apply yes_no_stands_for.
      * intros b Hb. destruct (is_label_of (edge_id e) b) eqn:E; auto.
        apply is_label_of_spec in E. exfalso. now apply (Hnone b).
      * now apply is_label_of_spec.
    + intros Hnone. rewrite find_nowhere; auto.
      intros b Hb. destruct (is_label_of (edge_id e) b) eqn:E; auto.
      apply is_label_of_spec in E. exfalso. now apply (Hnone b).
Qed.

Lemma label_extraction_witness :
  parse (Ok flowchart_doc) = Ok flowchart_graph
  /\ exists model,
      find_model (namespace_of flowchart_doc) flowchart_doc = Some model /\
      forall e, In e (edges flowchart_graph) ->
        exists cell,
          last_with_id model (edge_id e) = Some cell /\
          (ET.children cell <> [] ->
           (forall v, ET.get cell "value" = Some v -> v <> "" -> stands_for v (label e))
           /\
           (ET.get cell "value" = None \/ ET.get cell "value" = Some "" ->
            (forall before child after,
               indexed_elements model = before ++ child :: after ->
               decorates (edge_id e) child ->
               (forall c, In c before -> ~ decorates (edge_id e) c) ->
               stands_for (ET.get_d child "value" "") (label e))
            /\
            ((forall c, In c (indexed_elements model) -> ~ decorates (edge_id e) c) ->
             label e = ""))).
Proof.
  split; [reflexivity|].
  apply (label_extraction flowchart_doc). reflexivity.
Defined.
